(** * MCP CrowdStrike: provider session life cycle, tool registry and dispatch

    A shallow embedding of the Python sources

      - [utils/responses.py]          (module [Responses])
      - [providers/crowdstrike.py]    (module [Provider])
      - [tools/registry.py]           (module [Registry])
      - [tools/crowdstrike/hosts.py], [detections.py], [incidents.py]
                                      (modules [Hosts], [Detections], [Incidents])

    Python dicts are finite maps with string keys, Python values are a small
    JSON-like universe, and coroutines are state-passing functions over a
    world made of the provider object and a chronological trace of the
    interactions one can observe from outside: provider-level method calls
    and calls to the remote service. *)

From Stdlib Require Import ZArith Ascii String List Lia.
From stdpp Require Import base option list gmap strings.

Open Scope Z_scope.
Open Scope string_scope.

(** ** Python values *)

#[warnings="-register-all"]
Inductive Value : Type :=
  | VNone
  | VBool (b : bool)
  | VInt (z : Z)
  | VStr (s : string)
  | VList (l : list Value)
  | VDict (d : gmap string Value).

Abbreviation Dict := (gmap string Value).

(** [bool(v)] *)
Definition truthy (v : Value) : bool :=
  match v with
  | VNone => false
  | VBool b => b
  | VInt z => negb (z =? 0)%Z
  | VStr s => negb (String.eqb s "")
  | VList l => match l with [] => false | _ :: _ => true end
  | VDict d => negb (bool_decide (size d = 0%nat))
  end.

(** [type(v).__name__] *)
Definition type_name (v : Value) : string :=
  match v with
  | VNone => "NoneType"
  | VBool _ => "bool"
  | VInt _ => "int"
  | VStr _ => "str"
  | VList _ => "list"
  | VDict _ => "dict"
  end.

(** [v == n] for an integer literal [n] ([True == 1] and [False == 0]). *)
Definition py_eq_int (v : Value) (n : Z) : bool :=
  match v with
  | VInt z => (z =? n)%Z
  | VBool b => ((if b then 1 else 0) =? n)%Z
  | _ => false
  end.

(** [v in l] where [l] is a list of [str] constants. *)
Definition py_in_strs (v : Value) (l : list string) : bool :=
  match v with
  | VStr s => bool_decide (s ∈ l)
  | _ => false
  end.

(** [sep.join(l)] *)
Fixpoint join (sep : string) (l : list string) : string :=
  match l with
  | [] => ""
  | [s] => s
  | s :: rest => s ++ sep ++ join sep rest
  end.

(** ** Exceptions and outcomes

    Only instances of [Exception] are modelled; [exn_str] is [str(e)]. *)

Inductive ExnClass : Type :=
  | ValueError
  | ConnectionError
  | RuntimeError
  | KeyError
  | AttributeError
  | TypeError
  | OtherException (name : string).

Record Exn : Type := mkExn { exn_class : ExnClass; exn_str : string }.

Inductive Outcome (A : Type) : Type :=
  | Ret (a : A)
  | Raise (e : Exn).
Arguments Ret {A} a.
Arguments Raise {A} e.

(** [d.get(k, default)] on a value known to be a dict *)
Definition dict_get (d : Dict) (k : string) (dflt : Value) : Value :=
  default dflt (d !! k).

(** Looking up the attribute [get] of an arbitrary value *)
Definition getattr_get (v : Value) : Outcome Dict :=
  match v with
  | VDict d => Ret d
  | _ => Raise (mkExn AttributeError
                  ("'" ++ type_name v ++ "' object has no attribute 'get'"))
  end.

(** [v.get(k, default)] on an arbitrary value *)
Definition py_get (v : Value) (k : string) (dflt : Value) : Outcome Value :=
  match getattr_get v with
  | Ret d => Ret (dict_get d k dflt)
  | Raise e => Raise e
  end.

(** [v[k]] for a string key [k] *)
Definition py_subscript (v : Value) (k : string) : Outcome Value :=
  match v with
  | VDict d =>
      match d !! k with
      | Some x => Ret x
      | None => Raise (mkExn KeyError ("'" ++ k ++ "'"))
      end
  | VList _ =>
      Raise (mkExn TypeError "list indices must be integers or slices, not str")
  | VStr _ =>
      Raise (mkExn TypeError "string indices must be integers, not 'str'")
  | _ =>
      Raise (mkExn TypeError
               ("'" ++ type_name v ++ "' object is not subscriptable"))
  end.

(** [len(v)] *)
Definition py_len (v : Value) : Outcome Z :=
  match v with
  | VStr s => Ret (Z.of_nat (String.length s))
  | VList l => Ret (Z.of_nat (length l))
  | VDict d => Ret (Z.of_nat (size d))
  | _ => Raise (mkExn TypeError
                  ("object of type '" ++ type_name v ++ "' has no len()"))
  end.

(** The number [t + v] is computed from, when [v] is numeric *)
Definition py_number (v : Value) : Outcome Z :=
  match v with
  | VInt z => Ret z
  | VBool b => Ret (if b then 1 else 0)
  | _ => Raise (mkExn TypeError
                  ("unsupported operand type(s) for +: 'float' and '"
                     ++ type_name v ++ "'"))
  end.

(** ** State and exceptions

    A computation over a mutable state [S] returns an outcome together with
    the state it leaves behind, also when it raises. *)

Definition M (S A : Type) : Type := S -> Outcome A * S.

Definition ret {S A} (a : A) : M S A := fun s => (Ret a, s).
Definition raise {S A} (e : Exn) : M S A := fun s => (Raise e, s).
Definition lift {S A} (o : Outcome A) : M S A := fun s => (o, s).

Definition bind {S A B} (m : M S A) (k : A -> M S B) : M S B :=
  fun s =>
    match m s with
    | (Ret a, s') => k a s'
    | (Raise e, s') => (Raise e, s')
    end.

(** [try: m except Exception as e: h e] *)
Definition try_except {S A} (m : M S A) (h : Exn -> M S A) : M S A :=
  fun s =>
    match m s with
    | (Ret a, s') => (Ret a, s')
    | (Raise e, s') => h e s'
    end.

Notation "x <- m ;; k" := (bind m (fun x => k))
  (at level 20, m at level 99, k at level 200, only parsing).
Notation "m ;; k" := (bind m (fun _ => k))
  (at level 100, k at level 200, right associativity, only parsing).

(** ** utils/responses.py *)

Module Responses.

Definition set_opt (k : string) (o : option Value) (d : Dict) : Dict :=
  match o with
  | Some v => <[k := v]> d
  | None => d
  end.

Definition success_response (data : Value) (metadata : option Dict) : Dict :=
  let response : Dict := <["data" := data]> (<["success" := VBool true]> ∅) in
  set_opt "metadata" (VDict <$> metadata) response.

Definition error_response (error : Value) (tool_name : option string)
    (status_code : option Value) (details : option Dict) : Dict :=
  let response : Dict := <["error" := error]> (<["success" := VBool false]> ∅) in
  let response := set_opt "tool" (VStr <$> tool_name) response in
  let response := set_opt "status_code" status_code response in
  set_opt "details" (VDict <$> details) response.

Definition validation_error_response (field message : string)
    (tool_name : option string) : Dict :=
  error_response (VStr "Validation error") tool_name None
    (Some (<["message" := VStr message]> (<["field" := VStr field]> ∅))).

Definition api_error_response (api_name : string) (status_code : Value)
    (message : string) (tool_name : option string) : Dict :=
  error_response (VStr (api_name ++ " API error")) tool_name (Some status_code)
    (Some (<["message" := VStr message]> (<["api" := VStr api_name]> ∅))).

End Responses.

(** ** The world: provider object, remote service, observable trace *)

(** [config.Settings], the fields the provider reads *)
Record Settings : Type := mkSettings {
  falcon_client_id : string;
  falcon_client_secret : string;
  falcon_base_url : string
}.

Definition get_falcon_credentials (s : Settings) : string * string :=
  (falcon_client_id s, falcon_client_secret s).

(** [falconpy.OAuth2(client_id=, client_secret=, base_url=)] *)
Record OAuth2 : Type := mkOAuth2 {
  client_id : string;
  client_secret : string;
  oauth2_base_url : string
}.

(** A FalconPy service collection: [Hosts], [Detects] or [Incidents],
    built from [access_token=] and [base_url=]. *)
Inductive ServiceClass : Type := HostsApi | DetectsApi | IncidentsApi.

Record Service : Type := mkService {
  service_class : ServiceClass;
  access_token : Value;
  service_base_url : string
}.

(** The operations of the service collections the tools call *)
Inductive Operation : Type :=
  | op_query_devices_by_filter
  | op_get_device_details
  | op_perform_action
  | op_query_detects
  | op_get_detect_summaries
  | op_update_detects_by_ids
  | op_query_incidents
  | op_get_incidents.

(** What an observer of the provider and of the network sees. [EvShutdown]
    and [EvInitialize] mark the entry of the provider's two life-cycle
    methods; the other three are calls to the remote service. *)
Inductive Event : Type :=
  | EvShutdown
  | EvInitialize
  | EvToken (o : OAuth2)
  | EvRevoke (o : OAuth2)
  | EvCall (s : Service) (op : Operation) (kwargs : Dict).

Definition is_provider_call (ev : Event) : bool :=
  match ev with
  | EvShutdown | EvInitialize => true
  | _ => false
  end.

Definition is_auth_exchange (ev : Event) : bool :=
  match ev with
  | EvToken _ => true
  | _ => false
  end.

Definition is_business_call (ev : Event) : bool :=
  match ev with
  | EvCall _ _ _ => true
  | _ => false
  end.

(** The provider-level calls of a trace, in order *)
Definition provider_calls (tr : list Event) : list Event :=
  List.filter is_provider_call tr.

(** What the program does not decide: Python's [str] on values, the clock
    and the replies of the remote service. Each reply may depend on
    everything observed so far (the trace, the current call included). *)
Record Env : Type := mkEnv {
  py_str : Value -> string;
  time_time : list Event -> Z;
  token_reply : list Event -> Outcome Value;
  revoke_reply : list Event -> Outcome Value;
  call_reply : list Event -> Outcome Value
}.

(** [providers/crowdstrike.py]: the fields of [CrowdStrikeProvider].
    Times are in seconds. *)
Record CrowdStrikeProvider : Type := mkProvider {
  _settings : Settings;
  _oauth2 : option OAuth2;
  _hosts : option Service;
  _detects : option Service;
  _incidents : option Service;
  _token_expiry : Z;
  _initialized : bool
}.

Record World : Type := mkWorld {
  w_provider : CrowdStrikeProvider;
  w_trace : list Event
}.

Definition emit (ev : Event) : M World unit :=
  fun w => (Ret tt, mkWorld (w_provider w) (w_trace w ++ [ev])).

Definition self : M World CrowdStrikeProvider :=
  fun w => (Ret (w_provider w), w).

Definition update (f : CrowdStrikeProvider -> CrowdStrikeProvider) : M World unit :=
  fun w => (Ret tt, mkWorld (f (w_provider w)) (w_trace w)).

(** Asking the environment, which sees the trace so far *)
Definition observe {A} (oracle : list Event -> A) : M World A :=
  fun w => (Ret (oracle (w_trace w)), w).

Definition reply (oracle : list Event -> Outcome Value) : M World Value :=
  fun w => (oracle (w_trace w), w).

Definition set_oauth2 (o : option OAuth2) (p : CrowdStrikeProvider) :=
  mkProvider (_settings p) o (_hosts p) (_detects p) (_incidents p)
    (_token_expiry p) (_initialized p).
Definition set_hosts (s : option Service) (p : CrowdStrikeProvider) :=
  mkProvider (_settings p) (_oauth2 p) s (_detects p) (_incidents p)
    (_token_expiry p) (_initialized p).
Definition set_detects (s : option Service) (p : CrowdStrikeProvider) :=
  mkProvider (_settings p) (_oauth2 p) (_hosts p) s (_incidents p)
    (_token_expiry p) (_initialized p).
Definition set_incidents (s : option Service) (p : CrowdStrikeProvider) :=
  mkProvider (_settings p) (_oauth2 p) (_hosts p) (_detects p) s
    (_token_expiry p) (_initialized p).
Definition set_token_expiry (t : Z) (p : CrowdStrikeProvider) :=
  mkProvider (_settings p) (_oauth2 p) (_hosts p) (_detects p) (_incidents p)
    t (_initialized p).
Definition set_initialized (b : bool) (p : CrowdStrikeProvider) :=
  mkProvider (_settings p) (_oauth2 p) (_hosts p) (_detects p) (_incidents p)
    (_token_expiry p) b.

Module Provider.

(** [CrowdStrikeProvider.__init__] *)
Definition __init__ (settings : Settings) : CrowdStrikeProvider :=
  mkProvider settings None None None None 0 false.

Section WithEnv.
Variable env : Env.

(** [self._oauth2.token()] *)
Definition token (o : OAuth2) : M World Value :=
  emit (EvToken o) ;; reply (token_reply env).

(** [self._oauth2.revoke(token=...)] *)
Definition revoke (o : OAuth2) : M World Value :=
  emit (EvRevoke o) ;; reply (revoke_reply env).

(** The [try] block of [initialize] *)
Definition initialize_try : M World unit :=
  p <- self ;;
  let '(client_id, client_secret) := get_falcon_credentials (_settings p) in
  (* a base URL that is not https only logs a warning *)
  let o := mkOAuth2 client_id client_secret (falcon_base_url (_settings p)) in
  update (set_oauth2 (Some o)) ;;
  auth_result <- token o ;;
  failed <- (if negb (truthy auth_result) then ret true
             else status <- lift (py_get auth_result "status_code" VNone) ;;
                  ret (negb (py_eq_int status 201))) ;;
  (if failed : bool then
     body <- lift (py_get auth_result "body" (VDict ∅)) ;;
     error_msg <- lift (py_get body "errors"
                          (VList [VStr "Unknown authentication error"])) ;;
     raise (mkExn ValueError ("Authentication failed: " ++ py_str env error_msg))
   else ret tt) ;;
  body <- lift (py_get auth_result "body" (VDict ∅)) ;;
  expires_in <- lift (py_get body "expires_in" (VInt 1800)) ;;
  now <- observe (time_time env) ;;
  secs <- lift (py_number expires_in) ;;
  update (set_token_expiry (now + secs - 300)%Z) ;;
  body <- lift (py_subscript auth_result "body") ;;
  token <- lift (py_subscript body "access_token") ;;
  let base_url := falcon_base_url (_settings p) in
  update (set_hosts (Some (mkService HostsApi token base_url))) ;;
  update (set_detects (Some (mkService DetectsApi token base_url))) ;;
  update (set_incidents (Some (mkService IncidentsApi token base_url))) ;;
  update (set_initialized true).

Definition initialize : M World unit :=
  emit EvInitialize ;;
  p <- self ;;
  if _initialized p then
    ret tt (* logger.warning("Provider already initialized") *)
  else
    try_except initialize_try
      (fun e => raise (mkExn ConnectionError
                         ("Failed to initialize provider: " ++ exn_str e))).

Definition shutdown : M World unit :=
  emit EvShutdown ;;
  p <- self ;;
  (match _oauth2 p with
   | Some o =>
       try_except (revoke o ;; ret tt)
         (fun _ => ret tt (* logger.warning, not raised *))
   | None => ret tt
   end) ;;
  update (set_oauth2 None) ;;
  update (set_hosts None) ;;
  update (set_detects None) ;;
  update (set_incidents None) ;;
  update (set_initialized false).

Definition refresh_token_if_needed : M World unit :=
  now <- observe (time_time env) ;;
  p <- self ;;
  if (_token_expiry p <=? now)%Z then
    shutdown ;; initialize
  else ret tt.

(** The properties [hosts], [detects] and [incidents] *)
Definition hosts : M World Service :=
  p <- self ;;
  match _initialized p, _hosts p with
  | true, Some h => ret h
  | _, _ => raise (mkExn RuntimeError "Provider not initialized")
  end.

Definition detects : M World Service :=
  p <- self ;;
  match _initialized p, _detects p with
  | true, Some h => ret h
  | _, _ => raise (mkExn RuntimeError "Provider not initialized")
  end.

Definition incidents : M World Service :=
  p <- self ;;
  match _initialized p, _incidents p with
  | true, Some h => ret h
  | _, _ => raise (mkExn RuntimeError "Provider not initialized")
  end.

(** A method of a service collection called with keyword arguments *)
Definition call (s : Service) (op : Operation) (kwargs : Dict) : M World Value :=
  emit (EvCall s op kwargs) ;; reply (call_reply env).

(** [get_client]: the dict of the three service collections *)
Definition get_client : M World (gmap string (option Service)) :=
  p <- self ;;
  if negb (_initialized p) then
    raise (mkExn RuntimeError "Provider not initialized. Call initialize() first.")
  else
    ret (<["incidents" := _incidents p]>
           (<["detects" := _detects p]> (<["hosts" := _hosts p]> ∅))).

(** The [try] block of [health_check] *)
Definition health_check_try : M World bool :=
  now <- observe (time_time env) ;;
  p <- self ;;
  (if (_token_expiry p <=? now)%Z then shutdown ;; initialize else ret tt) ;;
  p <- self ;;
  match _hosts p with
  | Some h =>
      result <- call h op_query_devices_by_filter (<["limit" := VInt 1]> ∅) ;;
      status_code <- lift (py_get result "status_code" VNone) ;;
      if py_eq_int status_code 200 then ret true
      else ret false (* logger.warning: unexpected response *)
  | None => ret false
  end.

Definition health_check : M World bool :=
  p <- self ;;
  if negb (_initialized p) then ret false
  else try_except health_check_try (fun _ => ret false).

End WithEnv.

End Provider.

(** ** tools/registry.py *)

Module Registry.

(** A tool handler is a coroutine function of the tool name and the
    arguments; awaiting it yields a dict or raises. *)
Definition Handler : Type := string -> Dict -> M World Dict.

Record Tool : Type := mkTool {
  name : string;
  description : string;
  input_schema : Dict;
  handler : Handler
}.

Definition to_mcp_format (t : Tool) : Dict :=
  <["inputSchema" := VDict (input_schema t)]>
    (<["description" := VStr (description t)]>
       (<["name" := VStr (name t)]> ∅)).

(** [tool.handler = h] *)
Definition set_handler (h : Handler) (t : Tool) : Tool :=
  mkTool (name t) (description t) (input_schema t) h.

(** [ToolRegistry]: the dict [_tools]; [_provider] is the provider object
    of the world, which every bound handler runs against. *)
Record ToolRegistry : Type := mkRegistry {
  _tools : gmap string Tool
}.

Definition __init__ : ToolRegistry := mkRegistry ∅.

Definition register_tool (tool : Tool) : M ToolRegistry unit :=
  fun r =>
    match _tools r !! name tool with
    | Some _ =>
        (Raise (mkExn ValueError
                  ("Tool '" ++ name tool ++ "' is already registered")), r)
    | None => (Ret tt, mkRegistry (<[name tool := tool]> (_tools r)))
    end.

(** [for x in l: body x] *)
Fixpoint for_each {S A} (l : list A) (body : A -> M S unit) : M S unit :=
  match l with
  | [] => ret tt
  | x :: rest => body x ;; for_each rest body
  end.

(** The closure [lambda name, args, func=execute_func:
    func(self._provider, name, args)] *)
Definition bound_handler (execute_func : Handler) : Handler :=
  fun name args => execute_func name args.

Definition register_module (get_tools_func : unit -> list Tool)
    (execute_func : Handler) : M ToolRegistry unit :=
  let tools := get_tools_func tt in
  for_each tools (fun tool =>
    let tool := set_handler (bound_handler execute_func) tool in
    register_tool tool).

Definition get_tool (r : ToolRegistry) (name : string) : option Tool :=
  _tools r !! name.

Definition execute_tool (r : ToolRegistry) (name : string) (arguments : Dict)
    : M World Dict :=
  match get_tool r name with
  | None =>
      ret (Responses.error_response
             (VStr ("Tool '" ++ name ++ "' not found"))
             (Some name) (Some (VInt 404)) None)
  | Some tool =>
      try_except
        (result <- handler tool name arguments ;;
         ret result)
        (fun e =>
           ret (Responses.error_response
                  (VStr ("Tool execution failed: " ++ exn_str e))
                  (Some name) (Some (VInt 500)) None))
  end.

End Registry.

(** ** What the tool modules share

    Every helper of the three tool modules builds its API-error envelope
    with the same expression:
    [api_error_response(api_name="CrowdStrike Falcon",
       status_code=response.get("status_code", 500),
       message=str(response.get("body", {}).get("errors", "Unknown error")),
       tool_name=...)]. *)

Definition api_error (env : Env) (response : Value) (tool_name : string)
    : M World Dict :=
  status_code <- lift (py_get response "status_code" (VInt 500)) ;;
  body <- lift (py_get response "body" (VDict ∅)) ;;
  errors <- lift (py_get body "errors" (VStr "Unknown error")) ;;
  ret (Responses.api_error_response "CrowdStrike Falcon" status_code
         (py_str env errors) (Some tool_name)).

(** [response.get("body", {}).get("resources", [])] *)
Definition resources_of (response : Value) : M World Value :=
  body <- lift (py_get response "body" (VDict ∅)) ;;
  lift (py_get body "resources" (VList [])).

(** [response.get("body", {}).get("meta", {}).get("pagination", {})
      .get("total", len(ids))]: the receiver of the last [get] is evaluated
    before its arguments. *)
Definition total_of (response ids : Value) : M World Value :=
  body <- lift (py_get response "body" (VDict ∅)) ;;
  meta <- lift (py_get body "meta" (VDict ∅)) ;;
  pagination <- lift (py_get meta "pagination" (VDict ∅)) ;;
  pagination <- lift (getattr_get pagination) ;;
  n <- lift (py_len ids) ;;
  ret (dict_get pagination "total" (VInt n)).

(** The [query_params] of the three query tools *)
Definition query_params_of (arguments : Dict) : Dict :=
  let filter_expr := dict_get arguments "filter" VNone in
  let limit := dict_get arguments "limit" (VInt 100) in
  let offset := dict_get arguments "offset" (VInt 0) in
  let sort := dict_get arguments "sort" VNone in
  let query_params : Dict := <["offset" := offset]> (<["limit" := limit]> ∅) in
  let query_params :=
    if truthy filter_expr then <["filter" := filter_expr]> query_params
    else query_params in
  if truthy sort then <["sort" := sort]> query_params else query_params.

(** The [metadata] of the three query tools *)
Definition query_metadata (total : Value) (arguments : Dict) : Dict :=
  <["offset" := dict_get arguments "offset" (VInt 0)]>
    (<["limit" := dict_get arguments "limit" (VInt 100)]>
       (<["total" := total]> ∅)).

(** A dict display [{k1: v1, ...}] and the double quote character *)
Definition dict_of (items : list (string * Value)) : Dict := list_to_map items.

Definition dq : string := String (Ascii.ascii_of_nat 34) "".

(** The handler every [get_tools] gives its tools, [lambda *args: None]:
    its result is not awaitable. *)
Definition placeholder_handler : Registry.Handler :=
  fun _ _ =>
    raise (mkExn TypeError "object NoneType can't be used in 'await' expression").

(** The schema of the four arguments of the query tools; the modules differ
    in the example of the filter, the bound of the limit and the example of
    the sort. *)
Definition query_schema (filter_description limit_description : string)
    (limit_maximum : Z) (sort_description : string) : Dict :=
  dict_of
    [ ("type", VStr "object");
      ("properties", VDict (dict_of
         [ ("filter", VDict (dict_of
              [ ("type", VStr "string");
                ("description", VStr filter_description) ]));
           ("limit", VDict (dict_of
              [ ("type", VStr "integer");
                ("description", VStr limit_description);
                ("default", VInt 100);
                ("minimum", VInt 1);
                ("maximum", VInt limit_maximum) ]));
           ("offset", VDict (dict_of
              [ ("type", VStr "integer");
                ("description", VStr "Pagination offset");
                ("default", VInt 0);
                ("minimum", VInt 0) ]));
           ("sort", VDict (dict_of
              [ ("type", VStr "string");
                ("description", VStr sort_description) ])) ])) ].

(** The schema of a tool that takes one required list of ids *)
Definition ids_schema (field description : string) (max_items : Z) : Dict :=
  dict_of
    [ ("type", VStr "object");
      ("properties", VDict (dict_of
         [ (field, VDict (dict_of
              [ ("type", VStr "array");
                ("description", VStr description);
                ("items", VDict (dict_of [ ("type", VStr "string") ]));
                ("minItems", VInt 1);
                ("maxItems", VInt max_items) ])) ]));
      ("required", VList [VStr field]) ].

(** The schema of a tool that takes one required device id *)
Definition device_id_schema (description : string) : Dict :=
  dict_of
    [ ("type", VStr "object");
      ("properties", VDict (dict_of
         [ ("device_id", VDict (dict_of
              [ ("type", VStr "string");
                ("description", VStr description) ])) ]));
      ("required", VList [VStr "device_id"]) ].

(** ** tools/crowdstrike/hosts.py *)

Module Hosts.
Import Responses.

Definition get_tools (_ : unit) : list Registry.Tool :=
  [ Registry.mkTool "query_devices_by_filter"
      ("Search for hosts using FQL (Falcon Query Language) filters. "
       ++ "Supports pagination and sorting. Returns device IDs that can be "
       ++ "used with get_device_details.")
      (query_schema
         ("FQL filter expression (e.g., " ++ dq
          ++ "platform_name:'Windows'+hostname:'*server*'" ++ dq ++ "). "
          ++ "Leave empty to query all devices.")
         "Maximum number of results (1-5000)" 5000
         "Sort field and direction (e.g., 'hostname.asc', 'last_seen.desc')")
      placeholder_handler;
    Registry.mkTool "get_device_details"
      ("Get detailed information about specific hosts. "
       ++ "Provide device IDs from query_devices_by_filter to retrieve "
       ++ "comprehensive host information including OS, IP, status, and more.")
      (ids_schema "device_ids" "List of device IDs to retrieve" 5000)
      placeholder_handler;
    Registry.mkTool "contain_host"
      ("⚠️ CRITICAL ACTION: Isolate a host from the network (network containment). "
       ++ "This prevents the host from communicating on the network except with "
       ++ "CrowdStrike cloud. Use this for incident response to prevent lateral "
       ++ "movement. This action is logged and audited. Use lift_containment to restore.")
      (device_id_schema "Device ID to contain (isolate)")
      placeholder_handler;
    Registry.mkTool "lift_containment"
      ("Remove network isolation from a host. "
       ++ "Restores normal network communication after a host has been contained. "
       ++ "Use this after incident response is complete.")
      (device_id_schema "Device ID to lift containment from")
      placeholder_handler ].

Section WithEnv.
Variable env : Env.

Definition _query_devices_by_filter_try (arguments : Dict) : M World Dict :=
  let query_params := query_params_of arguments in
  h <- Provider.hosts ;;
  response <- Provider.call env h op_query_devices_by_filter query_params ;;
  status_code <- lift (py_get response "status_code" VNone) ;;
  if negb (py_eq_int status_code 200) then
    api_error env response "query_devices_by_filter"
  else
    device_ids <- resources_of response ;;
    total <- total_of response device_ids ;;
    ret (success_response
           (VDict (<["device_ids" := device_ids]> ∅))
           (Some (query_metadata total arguments))).

Definition _query_devices_by_filter (arguments : Dict) : M World Dict :=
  try_except (_query_devices_by_filter_try arguments)
    (fun e => ret (error_response
                     (VStr ("Failed to query devices: " ++ exn_str e))
                     (Some "query_devices_by_filter") None None)).

Definition _get_device_details_try (arguments : Dict) : M World Dict :=
  let device_ids := dict_get arguments "device_ids" (VList []) in
  if negb (truthy device_ids) then
    ret (validation_error_response "device_ids"
           "At least one device ID is required" (Some "get_device_details"))
  else
    lift (py_len device_ids) ;; (* logged: len(device_ids) *)
    h <- Provider.hosts ;;
    response <- Provider.call env h op_get_device_details
                  (<["ids" := device_ids]> ∅) ;;
    status_code <- lift (py_get response "status_code" VNone) ;;
    if negb (py_eq_int status_code 200) then
      api_error env response "get_device_details"
    else
      devices <- resources_of response ;;
      count <- lift (py_len devices) ;;
      ret (success_response
             (VDict (<["devices" := devices]> ∅))
             (Some (<["count" := VInt count]> ∅))).

Definition _get_device_details (arguments : Dict) : M World Dict :=
  try_except (_get_device_details_try arguments)
    (fun e => ret (error_response
                     (VStr ("Failed to get device details: " ++ exn_str e))
                     (Some "get_device_details") None None)).

Definition _contain_host_try (arguments : Dict) : M World Dict :=
  let device_id := dict_get arguments "device_id" VNone in
  if negb (truthy device_id) then
    ret (validation_error_response "device_id"
           "Device ID is required" (Some "contain_host"))
  else
    (* audit log: CRITICAL ACTION: Initiating host containment *)
    h <- Provider.hosts ;;
    response <- Provider.call env h op_perform_action
                  (<["ids" := VList [device_id]]>
                     (<["action_name" := VStr "contain"]> ∅)) ;;
    status_code <- lift (py_get response "status_code" VNone) ;;
    if negb (py_eq_int status_code 200 || py_eq_int status_code 202) then
      (* logged: response.get("status_code"),
         response.get("body", {}).get("errors") *)
      lift (py_get response "status_code" VNone) ;;
      body <- lift (py_get response "body" (VDict ∅)) ;;
      lift (py_get body "errors" VNone) ;;
      api_error env response "contain_host"
    else
      (* audit log: CRITICAL ACTION: Host containment successful *)
      ret (success_response
             (VDict (<["status" := VStr "success"]>
                       (<["action" := VStr "contained"]>
                          (<["device_id" := device_id]> ∅))))
             None).

Definition _contain_host (arguments : Dict) : M World Dict :=
  try_except (_contain_host_try arguments)
    (fun e => ret (error_response
                     (VStr ("Failed to contain host: " ++ exn_str e))
                     (Some "contain_host") None None)).

Definition _lift_containment_try (arguments : Dict) : M World Dict :=
  let device_id := dict_get arguments "device_id" VNone in
  if negb (truthy device_id) then
    ret (validation_error_response "device_id"
           "Device ID is required" (Some "lift_containment"))
  else
    h <- Provider.hosts ;;
    response <- Provider.call env h op_perform_action
                  (<["ids" := VList [device_id]]>
                     (<["action_name" := VStr "lift_containment"]> ∅)) ;;
    status_code <- lift (py_get response "status_code" VNone) ;;
    if negb (py_eq_int status_code 200 || py_eq_int status_code 202) then
      api_error env response "lift_containment"
    else
      ret (success_response
             (VDict (<["status" := VStr "success"]>
                       (<["action" := VStr "containment_lifted"]>
                          (<["device_id" := device_id]> ∅))))
             None).

Definition _lift_containment (arguments : Dict) : M World Dict :=
  try_except (_lift_containment_try arguments)
    (fun e => ret (error_response
                     (VStr ("Failed to lift containment: " ++ exn_str e))
                     (Some "lift_containment") None None)).

(** The routing of [execute_tool], after the token refresh *)
Definition route (tool_name : string) (arguments : Dict) : M World Dict :=
  if String.eqb tool_name "query_devices_by_filter" then
    _query_devices_by_filter arguments
  else if String.eqb tool_name "get_device_details" then
    _get_device_details arguments
  else if String.eqb tool_name "contain_host" then
    _contain_host arguments
  else if String.eqb tool_name "lift_containment" then
    _lift_containment arguments
  else
    ret (error_response (VStr ("Unknown tool: " ++ tool_name))
           (Some tool_name) None None).

Definition execute_tool (tool_name : string) (arguments : Dict)
    : M World Dict :=
  Provider.refresh_token_if_needed env ;;
  route tool_name arguments.

End WithEnv.
End Hosts.

(** ** tools/crowdstrike/detections.py *)

Module Detections.
Import Responses.

Definition VALID_STATUSES : list string :=
  [ "new"; "in_progress"; "true_positive"; "false_positive";
    "closed"; "ignored"; "reopened" ].

Definition get_tools (_ : unit) : list Registry.Tool :=
  [ Registry.mkTool "query_detections"
      ("Search for detections using FQL (Falcon Query Language) filters. "
       ++ "Supports pagination and sorting. Returns detection IDs that can be "
       ++ "used with get_detection_details.")
      (query_schema
         ("FQL filter expression (e.g., " ++ dq
          ++ "status:'new'+severity:['medium','high']" ++ dq ++ "). "
          ++ "Leave empty to query all detections.")
         "Maximum number of results (1-5000)" 5000
         "Sort field and direction (e.g., 'created_timestamp.desc')")
      placeholder_handler;
    Registry.mkTool "get_detection_details"
      ("Get detailed information about specific detections. "
       ++ "Provide detection IDs from query_detections to retrieve "
       ++ "comprehensive detection information including severity, tactics, "
       ++ "techniques, and host information.")
      (ids_schema "detection_ids" "List of detection IDs to retrieve" 1000)
      placeholder_handler;
    Registry.mkTool "update_detection_status"
      ("Update the status of one or more detections. "
       ++ "Use this for triage and incident response workflows. "
       ++ "Valid statuses: " ++ join ", " VALID_STATUSES)
      (dict_of
         [ ("type", VStr "object");
           ("properties", VDict (dict_of
              [ ("detection_ids", VDict (dict_of
                   [ ("type", VStr "array");
                     ("description", VStr "List of detection IDs to update");
                     ("items", VDict (dict_of [ ("type", VStr "string") ]));
                     ("minItems", VInt 1) ]));
                ("status", VDict (dict_of
                   [ ("type", VStr "string");
                     ("description",
                      VStr ("New status. Valid values: "
                            ++ join ", " VALID_STATUSES));
                     ("enum", VList (VStr <$> VALID_STATUSES)) ]));
                ("comment", VDict (dict_of
                   [ ("type", VStr "string");
                     ("description",
                      VStr "Optional comment explaining the status change") ])) ]));
           ("required", VList [VStr "detection_ids"; VStr "status"]) ])
      placeholder_handler ].

Section WithEnv.
Variable env : Env.

Definition _query_detections_try (arguments : Dict) : M World Dict :=
  let query_params := query_params_of arguments in
  h <- Provider.detects ;;
  response <- Provider.call env h op_query_detects query_params ;;
  status_code <- lift (py_get response "status_code" VNone) ;;
  if negb (py_eq_int status_code 200) then
    api_error env response "query_detections"
  else
    detection_ids <- resources_of response ;;
    total <- total_of response detection_ids ;;
    ret (success_response
           (VDict (<["detection_ids" := detection_ids]> ∅))
           (Some (query_metadata total arguments))).

Definition _query_detections (arguments : Dict) : M World Dict :=
  try_except (_query_detections_try arguments)
    (fun e => ret (error_response
                     (VStr ("Failed to query detections: " ++ exn_str e))
                     (Some "query_detections") None None)).

Definition _get_detection_details_try (arguments : Dict) : M World Dict :=
  let detection_ids := dict_get arguments "detection_ids" (VList []) in
  if negb (truthy detection_ids) then
    ret (validation_error_response "detection_ids"
           "At least one detection ID is required"
           (Some "get_detection_details"))
  else
    lift (py_len detection_ids) ;; (* logged: len(detection_ids) *)
    h <- Provider.detects ;;
    response <- Provider.call env h op_get_detect_summaries
                  (<["ids" := detection_ids]> ∅) ;;
    status_code <- lift (py_get response "status_code" VNone) ;;
    if negb (py_eq_int status_code 200) then
      api_error env response "get_detection_details"
    else
      detections <- resources_of response ;;
      count <- lift (py_len detections) ;;
      ret (success_response
             (VDict (<["detections" := detections]> ∅))
             (Some (<["count" := VInt count]> ∅))).

Definition _get_detection_details (arguments : Dict) : M World Dict :=
  try_except (_get_detection_details_try arguments)
    (fun e => ret (error_response
                     (VStr ("Failed to get detection details: " ++ exn_str e))
                     (Some "get_detection_details") None None)).

Definition _update_detection_status_try (arguments : Dict) : M World Dict :=
  let detection_ids := dict_get arguments "detection_ids" (VList []) in
  let status := dict_get arguments "status" VNone in
  let comment := dict_get arguments "comment" VNone in
  if negb (truthy detection_ids) then
    ret (validation_error_response "detection_ids"
           "At least one detection ID is required"
           (Some "update_detection_status"))
  else if negb (truthy status) then
    ret (validation_error_response "status"
           "Status is required" (Some "update_detection_status"))
  else if negb (py_in_strs status VALID_STATUSES) then
    ret (validation_error_response "status"
           ("Invalid status. Must be one of: " ++ join ", " VALID_STATUSES)
           (Some "update_detection_status"))
  else
    lift (py_len detection_ids) ;; (* logged: len(detection_ids) *)
    let update_payload : Dict :=
      <["status" := status]> (<["ids" := detection_ids]> ∅) in
    let update_payload :=
      if truthy comment then <["comment" := comment]> update_payload
      else update_payload in
    h <- Provider.detects ;;
    response <- Provider.call env h op_update_detects_by_ids update_payload ;;
    status_code <- lift (py_get response "status_code" VNone) ;;
    if negb (py_eq_int status_code 200 || py_eq_int status_code 202) then
      api_error env response "update_detection_status"
    else
      updated_count <- lift (py_len detection_ids) ;;
      ret (success_response
             (VDict (<["status" := status]>
                       (<["detection_ids" := detection_ids]>
                          (<["updated_count" := VInt updated_count]> ∅))))
             None).

Definition _update_detection_status (arguments : Dict) : M World Dict :=
  try_except (_update_detection_status_try arguments)
    (fun e => ret (error_response
                     (VStr ("Failed to update detection status: " ++ exn_str e))
                     (Some "update_detection_status") None None)).

(** The routing of [execute_tool], after the token refresh *)
Definition route (tool_name : string) (arguments : Dict) : M World Dict :=
  if String.eqb tool_name "query_detections" then
    _query_detections arguments
  else if String.eqb tool_name "get_detection_details" then
    _get_detection_details arguments
  else if String.eqb tool_name "update_detection_status" then
    _update_detection_status arguments
  else
    ret (error_response (VStr ("Unknown tool: " ++ tool_name))
           (Some tool_name) None None).

Definition execute_tool (tool_name : string) (arguments : Dict)
    : M World Dict :=
  Provider.refresh_token_if_needed env ;;
  route tool_name arguments.

End WithEnv.
End Detections.

(** ** tools/crowdstrike/incidents.py *)

Module Incidents.
Import Responses.

Definition get_tools (_ : unit) : list Registry.Tool :=
  [ Registry.mkTool "query_incidents"
      ("Search for incidents using FQL (Falcon Query Language) filters. "
       ++ "Supports pagination and sorting. Returns incident IDs that can be "
       ++ "used with get_incident_details. Incidents represent correlated "
       ++ "detections and security events.")
      (query_schema
         ("FQL filter expression (e.g., " ++ dq
          ++ "status:'New'+state:'open'" ++ dq ++ "). "
          ++ "Leave empty to query all incidents.")
         "Maximum number of results (1-500)" 500
         "Sort field and direction (e.g., 'start.desc', 'end.asc')")
      placeholder_handler;
    Registry.mkTool "get_incident_details"
      ("Get detailed information about specific incidents. "
       ++ "Provide incident IDs from query_incidents to retrieve "
       ++ "comprehensive incident information including status, hosts involved, "
       ++ "detections, tactics, techniques, and timeline.")
      (ids_schema "incident_ids" "List of incident IDs to retrieve" 500)
      placeholder_handler ].

Section WithEnv.
Variable env : Env.

Definition _query_incidents_try (arguments : Dict) : M World Dict :=
  let query_params := query_params_of arguments in
  h <- Provider.incidents ;;
  response <- Provider.call env h op_query_incidents query_params ;;
  status_code <- lift (py_get response "status_code" VNone) ;;
  if negb (py_eq_int status_code 200) then
    api_error env response "query_incidents"
  else
    incident_ids <- resources_of response ;;
    total <- total_of response incident_ids ;;
    ret (success_response
           (VDict (<["incident_ids" := incident_ids]> ∅))
           (Some (query_metadata total arguments))).

Definition _query_incidents (arguments : Dict) : M World Dict :=
  try_except (_query_incidents_try arguments)
    (fun e => ret (error_response
                     (VStr ("Failed to query incidents: " ++ exn_str e))
                     (Some "query_incidents") None None)).

Definition _get_incident_details_try (arguments : Dict) : M World Dict :=
  let incident_ids := dict_get arguments "incident_ids" (VList []) in
  if negb (truthy incident_ids) then
    ret (validation_error_response "incident_ids"
           "At least one incident ID is required"
           (Some "get_incident_details"))
  else
    lift (py_len incident_ids) ;; (* logged: len(incident_ids) *)
    h <- Provider.incidents ;;
    response <- Provider.call env h op_get_incidents
                  (<["ids" := incident_ids]> ∅) ;;
    status_code <- lift (py_get response "status_code" VNone) ;;
    if negb (py_eq_int status_code 200) then
      api_error env response "get_incident_details"
    else
      incidents <- resources_of response ;;
      count <- lift (py_len incidents) ;;
      ret (success_response
             (VDict (<["incidents" := incidents]> ∅))
             (Some (<["count" := VInt count]> ∅))).

Definition _get_incident_details (arguments : Dict) : M World Dict :=
  try_except (_get_incident_details_try arguments)
    (fun e => ret (error_response
                     (VStr ("Failed to get incident details: " ++ exn_str e))
                     (Some "get_incident_details") None None)).

(** The routing of [execute_tool], after the token refresh *)
Definition route (tool_name : string) (arguments : Dict) : M World Dict :=
  if String.eqb tool_name "query_incidents" then
    _query_incidents arguments
  else if String.eqb tool_name "get_incident_details" then
    _get_incident_details arguments
  else
    ret (error_response (VStr ("Unknown tool: " ++ tool_name))
           (Some tool_name) None None).

Definition execute_tool (tool_name : string) (arguments : Dict)
    : M World Dict :=
  Provider.refresh_token_if_needed env ;;
  route tool_name arguments.

End WithEnv.
End Incidents.

(** ** config.py: the validator of the base URL *)

Module Config.

(** [s.startswith(prefix)] *)
Definition startswith (s prefix : string) : bool := String.prefix prefix s.

(** [s.rstrip("/")] *)
Fixpoint rstrip_slash (s : string) : string :=
  match s with
  | EmptyString => EmptyString
  | String c rest =>
      match rstrip_slash rest with
      | EmptyString =>
          if Ascii.eqb c "/"%char then EmptyString else String c EmptyString
      | kept => String c kept
      end
  end.

Definition validate_base_url (v : string) : Outcome string :=
  if negb (startswith v "http://") && negb (startswith v "https://") then
    Raise (mkExn ValueError "Base URL must start with http:// or https://")
  else Ret (rstrip_slash v).

End Config.

(** ** sdk.py *)

Module Sdk.

(** [CrowdStrikeClient]: the provider it owns, with everything observed of
    it, and the flag [_initialized] of the client. *)
Record CrowdStrikeClient : Type := mkClient {
  client_world : World;
  client_initialized : bool
}.

(** The client [__init__] leaves, given the settings it built *)
Definition created (settings : Settings) : CrowdStrikeClient :=
  mkClient (mkWorld (Provider.__init__ settings) []) false.

(** A coroutine of the provider, awaited by the client *)
Definition on_provider {A} (m : M World A) : M CrowdStrikeClient A :=
  fun c =>
    let '(r, w) := m (client_world c) in (r, mkClient w (client_initialized c)).

Definition this : M CrowdStrikeClient CrowdStrikeClient := fun c => (Ret c, c).

Definition set_client_initialized (b : bool) : M CrowdStrikeClient unit :=
  fun c => (Ret tt, mkClient (client_world c) b).

Definition _ensure_initialized : M CrowdStrikeClient unit :=
  c <- this ;;
  if negb (client_initialized c) then
    raise (mkExn RuntimeError
             "Client not initialized. Use 'async with' or call initialize() first.")
  else ret tt.

Section WithEnv.
Variable env : Env.

Definition initialize : M CrowdStrikeClient unit :=
  c <- this ;;
  if client_initialized c then ret tt
  else
    on_provider (Provider.initialize env) ;;
    set_client_initialized true.

Definition close : M CrowdStrikeClient unit :=
  c <- this ;;
  if negb (client_initialized c) then ret tt
  else
    on_provider (Provider.shutdown env) ;;
    set_client_initialized false.

(** The [arguments] of the three query methods *)
Definition query_arguments (filter limit offset sort : Value) : Dict :=
  <["sort" := sort]> (<["offset" := offset]>
    (<["limit" := limit]> (<["filter" := filter]> ∅))).

Definition query_devices_by_filter (filter limit offset sort : Value)
    : M CrowdStrikeClient Dict :=
  _ensure_initialized ;;
  on_provider (Hosts.execute_tool env "query_devices_by_filter"
                 (query_arguments filter limit offset sort)).

Definition get_device_details (device_ids : Value) : M CrowdStrikeClient Dict :=
  _ensure_initialized ;;
  on_provider (Hosts.execute_tool env "get_device_details"
                 (<["device_ids" := device_ids]> ∅)).

Definition contain_host (device_id : Value) : M CrowdStrikeClient Dict :=
  _ensure_initialized ;;
  on_provider (Hosts.execute_tool env "contain_host"
                 (<["device_id" := device_id]> ∅)).

Definition lift_containment (device_id : Value) : M CrowdStrikeClient Dict :=
  _ensure_initialized ;;
  on_provider (Hosts.execute_tool env "lift_containment"
                 (<["device_id" := device_id]> ∅)).

Definition query_detections (filter limit offset sort : Value)
    : M CrowdStrikeClient Dict :=
  _ensure_initialized ;;
  on_provider (Detections.execute_tool env "query_detections"
                 (query_arguments filter limit offset sort)).

Definition get_detection_details (detection_ids : Value)
    : M CrowdStrikeClient Dict :=
  _ensure_initialized ;;
  on_provider (Detections.execute_tool env "get_detection_details"
                 (<["detection_ids" := detection_ids]> ∅)).

Definition update_detection_status (detection_ids status comment : Value)
    : M CrowdStrikeClient Dict :=
  _ensure_initialized ;;
  let arguments : Dict :=
    <["status" := status]> (<["detection_ids" := detection_ids]> ∅) in
  let arguments :=
    if truthy comment then <["comment" := comment]> arguments else arguments in
  on_provider (Detections.execute_tool env "update_detection_status" arguments).

Definition query_incidents (filter limit offset sort : Value)
    : M CrowdStrikeClient Dict :=
  _ensure_initialized ;;
  on_provider (Incidents.execute_tool env "query_incidents"
                 (query_arguments filter limit offset sort)).

Definition get_incident_details (incident_ids : Value)
    : M CrowdStrikeClient Dict :=
  _ensure_initialized ;;
  on_provider (Incidents.execute_tool env "get_incident_details"
                 (<["incident_ids" := incident_ids]> ∅)).

End WithEnv.
End Sdk.

(** ** server.py *)

Module Server.

(** [MCPServer]: the provider it owns, with everything observed of it, and
    the registry, [None] until [initialize] creates it. *)
Record MCPServer : Type := mkServer {
  server_world : World;
  _registry : option Registry.ToolRegistry
}.

Definition __init__ (settings : Settings) : MCPServer :=
  mkServer (mkWorld (Provider.__init__ settings) []) None.

Definition on_provider {A} (m : M World A) : M MCPServer A :=
  fun s =>
    let '(r, w) := m (server_world s) in (r, mkServer w (_registry s)).

(** A method of [self._registry], once the registry exists *)
Definition on_registry {A} (m : M Registry.ToolRegistry A) : M MCPServer A :=
  fun s =>
    match _registry s with
    | Some registry =>
        let '(r, registry') := m registry in
        (r, mkServer (server_world s) (Some registry'))
    | None =>
        (Raise (mkExn AttributeError
                  "'NoneType' object has no attribute 'register_module'"), s)
    end.

Definition set_registry (registry : Registry.ToolRegistry) : M MCPServer unit :=
  fun s => (Ret tt, mkServer (server_world s) (Some registry)).

Section WithEnv.
Variable env : Env.

Definition initialize : M MCPServer unit :=
  on_provider (Provider.initialize env) ;;
  set_registry Registry.__init__ ;;
  on_registry (Registry.register_module Hosts.get_tools (Hosts.execute_tool env)) ;;
  on_registry (Registry.register_module Detections.get_tools
                 (Detections.execute_tool env)) ;;
  on_registry (Registry.register_module Incidents.get_tools
                 (Incidents.execute_tool env)).

Definition shutdown : M MCPServer unit :=
  on_provider (Provider.shutdown env).

Definition execute_tool (tool_name : string) (arguments : Dict)
    : M MCPServer Dict :=
  fun s =>
    match _registry s with
    | None =>
        (Raise (mkExn RuntimeError
                  "Server not initialized. Call initialize() first."), s)
    | Some registry =>
        on_provider (Registry.execute_tool registry tool_name arguments) s
    end.

End WithEnv.
End Server.

(** * Properties *)

(** ** Reasoning about computations *)

Section Logic.
Context {S A : Type}.

(** [m] returns only results satisfying [Q] *)
Definition returns (m : M S A) (Q : A -> Prop) : Prop :=
  forall s a, (m s).1 = Ret a -> Q a.

(** [m] never raises *)
Definition total (m : M S A) : Prop :=
  forall s, exists a, (m s).1 = Ret a.

(** [m] leaves the state as it found it *)
Definition pure (m : M S A) : Prop :=
  forall s, (m s).2 = s.

Lemma returns_ret (a : A) (Q : A -> Prop) : Q a -> returns (ret a) Q.
Proof. intros HQ s a' [= <-]. exact HQ. Qed.

Lemma returns_raise (e : Exn) (Q : A -> Prop) : returns (raise e) Q.
Proof. intros s a. discriminate. Qed.

Lemma returns_try (m : M S A) (h : Exn -> M S A) (Q : A -> Prop) :
  returns m Q -> (forall e, returns (h e) Q) -> returns (try_except m h) Q.
Proof.
  intros Hm Hh s a. unfold try_except.
  destruct (m s) as [[a'|e] s'] eqn:E.
  - intros [= <-]. apply (Hm s). now rewrite E.
  - apply Hh.
Qed.

Lemma total_ret (a : A) : total (ret a).
Proof. intros s. now exists a. Qed.

Lemma total_try (m : M S A) (h : Exn -> M S A) :
  (forall e, total (h e)) -> total (try_except m h).
Proof.
  intros Hh s. unfold try_except.
  destruct (m s) as [[a|e] s'].
  - now exists a.
  - apply Hh.
Qed.

Lemma try_except_caught (m : M S A) (h : Exn -> M S A) s e :
  (m s).1 = Raise e -> try_except m h s = h e (m s).2.
Proof.
  unfold try_except. destruct (m s) as [[a|e'] s']; simpl; congruence.
Qed.

Lemma try_except_passed (m : M S A) (h : Exn -> M S A) s a :
  (m s).1 = Ret a -> try_except m h s = m s.
Proof.
  unfold try_except. destruct (m s) as [[a'|e'] s']; simpl; congruence.
Qed.

Lemma pure_ret (a : A) : pure (ret a).
Proof. now intros s. Qed.

Lemma pure_raise (e : Exn) : pure (@raise S A e).
Proof. now intros s. Qed.

Lemma pure_lift (o : Outcome A) : pure (@lift S A o).
Proof. now intros s. Qed.

Lemma pure_try (m : M S A) (h : Exn -> M S A) :
  pure m -> (forall e, pure (h e)) -> pure (try_except m h).
Proof.
  intros Hm Hh s. unfold try_except. specialize (Hm s).
  destruct (m s) as [[a|e] s']; simpl in *; subst; [done|apply Hh].
Qed.

End Logic.

Lemma returns_bind {S A B} (m : M S A) (k : A -> M S B) (Q : B -> Prop) :
  (forall a, returns (k a) Q) -> returns (bind m k) Q.
Proof.
  intros Hk s b. unfold bind.
  destruct (m s) as [[a|e] s']; [apply Hk|discriminate].
Qed.

Lemma pure_bind {S A B} (m : M S A) (k : A -> M S B) :
  pure m -> (forall a, pure (k a)) -> pure (bind m k).
Proof.
  intros Hm Hk s. unfold bind. specialize (Hm s).
  destruct (m s) as [[a|e] s']; simpl in *; subst; [apply Hk|done].
Qed.

Lemma pure_self : pure self.
Proof. now intros w. Qed.

Lemma pure_observe {A} (oracle : list Event -> A) : pure (observe oracle).
Proof. now intros w. Qed.

(** ** Envelopes *)

Section Envelopes.
Import Responses.

Lemma lookup_set_opt_ne (k k' : string) (o : option Value) (d : Dict) :
  k ≠ k' -> set_opt k' o d !! k = d !! k.
Proof.
  intros Hne. destruct o as [v|]; simpl; [|done].
  now rewrite lookup_insert_ne.
Qed.

Lemma lookup_set_opt_eq (k : string) (o : option Value) (d : Dict) :
  d !! k = None -> set_opt k o d !! k = o.
Proof.
  intros Hd. destruct o as [v|]; simpl; [|done].
  now rewrite lookup_insert_eq.
Qed.

Lemma success_response_success data metadata :
  success_response data metadata !! "success" = Some (VBool true).
Proof. unfold success_response. now rewrite lookup_set_opt_ne. Qed.

Lemma success_response_data data metadata :
  success_response data metadata !! "data" = Some data.
Proof. unfold success_response. now rewrite lookup_set_opt_ne. Qed.

Lemma success_response_error data metadata :
  success_response data metadata !! "error" = None.
Proof. unfold success_response. now rewrite lookup_set_opt_ne. Qed.

Lemma error_response_success error tool_name status_code details :
  error_response error tool_name status_code details !! "success"
  = Some (VBool false).
Proof. unfold error_response. now rewrite !lookup_set_opt_ne. Qed.

Lemma error_response_error error tool_name status_code details :
  error_response error tool_name status_code details !! "error" = Some error.
Proof. unfold error_response. now rewrite !lookup_set_opt_ne. Qed.

Lemma error_response_data error tool_name status_code details :
  error_response error tool_name status_code details !! "data" = None.
Proof. unfold error_response. now rewrite !lookup_set_opt_ne. Qed.

Lemma error_response_tool error tool_name status_code details :
  error_response error tool_name status_code details !! "tool"
  = VStr <$> tool_name.
Proof.
  unfold error_response. rewrite !lookup_set_opt_ne by done.
  now rewrite lookup_set_opt_eq.
Qed.

Lemma error_response_status_code error tool_name status_code details :
  error_response error tool_name status_code details !! "status_code"
  = status_code.
Proof.
  unfold error_response. rewrite !lookup_set_opt_ne by done.
  rewrite lookup_set_opt_eq; [done|].
  now rewrite lookup_set_opt_ne.
Qed.


End Envelopes.

(** An envelope carries exactly one of the keys [data] and [error]: [data]
    exactly when [success] is [True], [error] exactly when it is [False]. *)
Definition present (k : string) (e : Dict) : Prop := is_Some (e !! k).

Definition exactly_one_of_data_error (e : Dict) : Prop :=
  (present "data" e <-> e !! "success" = Some (VBool true)) /\
  (present "error" e <-> e !! "success" = Some (VBool false)) /\
  (present "data" e \/ present "error" e) /\
  ~ (present "data" e /\ present "error" e).

(** The envelopes the four constructors of [utils/responses.py] build *)
Inductive constructed : Dict -> Prop :=
  | constructed_success data metadata :
      constructed (Responses.success_response data metadata)
  | constructed_error error tool_name status_code details :
      constructed (Responses.error_response error tool_name status_code details)
  | constructed_validation_error field message tool_name :
      constructed (Responses.validation_error_response field message tool_name)
  | constructed_api_error api_name status_code message tool_name :
      constructed
        (Responses.api_error_response api_name status_code message tool_name).

Create HintDb envelope.
#[local] Hint Constructors constructed : envelope.

Lemma success_response_exactly_one data metadata :
  exactly_one_of_data_error (Responses.success_response data metadata).
Proof.
  unfold exactly_one_of_data_error, present.
  rewrite success_response_success, success_response_data,
    success_response_error.
  repeat split; eauto; try congruence; try (intros [? ?]; congruence).
  intros [_ [? ?]]. congruence.
Qed.

Lemma error_response_exactly_one error tool_name status_code details :
  exactly_one_of_data_error
    (Responses.error_response error tool_name status_code details).
Proof.
  unfold exactly_one_of_data_error, present.
  rewrite error_response_success, error_response_data, error_response_error.
  repeat split; eauto; try congruence; try (intros [? ?]; congruence).
  intros [[? ?] _]. congruence.
Qed.

Lemma constructed_exactly_one (e : Dict) :
  constructed e -> exactly_one_of_data_error e.
Proof.
  intros [data metadata|error tool_name status_code details
         |field message tool_name|api_name status_code message tool_name].
  - apply success_response_exactly_one.
  - apply error_response_exactly_one.
  - apply error_response_exactly_one.
  - apply error_response_exactly_one.
Qed.

(** A failure envelope built by a constructor with [tool_name=t] names [t]. *)
Definition names_tool (t : string) (e : Dict) : Prop :=
  e !! "success" = Some (VBool false) -> e !! "tool" = Some (VStr t).

(** What a helper of tool [t] may return: a success envelope, or a failure
    envelope with [tool_name=t]. *)
Inductive envelope_of_tool (t : string) : Dict -> Prop :=
  | tool_success data metadata :
      envelope_of_tool t (Responses.success_response data metadata)
  | tool_error error status_code details :
      envelope_of_tool t
        (Responses.error_response error (Some t) status_code details).

#[local] Hint Constructors envelope_of_tool : envelope.

Lemma envelope_of_tool_constructed t e : envelope_of_tool t e -> constructed e.
Proof.
  intros [data metadata|error status_code details].
  - apply constructed_success.
  - apply constructed_error.
Qed.

Lemma envelope_of_tool_names t e : envelope_of_tool t e -> names_tool t e.
Proof.
  intros [data metadata|error status_code details] Hs.
  - rewrite success_response_success in Hs. congruence.
  - now rewrite error_response_tool.
Qed.

Ltac returns_step :=
  lazymatch goal with
  | |- returns (bind _ _) _ => apply returns_bind; intros
  | |- returns (try_except _ _) _ => apply returns_try; [|intros]
  | |- returns (ret _) _ => apply returns_ret
  | |- returns (raise _) _ => apply returns_raise
  | |- returns (if ?b then _ else _) _ => destruct b
  end.

Lemma api_error_envelope env response t :
  returns (api_error env response t) (envelope_of_tool t).
Proof.
  unfold api_error. repeat returns_step.
  unfold Responses.api_error_response. apply tool_error.
Qed.

Ltac envelope_leaf :=
  lazymatch goal with
  | |- returns (api_error _ _ _) _ => apply api_error_envelope
  | |- envelope_of_tool _ (Responses.success_response _ _) =>
      apply tool_success
  | |- envelope_of_tool _ (Responses.error_response _ _ _ _) =>
      apply tool_error
  | |- envelope_of_tool _ (Responses.validation_error_response _ _ _) =>
      unfold Responses.validation_error_response; apply tool_error
  end.

Ltac returns_envelope := repeat first [ returns_step | envelope_leaf ].

Section HelperEnvelopes.
Variable env : Env.
Variable arguments : Dict.

Lemma _query_devices_by_filter_envelope :
  returns (Hosts._query_devices_by_filter env arguments)
    (envelope_of_tool "query_devices_by_filter").
Proof.
  unfold Hosts._query_devices_by_filter, Hosts._query_devices_by_filter_try.
  returns_envelope.
Qed.

Lemma _get_device_details_envelope :
  returns (Hosts._get_device_details env arguments)
    (envelope_of_tool "get_device_details").
Proof.
  unfold Hosts._get_device_details, Hosts._get_device_details_try.
  returns_envelope.
Qed.

Lemma _contain_host_envelope :
  returns (Hosts._contain_host env arguments)
    (envelope_of_tool "contain_host").
Proof.
  unfold Hosts._contain_host, Hosts._contain_host_try.
  returns_envelope.
Qed.

Lemma _lift_containment_envelope :
  returns (Hosts._lift_containment env arguments)
    (envelope_of_tool "lift_containment").
Proof.
  unfold Hosts._lift_containment, Hosts._lift_containment_try.
  returns_envelope.
Qed.

Lemma _query_detections_envelope :
  returns (Detections._query_detections env arguments)
    (envelope_of_tool "query_detections").
Proof.
  unfold Detections._query_detections, Detections._query_detections_try.
  returns_envelope.
Qed.

Lemma _get_detection_details_envelope :
  returns (Detections._get_detection_details env arguments)
    (envelope_of_tool "get_detection_details").
Proof.
  unfold Detections._get_detection_details,
    Detections._get_detection_details_try.
  returns_envelope.
Qed.

Lemma _update_detection_status_envelope :
  returns (Detections._update_detection_status env arguments)
    (envelope_of_tool "update_detection_status").
Proof.
  unfold Detections._update_detection_status,
    Detections._update_detection_status_try.
  returns_envelope.
Qed.

Lemma _query_incidents_envelope :
  returns (Incidents._query_incidents env arguments)
    (envelope_of_tool "query_incidents").
Proof.
  unfold Incidents._query_incidents, Incidents._query_incidents_try.
  returns_envelope.
Qed.

Lemma _get_incident_details_envelope :
  returns (Incidents._get_incident_details env arguments)
    (envelope_of_tool "get_incident_details").
Proof.
  unfold Incidents._get_incident_details,
    Incidents._get_incident_details_try.
  returns_envelope.
Qed.

End HelperEnvelopes.

Lemma returns_weaken {S A} (m : M S A) (Q Q' : A -> Prop) :
  returns m Q -> (forall a, Q a -> Q' a) -> returns m Q'.
Proof. intros Hm HQ s a Hr. apply HQ, (Hm s a Hr). Qed.

Section DispatchEnvelopes.
Variable env : Env.
Variables (tool_name : string) (arguments : Dict).

Lemma unknown_tool_constructed :
  constructed
    (Responses.error_response (VStr ("Unknown tool: " ++ tool_name))
       (Some tool_name) None None).
Proof. apply constructed_error. Qed.

Lemma hosts_route_constructed :
  returns (Hosts.route env tool_name arguments) constructed.
Proof.
  unfold Hosts.route. repeat returns_step.
  - eapply returns_weaken;
      [apply _query_devices_by_filter_envelope|apply envelope_of_tool_constructed].
  - eapply returns_weaken;
      [apply _get_device_details_envelope|apply envelope_of_tool_constructed].
  - eapply returns_weaken;
      [apply _contain_host_envelope|apply envelope_of_tool_constructed].
  - eapply returns_weaken;
      [apply _lift_containment_envelope|apply envelope_of_tool_constructed].
  - apply unknown_tool_constructed.
Qed.

Lemma detections_route_constructed :
  returns (Detections.route env tool_name arguments) constructed.
Proof.
  unfold Detections.route. repeat returns_step.
  - eapply returns_weaken;
      [apply _query_detections_envelope|apply envelope_of_tool_constructed].
  - eapply returns_weaken;
      [apply _get_detection_details_envelope|apply envelope_of_tool_constructed].
  - eapply returns_weaken;
      [apply _update_detection_status_envelope
      |apply envelope_of_tool_constructed].
  - apply unknown_tool_constructed.
Qed.

Lemma incidents_route_constructed :
  returns (Incidents.route env tool_name arguments) constructed.
Proof.
  unfold Incidents.route. repeat returns_step.
  - eapply returns_weaken;
      [apply _query_incidents_envelope|apply envelope_of_tool_constructed].
  - eapply returns_weaken;
      [apply _get_incident_details_envelope|apply envelope_of_tool_constructed].
  - apply unknown_tool_constructed.
Qed.

End DispatchEnvelopes.

(** The envelopes the program produces: built by a constructor, or returned
    by the dispatch function of a tool module. *)
Inductive produced : Dict -> Prop :=
  | produced_by_constructor e :
      constructed e -> produced e
  | produced_by_hosts env tool_name arguments w e :
      (Hosts.execute_tool env tool_name arguments w).1 = Ret e -> produced e
  | produced_by_detections env tool_name arguments w e :
      (Detections.execute_tool env tool_name arguments w).1 = Ret e -> produced e
  | produced_by_incidents env tool_name arguments w e :
      (Incidents.execute_tool env tool_name arguments w).1 = Ret e -> produced e.

(** C7. Every envelope built by the success, error, validation-error or
    API-error constructor, and every envelope a dispatch function returns,
    has exactly one of the keys [data] and [error]: [data] is present iff
    [success] is [True], [error] is present iff [success] is [False];
    never both, never neither. *)
Theorem envelope_totality (e : Dict) :
  produced e -> exactly_one_of_data_error e.
Proof.
  intros [e' He|env tool_name arguments w e' He|env tool_name arguments w e' He
         |env tool_name arguments w e' He].
  - now apply constructed_exactly_one.
  - apply constructed_exactly_one. revert He.
    unfold Hosts.execute_tool. apply returns_bind. intros _.
    apply hosts_route_constructed.
  - apply constructed_exactly_one. revert He.
    unfold Detections.execute_tool. apply returns_bind. intros _.
    apply detections_route_constructed.
  - apply constructed_exactly_one. revert He.
    unfold Incidents.execute_tool. apply returns_bind. intros _.
    apply incidents_route_constructed.
Qed.

Lemma envelope_totality_witness :
  produced (Responses.validation_error_response "device_id"
              "Device ID is required" (Some "contain_host"))
  /\ exactly_one_of_data_error
       (Responses.validation_error_response "device_id"
          "Device ID is required" (Some "contain_host")).
Proof.
  split.
  - apply produced_by_constructor. apply constructed_validation_error.
  - apply envelope_totality. apply produced_by_constructor.
    apply constructed_validation_error.
Defined.

(** ** The registry *)

(** [t] occurs in [s] *)
Definition contains (s t : string) : Prop :=
  exists before after : string, s = before ++ t ++ after.

Lemma append_empty_r (s : string) : s ++ "" = s.
Proof.
  induction s as [|c s IH]; [reflexivity|].
  change (String c (s ++ "") = String c s). now rewrite IH.
Qed.

Lemma contains_refl (s : string) : contains s s.
Proof.
  exists "", "". change (s = s ++ ""). now rewrite append_empty_r.
Qed.

(** C3. For a name that is not registered, [execute_tool] returns (it does
    not raise, and it touches neither the provider nor the network) an
    envelope with [success] false, the error ["Tool '<name>' not found"]
    and [status_code] 404. *)
Theorem execute_tool_not_found (r : Registry.ToolRegistry) (name : string)
    (arguments : Dict) (w : World) :
  Registry._tools r !! name = None ->
  exists e : Dict,
    Registry.execute_tool r name arguments w = (Ret e, w) /\
    e !! "success" = Some (VBool false) /\
    (exists msg, e !! "error" = Some (VStr msg) /\
                 contains msg ("Tool '" ++ name ++ "' not found")) /\
    e !! "status_code" = Some (VInt 404).
Proof.
  intros Hnone. unfold Registry.execute_tool, Registry.get_tool.
  rewrite Hnone. eexists. split; [reflexivity|].
  rewrite error_response_success, error_response_error,
    error_response_status_code.
  repeat split. eexists. split; [reflexivity|apply contains_refl].
Qed.

Definition sample_world : World :=
  mkWorld (Provider.__init__
             (mkSettings "id-1234" "s3cr3t" "https://api.crowdstrike.com")) [].

Lemma execute_tool_not_found_witness :
  Registry._tools Registry.__init__ !! "does_not_exist" = None /\
  exists e : Dict,
    Registry.execute_tool Registry.__init__ "does_not_exist" ∅ sample_world
    = (Ret e, sample_world) /\
    e !! "success" = Some (VBool false) /\
    (exists msg, e !! "error" = Some (VStr msg) /\
                 contains msg ("Tool '" ++ "does_not_exist" ++ "' not found")) /\
    e !! "status_code" = Some (VInt 404).
Proof.
  split; [reflexivity|].
  apply (execute_tool_not_found Registry.__init__ "does_not_exist" ∅
           sample_world).
  reflexivity.
Defined.


(** A handler that raises, and one that returns *)
Definition failing_tool : Registry.Tool :=
  Registry.mkTool "failing" "always raises" ∅
    (fun _ _ => raise (mkExn RuntimeError "boom")).

Definition echo_tool : Registry.Tool :=
  Registry.mkTool "echo" "returns its arguments" ∅ (fun _ args => ret args).

Definition sample_registry : Registry.ToolRegistry :=
  Registry.mkRegistry (<["echo" := echo_tool]> (<["failing" := failing_tool]> ∅)).


(** The spec's [DuplicateToolError] is the [ValueError] of [register_tool]. *)
Definition DuplicateToolError (tool_name : string) : Exn :=
  mkExn ValueError ("Tool '" ++ tool_name ++ "' is already registered").

(** C6. Registering a tool whose name is already registered fails with
    [DuplicateToolError] and leaves the registry as it was: the tool
    registered first under that name, descriptor and handler, is still the
    one the registry maps the name to. *)
Theorem register_tool_duplicate (r : Registry.ToolRegistry)
    (tool first : Registry.Tool) :
  Registry._tools r !! Registry.name tool = Some first ->
  exists r' : Registry.ToolRegistry,
    Registry.register_tool tool r
    = (Raise (DuplicateToolError (Registry.name tool)), r') /\
    Registry._tools r' !! Registry.name tool = Some first /\
    r' = r.
Proof.
  intros Hfirst. exists r. unfold Registry.register_tool.
  rewrite Hfirst. auto.
Qed.

Definition echo_tool_again : Registry.Tool :=
  Registry.mkTool "echo" "a second tool of the same name" ∅
    (fun _ _ => ret ∅).

Lemma register_tool_duplicate_witness :
  Registry._tools sample_registry !! Registry.name echo_tool_again
  = Some echo_tool /\
  exists r' : Registry.ToolRegistry,
    Registry.register_tool echo_tool_again sample_registry
    = (Raise (DuplicateToolError (Registry.name echo_tool_again)), r') /\
    Registry._tools r' !! Registry.name echo_tool_again = Some echo_tool /\
    r' = sample_registry.
Proof.
  split; [reflexivity|].
  apply (register_tool_duplicate sample_registry echo_tool_again echo_tool).
  reflexivity.
Defined.

Section RegisterModule.
Import Registry.
Variable execute_func : Handler.

Definition bound (t : Tool) : Tool :=
  set_handler (bound_handler execute_func) t.

(** The registry dict after the tools of [l] were inserted one by one *)
Definition inserted (l : list Tool) (m : gmap string Tool) : gmap string Tool :=
  foldl (fun m t => <[name t := bound t]> m) m l.

Lemma lookup_inserted_fresh (l : list Tool) (m : gmap string Tool) (n : string) :
  n ∉ name <$> l -> inserted l m !! n = m !! n.
Proof.
  revert m. induction l as [|t l IH]; intros m Hn; [done|].
  simpl in *. apply not_elem_of_cons in Hn as [Hne Hn].
  rewrite IH by done. now rewrite lookup_insert_ne.
Qed.

Lemma lookup_inserted (l : list Tool) (m : gmap string Tool) (t : Tool) :
  NoDup (name <$> l) -> t ∈ l -> inserted l m !! name t = Some (bound t).
Proof.
  revert m. induction l as [|t' l IH]; intros m Hnd Hin.
  - now apply elem_of_nil in Hin.
  - simpl in *. apply NoDup_cons in Hnd as [Hfresh Hnd].
    apply elem_of_cons in Hin as [->|Hin].
    + rewrite lookup_inserted_fresh by done. now rewrite lookup_insert_eq.
    + now apply IH.
Qed.

Lemma for_each_register (l : list Tool) (r : ToolRegistry) :
  NoDup (name <$> l) ->
  (forall t, t ∈ l -> _tools r !! name t = None) ->
  for_each l (fun tool => register_tool (bound tool)) r
  = (Ret tt, mkRegistry (inserted l (_tools r))).
Proof.
  revert r. induction l as [|t l IH]; intros r Hnd Hfresh.
  - now destruct r.
  - simpl in *. apply NoDup_cons in Hnd as [Hnotin Hnd].
    unfold bind at 1. unfold register_tool at 1. simpl.
    rewrite (Hfresh t) by (apply elem_of_cons; auto).
    rewrite IH; [done|done|]. intros t' Hin. simpl.
    rewrite lookup_insert_ne.
    + apply Hfresh. apply elem_of_cons. auto.
    + intros Heq. apply Hnotin. rewrite Heq.
      now apply list_elem_of_fmap_2.
Qed.


End RegisterModule.


Definition noop_tool : Registry.Tool :=
  Registry.mkTool "noop" "never registered" ∅ (fun _ _ => ret ∅).


(** ** The provider *)

(** The provider after [shutdown]: every session field cleared, the token
    expiry left as it was. *)
Definition cleared (p : CrowdStrikeProvider) : CrowdStrikeProvider :=
  mkProvider (_settings p) None None None None (_token_expiry p) false.

(** The OAuth2 client [initialize] builds from the settings *)
Definition oauth2_of (p : CrowdStrikeProvider) : OAuth2 :=
  mkOAuth2 (falcon_client_id (_settings p)) (falcon_client_secret (_settings p))
    (falcon_base_url (_settings p)).

Definition revocation (o : option OAuth2) : list Event :=
  match o with
  | Some o => [EvRevoke o]
  | None => []
  end.

Ltac run :=
  unfold bind, try_except, ret, raise, lift, emit, self, update, observe, reply;
  simpl.

Lemma shutdown_runs (env : Env) (w : World) :
  Provider.shutdown env w
  = (Ret tt,
     mkWorld (cleared (w_provider w))
       (w_trace w ++ EvShutdown :: revocation (_oauth2 (w_provider w)))).
Proof.
  destruct w as [p tr]. unfold Provider.shutdown, Provider.revoke. run.
  destruct (_oauth2 p) as [o|]; simpl.
  - destruct (revoke_reply env _) as [v|e]; simpl;
      now rewrite <- app_assoc.
  - reflexivity.
Qed.

Lemma initialize_when_ready (env : Env) (w : World) :
  _initialized (w_provider w) = true ->
  Provider.initialize env w
  = (Ret tt, mkWorld (w_provider w) (w_trace w ++ [EvInitialize])).
Proof.
  intros Hready. unfold Provider.initialize. run. now rewrite Hready.
Qed.

(** From a provider that is not initialized, [initialize] performs exactly
    one auth exchange, whatever its outcome; it never touches the service
    handles unless it succeeds. *)
Lemma initialize_trace (env : Env) (w : World) :
  _initialized (w_provider w) = false ->
  w_trace (Provider.initialize env w).2
  = (w_trace w ++ [EvInitialize; EvToken (oauth2_of (w_provider w))])%list.
Proof.
  intros Hnot. destruct w as [p tr]. simpl in *.
  unfold Provider.initialize, Provider.initialize_try, Provider.token. run.
  rewrite Hnot. simpl. rewrite <- app_assoc. simpl.
  fold (oauth2_of p).
  repeat (match goal with
          | |- context [match ?x with _ => _ end] =>
              lazymatch x with
              | context [match _ with _ => _ end] => fail
              | _ => destruct x eqn:?; simpl
              end
          end); reflexivity.
Qed.

(** ** Repeated and failed initialization *)

(** C5. On a provider that is already initialized, [initialize] returns at
    once: it issues no auth exchange (the only thing observed is the call
    itself) and leaves every field of the provider as it was; calling it
    again changes nothing either. *)
Theorem initialize_ready_noop (env : Env) (w : World) :
  _initialized (w_provider w) = true ->
  exists w1 w2 : World,
    Provider.initialize env w = (Ret tt, w1) /\
    w_provider w1 = w_provider w /\
    w_trace w1 = (w_trace w ++ [EvInitialize])%list /\
    List.filter is_auth_exchange [EvInitialize] = [] /\
    Provider.initialize env w1 = (Ret tt, w2) /\
    w_provider w2 = w_provider w1.
Proof.
  intros Hready.
  exists (mkWorld (w_provider w) (w_trace w ++ [EvInitialize])).
  exists (mkWorld (w_provider w) ((w_trace w ++ [EvInitialize]) ++ [EvInitialize])).
  rewrite initialize_when_ready by done.
  rewrite initialize_when_ready by done.
  simpl. auto 10.
Qed.

(** A provider with a live session whose token expires at time 1000 *)
Definition ready_provider : CrowdStrikeProvider :=
  let settings := mkSettings "id-1234" "s3cr3t" "https://api.crowdstrike.com" in
  let token := VStr "token-1" in
  mkProvider settings
    (Some (mkOAuth2 "id-1234" "s3cr3t" "https://api.crowdstrike.com"))
    (Some (mkService HostsApi token "https://api.crowdstrike.com"))
    (Some (mkService DetectsApi token "https://api.crowdstrike.com"))
    (Some (mkService IncidentsApi token "https://api.crowdstrike.com"))
    1000 true.

Definition ready_world : World := mkWorld ready_provider [].

(** A remote service that rejects the credentials with status 401; the
    clock reads 5000. *)
Definition rejecting_env : Env :=
  mkEnv (fun _ => "['access denied, invalid bearer token']")
    (fun _ => 5000)
    (fun _ => Ret (VDict (<["body" := VDict (<["errors" := VList
                    [VStr "access denied, invalid bearer token"]]> ∅)]>
                            (<["status_code" := VInt 401]> ∅))))
    (fun _ => Ret (VDict (<["status_code" := VInt 200]> ∅)))
    (fun _ => Ret (VDict (<["status_code" := VInt 401]> ∅))).

Lemma initialize_ready_noop_witness :
  _initialized (w_provider ready_world) = true /\
  exists w1 w2 : World,
    Provider.initialize rejecting_env ready_world = (Ret tt, w1) /\
    w_provider w1 = w_provider ready_world /\
    w_trace w1 = (w_trace ready_world ++ [EvInitialize])%list /\
    List.filter is_auth_exchange [EvInitialize] = [] /\
    Provider.initialize rejecting_env w1 = (Ret tt, w2) /\
    w_provider w2 = w_provider w1.
Proof.
  split; [reflexivity|].
  apply (initialize_ready_noop rejecting_env ready_world). reflexivity.
Defined.

(** The auth exchange failed: the call raised, the status is not 2xx, or
    the response carries no token. *)
Definition status_2xx (auth_result : Value) : bool :=
  match auth_result with
  | VDict d =>
      match d !! "status_code" with
      | Some (VInt z) => (200 <=? z)%Z && (z <? 300)%Z
      | _ => false
      end
  | _ => false
  end.

Definition token_present (auth_result : Value) : bool :=
  match auth_result with
  | VDict d =>
      match d !! "body" with
      | Some (VDict body) => bool_decide (is_Some (body !! "access_token"))
      | _ => false
      end
  | _ => false
  end.

Definition exchange_failed (o : Outcome Value) : Prop :=
  match o with
  | Ret auth_result =>
      status_2xx auth_result = false \/ token_present auth_result = false
  | Raise _ => True
  end.

Lemma status_201_is_2xx (v status : Value) :
  py_get v "status_code" VNone = Ret status ->
  py_eq_int status 201 = true -> status_2xx v = true.
Proof.
  destruct v; try discriminate. unfold py_get, dict_get. simpl.
  intros [= <-]. destruct (d !! "status_code") as [[]|]; simpl; try discriminate.
  - now destruct b.
  - intros ->%Z.eqb_eq. reflexivity.
Qed.

Lemma subscript_token_present (v body token : Value) :
  py_subscript v "body" = Ret body ->
  py_subscript body "access_token" = Ret token -> token_present v = true.
Proof.
  destruct v; try discriminate. simpl.
  destruct (d !! "body") as [b|]; [|discriminate]. intros [= ->].
  destruct body; try discriminate. simpl.
  destruct (d0 !! "access_token"); [|discriminate]. intros _.
  apply bool_decide_eq_true. eauto.
Qed.

(** The spec's [AuthenticationError] is what [initialize] raises when the
    exchange fails: a [ConnectionError] that carries the cause. *)
Definition AuthenticationError (cause : string) : Exn :=
  mkExn ConnectionError ("Failed to initialize provider: " ++ cause).

Ltac raised :=
  intros _; eexists _, _; split; [reflexivity|]; simpl; auto 10.

Ltac step t x := destruct t as [x|] eqn:?; simpl; try (raised; fail).

(** C2, as the code behaves. From a provider that is not initialized, when
    the auth exchange fails (the call raises, the status is not 2xx, or the
    response carries no token) [initialize] raises [AuthenticationError]
    after that one exchange; the provider stays uninitialized and its three
    service handles are untouched, while the OAuth2 client built for the
    exchange stays assigned to [_oauth2]. *)
Theorem initialize_failure (env : Env) (w : World) :
  let p := w_provider w in
  let tr := (w_trace w ++ [EvInitialize; EvToken (oauth2_of p)])%list in
  _initialized p = false ->
  exchange_failed (token_reply env tr) ->
  exists (msg : string) (p' : CrowdStrikeProvider),
    Provider.initialize env w = (Raise (AuthenticationError msg), mkWorld p' tr) /\
    _initialized p' = false /\
    _oauth2 p' = Some (oauth2_of p) /\
    _hosts p' = _hosts p /\ _detects p' = _detects p /\
    _incidents p' = _incidents p.
Proof.
  destruct w as [p tr0]. simpl. intros Hnot.
  unfold Provider.initialize, Provider.initialize_try, Provider.token. run.
  rewrite Hnot. simpl. rewrite <- app_assoc. simpl.
  fold (oauth2_of p).
  unfold AuthenticationError.
  destruct (token_reply env _) as [auth_result|e]; simpl; [|raised].
  destruct (truthy auth_result) eqn:Htruthy; simpl.
  - step (py_get auth_result "status_code" VNone) status.
    destruct (py_eq_int status 201) eqn:H201; simpl.
    + step (py_get auth_result "body" (VDict ∅)) body.
      step (py_get body "expires_in" (VInt 1800)) expires_in.
      step (py_number expires_in) secs.
      step (py_subscript auth_result "body") body'.
      step (py_subscript body' "access_token") token.
      intros [H|H].
      * erewrite status_201_is_2xx in H by eassumption. discriminate.
      * erewrite subscript_token_present in H by eassumption. discriminate.
    + step (py_get auth_result "body" (VDict ∅)) body.
      step (py_get body "errors" (VList [VStr "Unknown authentication error"]))
        error_msg.
  - step (py_get auth_result "body" (VDict ∅)) body.
    step (py_get body "errors" (VList [VStr "Unknown authentication error"]))
      error_msg.
Qed.

Lemma initialize_failure_witness :
  exists (msg : string) (p' : CrowdStrikeProvider),
    Provider.initialize rejecting_env sample_world
    = (Raise (AuthenticationError msg),
       mkWorld p'
         [EvInitialize;
          EvToken (mkOAuth2 "id-1234" "s3cr3t" "https://api.crowdstrike.com")])
    /\
    _initialized p' = false /\
    _oauth2 p'
    = Some (mkOAuth2 "id-1234" "s3cr3t" "https://api.crowdstrike.com") /\
    _hosts p' = None /\ _detects p' = None /\ _incidents p' = None.
Proof.
  apply (initialize_failure rejecting_env sample_world).
  - reflexivity.
  - left. reflexivity.
Defined.

(** C2 as the spec states it: after a failed exchange no session field
    remains set. *)
Definition session_unset (p : CrowdStrikeProvider) : Prop :=
  _oauth2 p = None /\ _hosts p = None /\ _detects p = None /\
  _incidents p = None /\ _initialized p = false.

Definition failed_initialize_leaves_no_session (env : Env) (w : World) : Prop :=
  let p := w_provider w in
  let tr := (w_trace w ++ [EvInitialize; EvToken (oauth2_of p)])%list in
  _initialized p = false ->
  exchange_failed (token_reply env tr) ->
  exists (e : Exn) (w' : World),
    Provider.initialize env w = (Raise e, w') /\
    session_unset (w_provider w') /\
    _token_expiry (w_provider w') = _token_expiry p.

(** The provider was just created and the service answers 401:
    [initialize] raises and [_oauth2] still holds the client it built. *)
Lemma failed_initialize_keeps_oauth2 :
  ~ failed_initialize_leaves_no_session rejecting_env sample_world.
Proof.
  intros Hclaim.
  destruct Hclaim as (e & w' & Hrun & (Hoauth2 & _) & _).
  - reflexivity.
  - left. reflexivity.
  - vm_compute in Hrun. injection Hrun as _ <-. discriminate Hoauth2.
Qed.

(** ** Traces of the tool modules *)

(** [m] makes at most one call to the remote service, a business call, and
    changes nothing else. *)
Definition at_most_one_call {A} (m : M World A) : Prop :=
  forall w,
    (m w).2 = w \/
    exists s op kwargs,
      (m w).2 = mkWorld (w_provider w) (w_trace w ++ [EvCall s op kwargs]).

Lemma pure_at_most_one_call {A} (m : M World A) : pure m -> at_most_one_call m.
Proof. intros Hm w. left. apply Hm. Qed.

Lemma pure_then_call {A B} (m : M World A) (k : A -> M World B) :
  pure m -> (forall a, at_most_one_call (k a)) -> at_most_one_call (bind m k).
Proof.
  intros Hm Hk w. unfold bind. specialize (Hm w).
  destruct (m w) as [[a|e] w']; simpl in *; subst; [apply Hk|now left].
Qed.

Lemma call_then_pure {A B} (m : M World A) (k : A -> M World B) :
  at_most_one_call m -> (forall a, pure (k a)) -> at_most_one_call (bind m k).
Proof.
  intros Hm Hk w. unfold bind. specialize (Hm w).
  destruct (m w) as [[a|e] w'] eqn:E; simpl in *; [|done].
  now rewrite (Hk a w').
Qed.

Lemma try_at_most_one_call {A} (m : M World A) (h : Exn -> M World A) :
  at_most_one_call m -> (forall e, pure (h e)) ->
  at_most_one_call (try_except m h).
Proof.
  intros Hm Hh w. unfold try_except. specialize (Hm w).
  destruct (m w) as [[a|e] w'] eqn:E; simpl in *; [done|].
  now rewrite (Hh e w').
Qed.

Lemma call_at_most_one_call env s op kwargs :
  at_most_one_call (Provider.call env s op kwargs).
Proof.
  intros w. right. exists s, op, kwargs.
  unfold Provider.call. run.
  now destruct (call_reply env (w_trace w ++ [EvCall s op kwargs])).
Qed.

Ltac pure_step :=
  lazymatch goal with
  | |- pure (bind _ _) => apply pure_bind; [|intros]
  | |- pure (try_except _ _) => apply pure_try; [|intros]
  | |- pure (ret _) => apply pure_ret
  | |- pure (raise _) => apply pure_raise
  | |- pure (lift _) => apply pure_lift
  | |- pure self => apply pure_self
  | |- pure (observe _) => apply pure_observe
  | |- pure (if ?b then _ else _) => destruct b
  | |- pure (match ?x with _ => _ end) => destruct x
  end.

Lemma pure_hosts : pure Provider.hosts.
Proof. unfold Provider.hosts. repeat pure_step. Qed.

Lemma pure_detects : pure Provider.detects.
Proof. unfold Provider.detects. repeat pure_step. Qed.

Lemma pure_incidents : pure Provider.incidents.
Proof. unfold Provider.incidents. repeat pure_step. Qed.

Lemma pure_api_error env response t : pure (api_error env response t).
Proof. unfold api_error. repeat pure_step. Qed.

Lemma pure_resources_of response : pure (resources_of response).
Proof. unfold resources_of. repeat pure_step. Qed.

Lemma pure_total_of response ids : pure (total_of response ids).
Proof. unfold total_of. repeat pure_step. Qed.

Ltac pure_tac :=
  repeat first
    [ pure_step
    | apply pure_hosts | apply pure_detects | apply pure_incidents
    | apply pure_api_error | apply pure_resources_of | apply pure_total_of ].

Ltac call_tac :=
  lazymatch goal with
  | |- at_most_one_call (bind (Provider.call _ _ _ _) _) =>
      apply call_then_pure; [apply call_at_most_one_call|intros; pure_tac]
  | |- at_most_one_call (bind _ _) =>
      apply pure_then_call; [pure_tac|intros; call_tac]
  | |- at_most_one_call (try_except _ _) =>
      apply try_at_most_one_call; [call_tac|intros; pure_tac]
  | |- at_most_one_call (if ?b then _ else _) => destruct b; call_tac
  | |- at_most_one_call _ => apply pure_at_most_one_call; pure_tac
  end.

Section RouteTraces.
Variable env : Env.
Variables (tool_name : string) (arguments : Dict).

Lemma hosts_route_trace : at_most_one_call (Hosts.route env tool_name arguments).
Proof.
  unfold Hosts.route, Hosts._query_devices_by_filter,
    Hosts._query_devices_by_filter_try, Hosts._get_device_details,
    Hosts._get_device_details_try, Hosts._contain_host,
    Hosts._contain_host_try, Hosts._lift_containment,
    Hosts._lift_containment_try.
  cbv zeta. call_tac.
Qed.

Lemma detections_route_trace :
  at_most_one_call (Detections.route env tool_name arguments).
Proof.
  unfold Detections.route, Detections._query_detections,
    Detections._query_detections_try, Detections._get_detection_details,
    Detections._get_detection_details_try,
    Detections._update_detection_status,
    Detections._update_detection_status_try.
  cbv zeta. call_tac.
Qed.

Lemma incidents_route_trace :
  at_most_one_call (Incidents.route env tool_name arguments).
Proof.
  unfold Incidents.route, Incidents._query_incidents,
    Incidents._query_incidents_try, Incidents._get_incident_details,
    Incidents._get_incident_details_try.
  cbv zeta. call_tac.
Qed.

End RouteTraces.

(** ** Token refresh *)

(** The dispatch functions of the three tool modules *)
Inductive dispatch_function : (Env -> string -> Dict -> M World Dict) -> Prop :=
  | dispatch_hosts : dispatch_function Hosts.execute_tool
  | dispatch_detections : dispatch_function Detections.execute_tool
  | dispatch_incidents : dispatch_function Incidents.execute_tool.

(** What one refresh of an expired token is observed to do: a shutdown,
    with the revocation of the old token when there is an OAuth2 client,
    then an initialization with its auth exchange. *)
Definition refresh_cycle (p : CrowdStrikeProvider) : list Event :=
  (EvShutdown :: revocation (_oauth2 p)
     ++ [EvInitialize; EvToken (oauth2_of p)])%list.

Lemma refresh_when_fresh (env : Env) (w : World) :
  (time_time env (w_trace w) < _token_expiry (w_provider w))%Z ->
  Provider.refresh_token_if_needed env w = (Ret tt, w).
Proof.
  intros Hfresh. unfold Provider.refresh_token_if_needed. run.
  destruct (Z.leb_spec (_token_expiry (w_provider w)) (time_time env (w_trace w)));
    [lia|reflexivity].
Qed.

Lemma refresh_when_expired (env : Env) (w : World) :
  (_token_expiry (w_provider w) <= time_time env (w_trace w))%Z ->
  Provider.refresh_token_if_needed env w
  = Provider.initialize env
      (mkWorld (cleared (w_provider w))
         (w_trace w ++ EvShutdown :: revocation (_oauth2 (w_provider w)))).
Proof.
  intros Hexpired. unfold Provider.refresh_token_if_needed.
  unfold bind at 1 2. unfold observe, self.
  destruct (Z.leb_spec (_token_expiry (w_provider w)) (time_time env (w_trace w)));
    [|lia].
  unfold bind. now rewrite shutdown_runs.
Qed.

Lemma refresh_expired_trace (env : Env) (w : World) :
  (_token_expiry (w_provider w) <= time_time env (w_trace w))%Z ->
  w_trace (Provider.refresh_token_if_needed env w).2
  = (w_trace w ++ refresh_cycle (w_provider w))%list.
Proof.
  intros Hexpired. rewrite refresh_when_expired by done.
  rewrite initialize_trace by done. simpl.
  unfold refresh_cycle. now rewrite <- app_assoc.
Qed.

Lemma refresh_cycle_provider_calls (p : CrowdStrikeProvider) :
  provider_calls (refresh_cycle p) = [EvShutdown; EvInitialize].
Proof. unfold refresh_cycle. now destruct (_oauth2 p). Qed.

Lemma refresh_cycle_auth_exchanges (p : CrowdStrikeProvider) :
  List.filter is_auth_exchange (refresh_cycle p) = [EvToken (oauth2_of p)].
Proof. unfold refresh_cycle. now destruct (_oauth2 p). Qed.

Lemma refresh_cycle_business_calls (p : CrowdStrikeProvider) :
  List.filter is_business_call (refresh_cycle p) = [].
Proof. unfold refresh_cycle. now destruct (_oauth2 p). Qed.

(** A dispatch function is the refresh followed by at most one business
    call. *)
Lemma dispatch_trace (env : Env)
    (dispatch : Env -> string -> Dict -> M World Dict)
    (tool_name : string) (arguments : Dict) (w : World) :
  dispatch_function dispatch ->
  exists business : list Event,
    w_trace (dispatch env tool_name arguments w).2
    = (w_trace (Provider.refresh_token_if_needed env w).2 ++ business)%list /\
    (business = [] \/ exists s op kwargs, business = [EvCall s op kwargs]).
Proof.
  intros Hd.
  assert (exists route : M World Dict,
             dispatch env tool_name arguments
             = (Provider.refresh_token_if_needed env ;; route) /\
             at_most_one_call route) as (route & -> & Hroute).
  { destruct Hd; eexists; (split; [reflexivity|]).
    - apply hosts_route_trace.
    - apply detections_route_trace.
    - apply incidents_route_trace. }
  unfold bind.
  destruct (Provider.refresh_token_if_needed env w) as [[[]|e] w1]; simpl.
  - destruct (Hroute w1) as [->|(s & op & kwargs & ->)]; simpl.
    + exists []. split; [now rewrite app_nil_r|now left].
    + exists [EvCall s op kwargs]. split; [done|]. right. eauto.
  - exists []. split; [now rewrite app_nil_r|now left].
Qed.

(** C1. [refresh_token_if_needed] changes nothing while the clock is before
    the stored expiry. From the expiry on, it performs one shutdown followed
    by one initialization: exactly one such pair of provider-level calls,
    one full auth exchange, no business call. A tool invocation that starts
    then is observed as this cycle followed by at most one business call,
    so exactly one shutdown, then one initialize, precede the business
    call. *)
Theorem refresh_token_if_needed_cycle (env : Env) (w : World) :
  let p := w_provider w in
  let now := time_time env (w_trace w) in
  ((now < _token_expiry p)%Z ->
   Provider.refresh_token_if_needed env w = (Ret tt, w)) /\
  ((_token_expiry p <= now)%Z ->
   exists cycle : list Event,
     w_trace (Provider.refresh_token_if_needed env w).2
     = (w_trace w ++ cycle)%list /\
     provider_calls cycle = [EvShutdown; EvInitialize] /\
     length (List.filter is_auth_exchange cycle) = 1%nat /\
     List.filter is_business_call cycle = [] /\
     forall dispatch tool_name arguments,
       dispatch_function dispatch ->
       exists business : list Event,
         w_trace (dispatch env tool_name arguments w).2
         = (w_trace w ++ cycle ++ business)%list /\
         provider_calls business = [] /\
         (business = [] \/ exists s op kwargs, business = [EvCall s op kwargs])).
Proof.
  simpl. split.
  - apply refresh_when_fresh.
  - intros Hexpired. exists (refresh_cycle (w_provider w)).
    split; [now apply refresh_expired_trace|].
    split; [apply refresh_cycle_provider_calls|].
    split; [now rewrite refresh_cycle_auth_exchanges|].
    split; [apply refresh_cycle_business_calls|].
    intros dispatch tool_name arguments Hd.
    destruct (dispatch_trace env dispatch tool_name arguments w Hd)
      as (business & Htrace & Hbusiness).
    exists business. rewrite Htrace, refresh_expired_trace by done.
    split; [now rewrite app_assoc|]. split; [|done].
    destruct Hbusiness as [->|(s & op & kwargs & ->)]; reflexivity.
Qed.

(** A remote service that accepts the credentials and answers every
    business call with an empty page; the clock reads 5000. *)
Definition accepting_env : Env :=
  mkEnv (fun _ => "")
    (fun _ => 5000)
    (fun _ => Ret (VDict (<["body" := VDict (<["expires_in" := VInt 1800]>
                                               (<["access_token" := VStr "token-2"]> ∅))]>
                            (<["status_code" := VInt 201]> ∅))))
    (fun _ => Ret (VDict (<["status_code" := VInt 200]> ∅)))
    (fun _ => Ret (VDict (<["body" := VDict (<["resources" := VList []]> ∅)]>
                            (<["status_code" := VInt 200]> ∅)))).

Lemma refresh_token_if_needed_cycle_witness :
  (_token_expiry (w_provider ready_world)
   <= time_time accepting_env (w_trace ready_world))%Z /\
  exists cycle : list Event,
    w_trace (Provider.refresh_token_if_needed accepting_env ready_world).2
    = (w_trace ready_world ++ cycle)%list /\
    provider_calls cycle = [EvShutdown; EvInitialize] /\
    length (List.filter is_auth_exchange cycle) = 1%nat /\
    List.filter is_business_call cycle = [] /\
    forall dispatch tool_name arguments,
      dispatch_function dispatch ->
      exists business : list Event,
        w_trace (dispatch accepting_env tool_name arguments ready_world).2
        = (w_trace ready_world ++ cycle ++ business)%list /\
        provider_calls business = [] /\
        (business = [] \/ exists s op kwargs, business = [EvCall s op kwargs]).
Proof.
  assert (_token_expiry (w_provider ready_world)
          <= time_time accepting_env (w_trace ready_world))%Z as Hexpired.
  { simpl. lia. }
  split; [exact Hexpired|].
  destruct (refresh_token_if_needed_cycle accepting_env ready_world)
    as [_ Hcycle].
  exact (Hcycle Hexpired).
Defined.

(** Scenario E on that service: the old token is revoked and a new one is
    acquired before the devices are queried. *)
Example scenario_E :
  w_trace (Hosts.execute_tool accepting_env "query_devices_by_filter"
             (<["limit" := VInt 10]> ∅) ready_world).2
  = [ EvShutdown;
      EvRevoke (mkOAuth2 "id-1234" "s3cr3t" "https://api.crowdstrike.com");
      EvInitialize;
      EvToken (mkOAuth2 "id-1234" "s3cr3t" "https://api.crowdstrike.com");
      EvCall (mkService HostsApi (VStr "token-2") "https://api.crowdstrike.com")
        op_query_devices_by_filter
        (<["offset" := VInt 0]> (<["limit" := VInt 10]> ∅)) ].
Proof. vm_compute. reflexivity. Qed.

(** ** The failure boundary of the tool modules *)

(** The helpers of the tool modules: the tool each serves, the prefix of
    its generic error message, its [try] block and the helper itself. *)
Inductive tool_helper :
    string -> string -> (Env -> Dict -> M World Dict) ->
    (Env -> Dict -> M World Dict) -> Prop :=
  | helper_query_devices_by_filter :
      tool_helper "query_devices_by_filter" "Failed to query devices: "
        Hosts._query_devices_by_filter_try Hosts._query_devices_by_filter
  | helper_get_device_details :
      tool_helper "get_device_details" "Failed to get device details: "
        Hosts._get_device_details_try Hosts._get_device_details
  | helper_contain_host :
      tool_helper "contain_host" "Failed to contain host: "
        Hosts._contain_host_try Hosts._contain_host
  | helper_lift_containment :
      tool_helper "lift_containment" "Failed to lift containment: "
        Hosts._lift_containment_try Hosts._lift_containment
  | helper_query_detections :
      tool_helper "query_detections" "Failed to query detections: "
        Detections._query_detections_try Detections._query_detections
  | helper_get_detection_details :
      tool_helper "get_detection_details" "Failed to get detection details: "
        Detections._get_detection_details_try
        Detections._get_detection_details
  | helper_update_detection_status :
      tool_helper "update_detection_status"
        "Failed to update detection status: "
        Detections._update_detection_status_try
        Detections._update_detection_status
  | helper_query_incidents :
      tool_helper "query_incidents" "Failed to query incidents: "
        Incidents._query_incidents_try Incidents._query_incidents
  | helper_get_incident_details :
      tool_helper "get_incident_details" "Failed to get incident details: "
        Incidents._get_incident_details_try Incidents._get_incident_details.

Lemma tool_helper_unfold t prefix body helper :
  tool_helper t prefix body helper ->
  forall env arguments,
    helper env arguments
    = try_except (body env arguments)
        (fun e => ret (Responses.error_response (VStr (prefix ++ exn_str e))
                         (Some t) None None)).
Proof. now intros []. Qed.

Lemma tool_helper_envelope t prefix body helper :
  tool_helper t prefix body helper ->
  forall env arguments, returns (helper env arguments) (envelope_of_tool t).
Proof.
  intros [] env arguments.
  - apply _query_devices_by_filter_envelope.
  - apply _get_device_details_envelope.
  - apply _contain_host_envelope.
  - apply _lift_containment_envelope.
  - apply _query_detections_envelope.
  - apply _get_detection_details_envelope.
  - apply _update_detection_status_envelope.
  - apply _query_incidents_envelope.
  - apply _get_incident_details_envelope.
Qed.

(** What the helper of a tool does with its [try] block: a returned
    envelope is passed on, an exception becomes the generic error envelope
    of the tool, and the helper never raises. *)
Lemma tool_helper_boundary t prefix body helper env arguments w :
  tool_helper t prefix body helper ->
  (forall e w', body env arguments w = (Ret e, w') ->
                helper env arguments w = (Ret e, w')) /\
  (forall ex w', body env arguments w = (Raise ex, w') ->
                 helper env arguments w
                 = (Ret (Responses.error_response (VStr (prefix ++ exn_str ex))
                           (Some t) None None), w')) /\
  (exists e, (helper env arguments w).1 = Ret e /\ names_tool t e).
Proof.
  intros Hh. rewrite (tool_helper_unfold _ _ _ _ Hh).
  split; [|split].
  - intros e w' Hrun. unfold try_except. now rewrite Hrun.
  - intros ex w' Hrun. unfold try_except. now rewrite Hrun.
  - destruct (total_try (body env arguments)
                (fun e => ret (Responses.error_response
                                 (VStr (prefix ++ exn_str e)) (Some t) None None))
                (fun e => total_ret _) w) as [e He].
    exists e. split; [done|].
    apply envelope_of_tool_names.
    apply (tool_helper_envelope _ _ _ _ Hh env arguments w).
    now rewrite (tool_helper_unfold _ _ _ _ Hh).
Qed.

Section RouteTotal.
Variable env : Env.
Variables (tool_name : string) (arguments : Dict).

Lemma hosts_route_total : total (Hosts.route env tool_name arguments).
Proof.
  unfold Hosts.route.
  repeat lazymatch goal with
         | |- total (if ?b then _ else _) => destruct b
         end;
    try (apply total_try; intros; apply total_ret); apply total_ret.
Qed.

Lemma detections_route_total : total (Detections.route env tool_name arguments).
Proof.
  unfold Detections.route.
  repeat lazymatch goal with
         | |- total (if ?b then _ else _) => destruct b
         end;
    try (apply total_try; intros; apply total_ret); apply total_ret.
Qed.

Lemma incidents_route_total : total (Incidents.route env tool_name arguments).
Proof.
  unfold Incidents.route.
  repeat lazymatch goal with
         | |- total (if ?b then _ else _) => destruct b
         end;
    try (apply total_try; intros; apply total_ret); apply total_ret.
Qed.

End RouteTotal.

(** A dispatch function raises exactly when its token refresh raises. *)
Lemma dispatch_raises_with_refresh (env : Env)
    (dispatch : Env -> string -> Dict -> M World Dict)
    (tool_name : string) (arguments : Dict) (w : World) :
  dispatch_function dispatch ->
  (forall ex w1,
      Provider.refresh_token_if_needed env w = (Raise ex, w1) ->
      dispatch env tool_name arguments w = (Raise ex, w1)) /\
  (forall w1,
      Provider.refresh_token_if_needed env w = (Ret tt, w1) ->
      exists e, (dispatch env tool_name arguments w).1 = Ret e /\ constructed e).
Proof.
  intros Hd.
  assert (exists route : M World Dict,
             dispatch env tool_name arguments
             = (Provider.refresh_token_if_needed env ;; route) /\
             total route /\ returns route constructed)
    as (route & -> & Htotal & Hret).
  { destruct Hd; eexists; (split; [reflexivity|]); split.
    - apply hosts_route_total.
    - apply hosts_route_constructed.
    - apply detections_route_total.
    - apply detections_route_constructed.
    - apply incidents_route_total.
    - apply incidents_route_constructed. }
  split.
  - intros ex w1 Hrun. unfold bind. now rewrite Hrun.
  - intros w1 Hrun. unfold bind. rewrite Hrun.
    destruct (Htotal w1) as [e He]. exists e. split; [done|].
    now apply (Hret w1).
Qed.

(** C8, as the code behaves. Inside every helper of every tool module, an exception
    raised by the [try] block (argument validation, the remote call, the
    reading of the response) is caught and becomes the generic error
    envelope of the tool, which names the tool; the helper never raises.
    The only exception a dispatch function lets through is one raised by
    its initial [refresh_token_if_needed]: it raises exactly that
    exception, and returns an envelope whenever the refresh returns. *)
Theorem dispatch_failure_boundary (env : Env) (w : World) (arguments : Dict) :
  (forall t prefix body helper,
      tool_helper t prefix body helper ->
      (forall ex w',
          body env arguments w = (Raise ex, w') ->
          helper env arguments w
          = (Ret (Responses.error_response (VStr (prefix ++ exn_str ex))
                    (Some t) None None), w')) /\
      (exists e, (helper env arguments w).1 = Ret e /\ names_tool t e)) /\
  (forall dispatch tool_name,
      dispatch_function dispatch ->
      (forall ex w1,
          Provider.refresh_token_if_needed env w = (Raise ex, w1) ->
          dispatch env tool_name arguments w = (Raise ex, w1)) /\
      (forall w1,
          Provider.refresh_token_if_needed env w = (Ret tt, w1) ->
          exists e, (dispatch env tool_name arguments w).1 = Ret e /\
                    constructed e)).
Proof.
  split.
  - intros t prefix body helper Hh.
    destruct (tool_helper_boundary t prefix body helper env arguments w Hh)
      as (_ & Hraise & Htotal).
    now split.
  - intros dispatch tool_name Hd.
    now apply dispatch_raises_with_refresh.
Qed.

(** C8 as the spec states it: a dispatch function never raises. *)
Definition never_raises (dispatch : Env -> string -> Dict -> M World Dict)
    : Prop :=
  forall env tool_name arguments w,
    exists e : Dict, (dispatch env tool_name arguments w).1 = Ret e.

(** The token has expired and the service rejects the re-authentication:
    the [ConnectionError] of [initialize] leaves [execute_tool]. *)
Lemma hosts_execute_tool_raises :
  Hosts.execute_tool rejecting_env "query_devices_by_filter" ∅ ready_world
  = (Raise (mkExn ConnectionError
              "Failed to initialize provider: Authentication failed: ['access denied, invalid bearer token']"),
     mkWorld
       (set_oauth2
          (Some (mkOAuth2 "id-1234" "s3cr3t" "https://api.crowdstrike.com"))
          (cleared ready_provider))
       [ EvShutdown;
         EvRevoke (mkOAuth2 "id-1234" "s3cr3t" "https://api.crowdstrike.com");
         EvInitialize;
         EvToken (mkOAuth2 "id-1234" "s3cr3t" "https://api.crowdstrike.com") ]).
Proof. vm_compute. reflexivity. Qed.

Lemma dispatch_propagates_refresh_failure :
  ~ never_raises Hosts.execute_tool.
Proof.
  intros Hnever.
  destruct (Hnever rejecting_env "query_devices_by_filter" ∅ ready_world)
    as [e He].
  rewrite hosts_execute_tool_raises in He. discriminate He.
Qed.

Lemma dispatch_failure_boundary_witness :
  tool_helper "contain_host" "Failed to contain host: "
    Hosts._contain_host_try Hosts._contain_host /\
  dispatch_function Hosts.execute_tool /\
  (exists e, (Hosts._contain_host rejecting_env ∅ ready_world).1 = Ret e /\
             names_tool "contain_host" e) /\
  (forall ex w1,
      Provider.refresh_token_if_needed rejecting_env ready_world = (Raise ex, w1) ->
      Hosts.execute_tool rejecting_env "contain_host" ∅ ready_world
      = (Raise ex, w1)).
Proof.
  destruct (dispatch_failure_boundary rejecting_env ready_world ∅)
    as [Hhelpers Hdispatch].
  split; [apply helper_contain_host|].
  split; [apply dispatch_hosts|].
  split.
  - apply (Hhelpers _ _ _ _ helper_contain_host).
  - apply (Hdispatch _ "contain_host" dispatch_hosts).
Defined.

(** ** Validation of the detection status *)

Definition invalid_status_message : string :=
  "Invalid status. Must be one of: new, in_progress, true_positive, false_positive, closed, ignored, reopened".

Lemma invalid_status_message_joined :
  "Invalid status. Must be one of: " ++ join ", " Detections.VALID_STATUSES
  = invalid_status_message.
Proof. reflexivity. Qed.




(** Scenario C, with the token still valid: the envelope comes back and
    nothing at all is observed. *)
Example scenario_C :
  let env := mkEnv (py_str accepting_env) (fun _ => 500)
               (token_reply accepting_env) (revoke_reply accepting_env)
               (call_reply accepting_env) in
  Detections.execute_tool env "update_detection_status"
    (<["status" := VStr "bogus"]> (<["detection_ids" := VList [VStr "x"]]> ∅))
    ready_world
  = (Ret (Responses.validation_error_response "status" invalid_status_message
            (Some "update_detection_status")),
     ready_world).
Proof. vm_compute. reflexivity. Qed.

(** * Further properties of the provider *)

(** X1. [shutdown] never raises, also when the revocation of the token
    raises: it attempts the revocation exactly when an OAuth2 client is
    assigned, clears the client, the three service handles and the
    initialized flag, and keeps the stored token expiry. *)
Theorem shutdown_best_effort (env : Env) (w : World) :
  exists p' : CrowdStrikeProvider,
    Provider.shutdown env w
    = (Ret tt,
       mkWorld p'
         (w_trace w ++ EvShutdown :: revocation (_oauth2 (w_provider w)))) /\
    session_unset p' /\
    _token_expiry p' = _token_expiry (w_provider w) /\
    _settings p' = _settings (w_provider w).
Proof.
  exists (cleared (w_provider w)). split; [apply shutdown_runs|].
  unfold session_unset. simpl. auto 10.
Qed.

(** [shutdown] is idempotent: a second [shutdown] in a row returns as
    well, calls nothing on the remote service, and leaves the provider
    exactly as the first one left it. *)
Theorem shutdown_idempotent (env : Env) (w : World) :
  let w1 := (Provider.shutdown env w).2 in
  Provider.shutdown env w1
  = (Ret tt, mkWorld (w_provider w1) (w_trace w1 ++ [EvShutdown])).
Proof.
  simpl. rewrite shutdown_runs. simpl. rewrite shutdown_runs. reflexivity.
Qed.

Lemma lookup_some_truthy (d : Dict) (k : string) (v : Value) :
  d !! k = Some v -> truthy (VDict d) = true.
Proof.
  intros Hk. simpl. apply negb_true_iff, bool_decide_eq_false.
  intros Hsize. apply map_size_empty_iff in Hsize. subst.
  now rewrite lookup_empty in Hk.
Qed.

(** The provider after a successful [initialize] *)
Definition initialized_with (token : Value) (expiry : Z)
    (p : CrowdStrikeProvider) : CrowdStrikeProvider :=
  let base_url := falcon_base_url (_settings p) in
  mkProvider (_settings p) (Some (oauth2_of p))
    (Some (mkService HostsApi token base_url))
    (Some (mkService DetectsApi token base_url))
    (Some (mkService IncidentsApi token base_url))
    expiry true.



(** X3. Only status 201 is accepted. When the exchange answers a non-empty
    dict whose status is anything else (200 included), [initialize] raises
    [AuthenticationError] with the errors of the body in its message (the
    default text when the body has none); the token expiry is unchanged and
    only [_oauth2] has been assigned. *)
Theorem initialize_rejects_other_status (env : Env) (w : World)
    (d body : Dict) :
  let p := w_provider w in
  let tr := (w_trace w ++ [EvInitialize; EvToken (oauth2_of p)])%list in
  _initialized p = false ->
  token_reply env tr = Ret (VDict d) ->
  d ≠ ∅ ->
  py_eq_int (dict_get d "status_code" VNone) 201 = false ->
  dict_get d "body" (VDict ∅) = VDict body ->
  Provider.initialize env w
  = (Raise (AuthenticationError
              ("Authentication failed: "
               ++ py_str env (dict_get body "errors"
                                (VList [VStr "Unknown authentication error"])))),
     mkWorld (set_oauth2 (Some (oauth2_of p)) p) tr).
Proof.
  destruct w as [p tr0]. simpl. intros Hnot Hreply Hne Hstatus Hbody.
  unfold Provider.initialize, Provider.initialize_try, Provider.token. run.
  rewrite Hnot. simpl. rewrite <- app_assoc. simpl. fold (oauth2_of p).
  rewrite Hreply. simpl.
  assert (size d ≠ 0%nat) as Hsize.
  { intros Hsize. now apply map_size_empty_iff in Hsize. }
  rewrite bool_decide_eq_false_2 by done. simpl.
  unfold py_get. simpl. rewrite Hstatus. simpl. rewrite Hbody. simpl.
  reflexivity.
Qed.

(** A service that answers the auth exchange with status 200 and a token *)
Definition status_200_env : Env :=
  mkEnv (fun _ => "['Unknown authentication error']")
    (fun _ => 5000)
    (fun _ => Ret (VDict (<["body" := VDict (<["access_token" := VStr "token-3"]> ∅)]>
                            (<["status_code" := VInt 200]> ∅))))
    (fun _ => Ret VNone)
    (fun _ => Ret VNone).

Lemma initialize_rejects_other_status_witness :
  Provider.initialize status_200_env sample_world
  = (Raise (AuthenticationError
              "Authentication failed: ['Unknown authentication error']"),
     mkWorld
       (set_oauth2
          (Some (mkOAuth2 "id-1234" "s3cr3t" "https://api.crowdstrike.com"))
          (w_provider sample_world))
       [EvInitialize;
        EvToken (mkOAuth2 "id-1234" "s3cr3t" "https://api.crowdstrike.com")]).
Proof.
  apply (initialize_rejects_other_status status_200_env sample_world
           (<["body" := VDict (<["access_token" := VStr "token-3"]> ∅)]>
              (<["status_code" := VInt 200]> ∅))
           (<["access_token" := VStr "token-3"]> ∅)).
  - reflexivity.
  - reflexivity.
  - intros Heq. apply (f_equal (fun m : Dict => m !! "body")) in Heq.
    vm_compute in Heq. discriminate Heq.
  - reflexivity.
  - reflexivity.
Defined.

(** After [shutdown] the provider gives nothing out: [get_client] and
    the properties [hosts], [detects] and [incidents] all raise
    [RuntimeError], and none of them touches the provider or the network. *)
Theorem accessors_raise_after_shutdown (env : Env) (w : World) :
  let w1 := (Provider.shutdown env w).2 in
  Provider.get_client w1
  = (Raise (mkExn RuntimeError
              "Provider not initialized. Call initialize() first."), w1) /\
  Provider.hosts w1 = (Raise (mkExn RuntimeError "Provider not initialized"), w1) /\
  Provider.detects w1 = (Raise (mkExn RuntimeError "Provider not initialized"), w1) /\
  Provider.incidents w1
  = (Raise (mkExn RuntimeError "Provider not initialized"), w1).
Proof.
  simpl. rewrite shutdown_runs. repeat split.
Qed.



(** The refresh [health_check] does inline *)
Definition inline_refresh (env : Env) : M World unit :=
  now <- observe (time_time env) ;;
  p <- self ;;
  if (_token_expiry p <=? now)%Z then Provider.shutdown env ;; Provider.initialize env
  else ret tt.

Lemma health_check_try_unfold (env : Env) (w : World) :
  Provider.health_check_try env w
  = match inline_refresh env w with
    | (Ret _, w1) =>
        match _hosts (w_provider w1) with
        | Some h =>
            let tr := (w_trace w1
                       ++ [EvCall h op_query_devices_by_filter
                             (<["limit" := VInt 1]> ∅)])%list in
            let w2 := mkWorld (w_provider w1) tr in
            match call_reply env tr with
            | Ret result =>
                match py_get result "status_code" VNone with
                | Ret status_code => (Ret (py_eq_int status_code 200), w2)
                | Raise e => (Raise e, w2)
                end
            | Raise e => (Raise e, w2)
            end
        | None => (Ret false, w1)
        end
    | (Raise e, w1) => (Raise e, w1)
    end.
Proof.
  unfold Provider.health_check_try, inline_refresh, Provider.call.
  unfold bind, observe, self, lift, ret, emit, reply. simpl.
  destruct (_token_expiry (w_provider w) <=? time_time env (w_trace w))%Z.
  - destruct (Provider.shutdown env w) as [[[]|e] w0]; [|reflexivity].
    destruct (Provider.initialize env w0) as [[[]|e] w1]; [|reflexivity].
    destruct (_hosts (w_provider w1)) as [h|]; [|reflexivity]. simpl.
    destruct (call_reply env _) as [result|e]; [|reflexivity].
    destruct (py_get result "status_code" VNone) as [status_code|e];
      [|reflexivity].
    now destruct (py_eq_int status_code 200).
  - destruct (_hosts (w_provider w)) as [h|]; [|reflexivity]. simpl.
    destruct (call_reply env _) as [result|e]; [|reflexivity].
    destruct (py_get result "status_code" VNone) as [status_code|e];
      [|reflexivity].
    now destruct (py_eq_int status_code 200).
Qed.

(** X5. [health_check] never raises. On a provider that is not initialized
    it answers [False] at once, with no call at all. *)
Theorem health_check_never_raises (env : Env) (w : World) :
  (exists healthy : bool, (Provider.health_check env w).1 = Ret healthy) /\
  (_initialized (w_provider w) = false ->
   Provider.health_check env w = (Ret false, w)).
Proof.
  split.
  - unfold Provider.health_check. unfold bind, self. simpl.
    destruct (_initialized (w_provider w)); simpl.
    + apply total_try. intros e. apply total_ret.
    + now exists false.
  - intros Hnot. unfold Provider.health_check. run. now rewrite Hnot.
Qed.

Lemma health_check_never_raises_witness :
  Provider.health_check accepting_env sample_world = (Ret false, sample_world).
Proof.
  destruct (health_check_never_raises accepting_env sample_world)
    as [_ Hnot].
  apply Hnot. reflexivity.
Defined.

(** X6. [health_check] answers [True] only for a live connection: the last
    thing it did was the query [query_devices_by_filter(limit=1)] on the
    hosts handle the provider holds, and that query was answered with
    status 200. *)
Theorem health_check_true (env : Env) (w : World) :
  (Provider.health_check env w).1 = Ret true ->
  exists (w1 : World) (h : Service) (result status_code : Value),
    let tr := (w_trace w1
               ++ [EvCall h op_query_devices_by_filter
                     (<["limit" := VInt 1]> ∅)])%list in
    _initialized (w_provider w) = true /\
    inline_refresh env w = (Ret tt, w1) /\
    _hosts (w_provider w1) = Some h /\
    (Provider.health_check env w).2 = mkWorld (w_provider w1) tr /\
    call_reply env tr = Ret result /\
    py_get result "status_code" VNone = Ret status_code /\
    py_eq_int status_code 200 = true.
Proof.
  unfold Provider.health_check. unfold bind, self. simpl.
  destruct (_initialized (w_provider w)) eqn:Hready; simpl; [|discriminate].
  unfold try_except. rewrite health_check_try_unfold.
  destruct (inline_refresh env w) as [[[]|e] w1]; simpl; [|discriminate].
  destruct (_hosts (w_provider w1)) as [h|] eqn:Hh; simpl; [|discriminate].
  destruct (call_reply env _) as [result|e] eqn:Hreply; simpl; [|discriminate].
  destruct (py_get result "status_code" VNone) as [status_code|e] eqn:Hstatus;
    simpl; [|discriminate].
  intros [= Htrue]. exists w1, h, result, status_code. simpl.
  rewrite Hreply. auto 10.
Qed.

Lemma health_check_true_witness :
  exists (w1 : World) (h : Service) (result status_code : Value),
    let tr := (w_trace w1
               ++ [EvCall h op_query_devices_by_filter
                     (<["limit" := VInt 1]> ∅)])%list in
    _initialized (w_provider ready_world) = true /\
    inline_refresh accepting_env ready_world = (Ret tt, w1) /\
    _hosts (w_provider w1) = Some h /\
    (Provider.health_check accepting_env ready_world).2
    = mkWorld (w_provider w1) tr /\
    call_reply accepting_env tr = Ret result /\
    py_get result "status_code" VNone = Ret status_code /\
    py_eq_int status_code 200 = true.
Proof.
  apply (health_check_true accepting_env ready_world).
  vm_compute. reflexivity.
Defined.

(** * Further properties of the tool modules *)

(** [m] makes at most one business call, and makes it through a service
    handle that an initialized provider holds. *)
Definition calls_through_handle {A} (m : M World A) : Prop :=
  forall w,
    (m w).2 = w \/
    exists s op kwargs,
      (m w).2 = mkWorld (w_provider w) (w_trace w ++ [EvCall s op kwargs]) /\
      _initialized (w_provider w) = true /\
      (_hosts (w_provider w) = Some s \/ _detects (w_provider w) = Some s
       \/ _incidents (w_provider w) = Some s).

Lemma pure_through_handle {A} (m : M World A) : pure m -> calls_through_handle m.
Proof. intros Hm w. left. apply Hm. Qed.

Lemma pure_then_handle {A B} (m : M World A) (k : A -> M World B) :
  pure m -> (forall a, calls_through_handle (k a)) ->
  calls_through_handle (bind m k).
Proof.
  intros Hm Hk w. unfold bind. specialize (Hm w).
  destruct (m w) as [[a|e] w']; simpl in *; subst; [apply Hk|now left].
Qed.

Lemma try_through_handle {A} (m : M World A) (h : Exn -> M World A) :
  calls_through_handle m -> (forall e, pure (h e)) ->
  calls_through_handle (try_except m h).
Proof.
  intros Hm Hh w. unfold try_except. specialize (Hm w).
  destruct (m w) as [[a|e] w'] eqn:E; simpl in *; [done|].
  now rewrite (Hh e w').
Qed.

Lemma call_with_handle {A} env (handle : M World Service)
    (field : CrowdStrikeProvider -> option Service) op kwargs
    (k : Value -> M World A) :
  (forall w h, (handle w).1 = Ret h ->
               _initialized (w_provider w) = true /\ field (w_provider w) = Some h) ->
  pure handle ->
  (forall s, field (w_provider s) = _hosts (w_provider s)
             \/ field (w_provider s) = _detects (w_provider s)
             \/ field (w_provider s) = _incidents (w_provider s)) ->
  (forall response, pure (k response)) ->
  calls_through_handle
    (h <- handle ;; response <- Provider.call env h op kwargs ;; k response).
Proof.
  intros Hhandle Hpure Hfield Hk w. unfold bind, Provider.call. run.
  pose proof (Hpure w) as Hw. pose proof (Hhandle w) as Hh.
  destruct (handle w) as [[h|e] w0]; simpl in *; subst; [|now left].
  destruct (Hh h eq_refl) as [Hready Hsome].
  right. exists h, op, kwargs. split; [|split; [done|]].
  - destruct (call_reply env (w_trace w ++ [EvCall h op kwargs]))
      as [response|e]; simpl; [|done].
    apply (Hk response).
  - specialize (Hfield w). rewrite Hsome in Hfield.
    destruct Hfield as [H|[H|H]]; symmetry in H; auto.
Qed.

Lemma hosts_returns w h :
  (Provider.hosts w).1 = Ret h ->
  _initialized (w_provider w) = true /\ _hosts (w_provider w) = Some h.
Proof.
  unfold Provider.hosts. run.
  destruct (_initialized (w_provider w)), (_hosts (w_provider w));
    simpl; intros [=]; subst; auto.
Qed.

Lemma detects_returns w h :
  (Provider.detects w).1 = Ret h ->
  _initialized (w_provider w) = true /\ _detects (w_provider w) = Some h.
Proof.
  unfold Provider.detects. run.
  destruct (_initialized (w_provider w)), (_detects (w_provider w));
    simpl; intros [=]; subst; auto.
Qed.

Lemma incidents_returns w h :
  (Provider.incidents w).1 = Ret h ->
  _initialized (w_provider w) = true /\ _incidents (w_provider w) = Some h.
Proof.
  unfold Provider.incidents. run.
  destruct (_initialized (w_provider w)), (_incidents (w_provider w));
    simpl; intros [=]; subst; auto.
Qed.

Ltac handle_tac :=
  lazymatch goal with
  | |- calls_through_handle (bind Provider.hosts _) =>
      apply (call_with_handle _ Provider.hosts _hosts);
      [apply hosts_returns|apply pure_hosts|auto|intros; pure_tac]
  | |- calls_through_handle (bind Provider.detects _) =>
      apply (call_with_handle _ Provider.detects _detects);
      [apply detects_returns|apply pure_detects|auto|intros; pure_tac]
  | |- calls_through_handle (bind Provider.incidents _) =>
      apply (call_with_handle _ Provider.incidents _incidents);
      [apply incidents_returns|apply pure_incidents|auto|intros; pure_tac]
  | |- calls_through_handle (bind _ _) =>
      apply pure_then_handle; [pure_tac|intros; handle_tac]
  | |- calls_through_handle (try_except _ _) =>
      apply try_through_handle; [handle_tac|intros; pure_tac]
  | |- calls_through_handle (if ?b then _ else _) => destruct b; handle_tac
  | |- calls_through_handle _ => apply pure_through_handle; pure_tac
  end.

Section RouteHandles.
Variable env : Env.
Variables (tool_name : string) (arguments : Dict).

Lemma hosts_route_handle :
  calls_through_handle (Hosts.route env tool_name arguments).
Proof.
  unfold Hosts.route, Hosts._query_devices_by_filter,
    Hosts._query_devices_by_filter_try, Hosts._get_device_details,
    Hosts._get_device_details_try, Hosts._contain_host,
    Hosts._contain_host_try, Hosts._lift_containment,
    Hosts._lift_containment_try.
  cbv zeta. handle_tac.
Qed.

Lemma detections_route_handle :
  calls_through_handle (Detections.route env tool_name arguments).
Proof.
  unfold Detections.route, Detections._query_detections,
    Detections._query_detections_try, Detections._get_detection_details,
    Detections._get_detection_details_try,
    Detections._update_detection_status,
    Detections._update_detection_status_try.
  cbv zeta. handle_tac.
Qed.

Lemma incidents_route_handle :
  calls_through_handle (Incidents.route env tool_name arguments).
Proof.
  unfold Incidents.route, Incidents._query_incidents,
    Incidents._query_incidents_try, Incidents._get_incident_details,
    Incidents._get_incident_details_try.
  cbv zeta. handle_tac.
Qed.

End RouteHandles.

Lemma initialize_returns (env : Env) (w w' : World) :
  let p := w_provider w in
  let tr := (w_trace w ++ [EvInitialize; EvToken (oauth2_of p)])%list in
  _initialized p = false ->
  Provider.initialize env w = (Ret tt, w') ->
  exists (auth_result body token : Value) (expiry : Z),
    token_reply env tr = Ret auth_result /\
    py_subscript auth_result "body" = Ret body /\
    py_subscript body "access_token" = Ret token /\
    w' = mkWorld (initialized_with token expiry p) tr.
Proof.
  destruct w as [p tr0]. simpl. intros Hnot.
  unfold Provider.initialize, Provider.initialize_try, Provider.token. run.
  rewrite Hnot. simpl. rewrite <- app_assoc. simpl. fold (oauth2_of p).
  destruct (token_reply env _) as [auth_result|e]; simpl; [|discriminate].
  destruct (truthy auth_result); simpl.
  - destruct (py_get auth_result "status_code" VNone) as [status|]; simpl;
      [|discriminate].
    destruct (py_eq_int status 201); simpl.
    + destruct (py_get auth_result "body" (VDict ∅)) as [body|]; simpl;
        [|discriminate].
      destruct (py_get body "expires_in" (VInt 1800)) as [expires_in|]; simpl;
        [|discriminate].
      destruct (py_number expires_in) as [secs|]; simpl; [|discriminate].
      destruct (py_subscript auth_result "body") as [body'|] eqn:Hbody; simpl;
        [|discriminate].
      destruct (py_subscript body' "access_token") as [token|] eqn:Htoken;
        simpl; [|discriminate].
      intros [= <-]. eexists auth_result, body', token, _.
      repeat split; eauto.
    + destruct (py_get auth_result "body" (VDict ∅)) as [body|]; simpl;
        [|discriminate].
      destruct (py_get body "errors" _); simpl; discriminate.
  - destruct (py_get auth_result "body" (VDict ∅)) as [body|]; simpl;
      [|discriminate].
    destruct (py_get body "errors" _); simpl; discriminate.
Qed.

Lemma dispatch_is_refresh_then_route (env : Env)
    (dispatch : Env -> string -> Dict -> M World Dict)
    (tool_name : string) (arguments : Dict) :
  dispatch_function dispatch ->
  exists route : M World Dict,
    dispatch env tool_name arguments
    = (Provider.refresh_token_if_needed env ;; route) /\
    calls_through_handle route /\ total route /\ returns route constructed.
Proof.
  intros []; eexists; (split; [reflexivity|]); repeat split.
  - apply hosts_route_handle.
  - apply hosts_route_total.
  - apply hosts_route_constructed.
  - apply detections_route_handle.
  - apply detections_route_total.
  - apply detections_route_constructed.
  - apply incidents_route_handle.
  - apply incidents_route_total.
  - apply incidents_route_constructed.
Qed.

(** X7. After the refresh of an expired token, a tool never calls the
    remote service with the old session: either no business call is made,
    or the one call goes through a service handle built from the access
    token of the new auth exchange and the base URL of the settings. *)
Theorem dispatch_uses_new_token (env : Env) (w : World)
    (dispatch : Env -> string -> Dict -> M World Dict)
    (tool_name : string) (arguments : Dict) :
  let p := w_provider w in
  let tr := (w_trace w ++ refresh_cycle p)%list in
  dispatch_function dispatch ->
  (_token_expiry p <= time_time env (w_trace w))%Z ->
  w_trace (dispatch env tool_name arguments w).2 = tr \/
  exists (s : Service) (op : Operation) (kwargs : Dict)
         (auth_result body : Value),
    w_trace (dispatch env tool_name arguments w).2
    = (tr ++ [EvCall s op kwargs])%list /\
    token_reply env tr = Ret auth_result /\
    py_subscript auth_result "body" = Ret body /\
    py_subscript body "access_token" = Ret (access_token s) /\
    service_base_url s = falcon_base_url (_settings p).
Proof.
  simpl. intros Hd Hexpired.
  destruct (dispatch_is_refresh_then_route env dispatch tool_name arguments Hd)
    as (route & -> & Hroute & _ & _).
  pose proof (refresh_expired_trace env w Hexpired) as Htrace.
  unfold bind. rewrite refresh_when_expired in * by done.
  set (w0 := mkWorld (cleared (w_provider w))
               (w_trace w ++ EvShutdown :: revocation (_oauth2 (w_provider w))))
    in *.
  destruct (Provider.initialize env w0) as [[[]|e] w1] eqn:Hinit; simpl in *;
    [|now left].
  destruct (initialize_returns env w0 w1 eq_refl Hinit)
    as (auth_result & body & token & expiry & Hreply & Hbody & Htoken & Hw1).
  assert ((w_trace w0 ++ [EvInitialize; EvToken (oauth2_of (w_provider w0))])%list
          = (w_trace w ++ refresh_cycle (w_provider w))%list) as Htr.
  { subst w1. simpl in Htrace. exact Htrace. }
  rewrite Htr in *.
  destruct (Hroute w1) as [->|(s & op & kwargs & -> & _ & Hs)]; [now left|].
  right. exists s, op, kwargs, auth_result, body. rewrite Htrace. simpl.
  split; [reflexivity|]. split; [exact Hreply|]. split; [exact Hbody|].
  subst w1. simpl in Hs.
  destruct Hs as [[= <-]|[[= <-]|[= <-]]]; simpl; auto.
Qed.

Lemma dispatch_uses_new_token_witness :
  let p := w_provider ready_world in
  let tr := (w_trace ready_world ++ refresh_cycle p)%list in
  w_trace (Hosts.execute_tool accepting_env "query_devices_by_filter" ∅
             ready_world).2 = tr \/
  exists (s : Service) (op : Operation) (kwargs : Dict)
         (auth_result body : Value),
    w_trace (Hosts.execute_tool accepting_env "query_devices_by_filter" ∅
               ready_world).2
    = (tr ++ [EvCall s op kwargs])%list /\
    token_reply accepting_env tr = Ret auth_result /\
    py_subscript auth_result "body" = Ret body /\
    py_subscript body "access_token" = Ret (access_token s) /\
    service_base_url s = falcon_base_url (_settings p).
Proof.
  apply (dispatch_uses_new_token accepting_env ready_world Hosts.execute_tool
           "query_devices_by_filter" ∅).
  - apply dispatch_hosts.
  - simpl. lia.
Defined.

(** An envelope that reports a failure *)
Definition is_failure (e : Dict) : Prop := e !! "success" = Some (VBool false).

(** On a provider that is not initialized, [m] returns failures only. *)
Definition fails_unless_ready (m : M World Dict) : Prop :=
  forall w e,
    _initialized (w_provider w) = false -> (m w).1 = Ret e -> is_failure e.

Lemma fails_after_pure {A} (m : M World A) (k : A -> M World Dict) :
  pure m -> (forall a, fails_unless_ready (k a)) ->
  fails_unless_ready (bind m k).
Proof.
  intros Hm Hk w e Hnot. unfold bind. specialize (Hm w).
  destruct (m w) as [[a|ex] w']; simpl in *; subst; [now apply Hk|discriminate].
Qed.

Lemma fails_at_handle (handle : M World Service) (k : Service -> M World Dict) :
  (forall w h, (handle w).1 = Ret h -> _initialized (w_provider w) = true) ->
  fails_unless_ready (bind handle k).
Proof.
  intros Hhandle w e Hnot. unfold bind. specialize (Hhandle w).
  destruct (handle w) as [[h|ex] w']; simpl in *; [|discriminate].
  rewrite (Hhandle h eq_refl) in Hnot. discriminate.
Qed.

Lemma fails_try (m : M World Dict) (h : Exn -> M World Dict) :
  fails_unless_ready m -> (forall ex, returns (h ex) is_failure) ->
  fails_unless_ready (try_except m h).
Proof.
  intros Hm Hh w e Hnot. unfold try_except. specialize (Hm w).
  destruct (m w) as [[a|ex] w'] eqn:E; simpl in *.
  - intros [= <-]. now apply Hm.
  - apply Hh.
Qed.

Lemma fails_ret (e : Dict) : is_failure e -> fails_unless_ready (ret e).
Proof. intros He w e' _ [= <-]. exact He. Qed.

Ltac fails_tac :=
  lazymatch goal with
  | |- fails_unless_ready (bind Provider.hosts _) =>
      apply fails_at_handle; intros w h Hh; apply (hosts_returns w h Hh)
  | |- fails_unless_ready (bind Provider.detects _) =>
      apply fails_at_handle; intros w h Hh; apply (detects_returns w h Hh)
  | |- fails_unless_ready (bind Provider.incidents _) =>
      apply fails_at_handle; intros w h Hh; apply (incidents_returns w h Hh)
  | |- fails_unless_ready (bind _ _) =>
      apply fails_after_pure; [pure_tac|intros; fails_tac]
  | |- fails_unless_ready (try_except _ _) =>
      apply fails_try;
      [fails_tac|intros; apply returns_ret; apply error_response_success]
  | |- fails_unless_ready (if ?b then _ else _) => destruct b; fails_tac
  | |- fails_unless_ready (ret (Responses.validation_error_response _ _ _)) =>
      apply fails_ret; apply error_response_success
  | |- fails_unless_ready (ret (Responses.error_response _ _ _ _)) =>
      apply fails_ret; apply error_response_success
  end.

Section RouteFails.
Variable env : Env.
Variables (tool_name : string) (arguments : Dict).

Lemma hosts_route_fails :
  fails_unless_ready (Hosts.route env tool_name arguments).
Proof.
  unfold Hosts.route, Hosts._query_devices_by_filter,
    Hosts._query_devices_by_filter_try, Hosts._get_device_details,
    Hosts._get_device_details_try, Hosts._contain_host,
    Hosts._contain_host_try, Hosts._lift_containment,
    Hosts._lift_containment_try.
  cbv zeta. fails_tac.
Qed.

Lemma detections_route_fails :
  fails_unless_ready (Detections.route env tool_name arguments).
Proof.
  unfold Detections.route, Detections._query_detections,
    Detections._query_detections_try, Detections._get_detection_details,
    Detections._get_detection_details_try,
    Detections._update_detection_status,
    Detections._update_detection_status_try.
  cbv zeta. fails_tac.
Qed.

Lemma incidents_route_fails :
  fails_unless_ready (Incidents.route env tool_name arguments).
Proof.
  unfold Incidents.route, Incidents._query_incidents,
    Incidents._query_incidents_try, Incidents._get_incident_details,
    Incidents._get_incident_details_try.
  cbv zeta. fails_tac.
Qed.

End RouteFails.

(** X8. A tool invoked on a provider that is not initialized, while the
    stored token expiry is still ahead (as after a [shutdown]), contacts
    nothing: the provider and the trace are left as they were, and the
    result is an envelope that reports a failure. *)
Theorem dispatch_without_session (env : Env) (w : World)
    (dispatch : Env -> string -> Dict -> M World Dict)
    (tool_name : string) (arguments : Dict) :
  dispatch_function dispatch ->
  _initialized (w_provider w) = false ->
  (time_time env (w_trace w) < _token_expiry (w_provider w))%Z ->
  exists e : Dict,
    dispatch env tool_name arguments w = (Ret e, w) /\
    is_failure e /\ constructed e.
Proof.
  intros Hd Hnot Hfresh.
  assert (exists route : M World Dict,
             dispatch env tool_name arguments
             = (Provider.refresh_token_if_needed env ;; route) /\
             calls_through_handle route /\ total route /\
             returns route constructed /\ fails_unless_ready route)
    as (route & -> & Hhandle & Htotal & Hret & Hfails).
  { destruct Hd; eexists; (split; [reflexivity|]); repeat split.
    - apply hosts_route_handle.
    - apply hosts_route_total.
    - apply hosts_route_constructed.
    - apply hosts_route_fails.
    - apply detections_route_handle.
    - apply detections_route_total.
    - apply detections_route_constructed.
    - apply detections_route_fails.
    - apply incidents_route_handle.
    - apply incidents_route_total.
    - apply incidents_route_constructed.
    - apply incidents_route_fails. }
  unfold bind. rewrite refresh_when_fresh by done.
  destruct (Htotal w) as [e He]. exists e.
  assert ((route w).2 = w) as Hw.
  { destruct (Hhandle w) as [Hw|(s & op & kwargs & _ & Hready & _)]; [done|].
    congruence. }
  split; [|split].
  - destruct (route w) as [r w']. simpl in *. congruence.
  - now apply (Hfails w).
  - now apply (Hret w).
Qed.

Lemma dispatch_without_session_witness :
  let w := mkWorld (cleared ready_provider) [] in
  let env := mkEnv (py_str accepting_env) (fun _ => 500)
               (token_reply accepting_env) (revoke_reply accepting_env)
               (call_reply accepting_env) in
  exists e : Dict,
    Hosts.execute_tool env "contain_host" (<["device_id" := VStr "d1"]> ∅) w
    = (Ret e, w) /\
    is_failure e /\ constructed e.
Proof.
  apply (dispatch_without_session
           (mkEnv (py_str accepting_env) (fun _ => 500)
              (token_reply accepting_env) (revoke_reply accepting_env)
              (call_reply accepting_env))
           (mkWorld (cleared ready_provider) [])
           Hosts.execute_tool "contain_host" (<["device_id" := VStr "d1"]> ∅)).
  - apply dispatch_hosts.
  - reflexivity.
  - simpl. lia.
Defined.

(** The three query tools: helper, handle of the provider, remote
    operation, key of the ids in the data, name of the tool. *)
Inductive query_tool :
    (Env -> Dict -> M World Dict) -> (CrowdStrikeProvider -> option Service) ->
    Operation -> string -> string -> Prop :=
  | query_tool_devices :
      query_tool Hosts._query_devices_by_filter _hosts
        op_query_devices_by_filter "device_ids" "query_devices_by_filter"
  | query_tool_detections :
      query_tool Detections._query_detections _detects
        op_query_detects "detection_ids" "query_detections"
  | query_tool_incidents :
      query_tool Incidents._query_incidents _incidents
        op_query_incidents "incident_ids" "query_incidents".

Ltac unfold_helpers :=
  unfold Hosts._query_devices_by_filter, Hosts._query_devices_by_filter_try,
    Hosts._get_device_details, Hosts._get_device_details_try,
    Hosts._contain_host, Hosts._contain_host_try,
    Hosts._lift_containment, Hosts._lift_containment_try,
    Detections._query_detections, Detections._query_detections_try,
    Detections._get_detection_details, Detections._get_detection_details_try,
    Detections._update_detection_status,
    Detections._update_detection_status_try,
    Incidents._query_incidents, Incidents._query_incidents_try,
    Incidents._get_incident_details, Incidents._get_incident_details_try,
    Provider.hosts, Provider.detects, Provider.incidents, Provider.call,
    api_error, resources_of, total_of.

Lemma query_params_lookup (arguments : Dict) :
  let kwargs := query_params_of arguments in
  let optional (k : string) :=
    if truthy (dict_get arguments k VNone) then arguments !! k else None in
  kwargs !! "limit" = Some (dict_get arguments "limit" (VInt 100)) /\
  kwargs !! "offset" = Some (dict_get arguments "offset" (VInt 0)) /\
  kwargs !! "filter" = optional "filter" /\
  kwargs !! "sort" = optional "sort" /\
  (forall k, k ∉ ["limit"; "offset"; "filter"; "sort"] -> kwargs !! k = None).
Proof.
  assert (forall k, k ∉ ["limit"; "offset"; "filter"; "sort"] ->
                    k ≠ "limit" /\ k ≠ "offset" /\ k ≠ "filter" /\ k ≠ "sort")
    as Hkeys.
  { intros k Hk. rewrite !not_elem_of_cons in Hk. tauto. }
  unfold query_params_of, dict_get. simpl.
  destruct (arguments !! "filter") as [f|] eqn:Hf;
    destruct (arguments !! "sort") as [s|] eqn:Hs; simpl;
    repeat match goal with
           | |- context [truthy ?v] => destruct (truthy v)
           end;
    repeat split; try reflexivity;
    intros k Hk; destruct (Hkeys k Hk) as (? & ? & ? & ?);
    now rewrite ?lookup_insert_ne by done.
Qed.

(** A query tool on an initialized provider: its one event *)
Lemma query_tool_trace (env : Env) (arguments : Dict) (w : World)
    helper field op key tool (h : Service) :
  query_tool helper field op key tool ->
  _initialized (w_provider w) = true ->
  field (w_provider w) = Some h ->
  (helper env arguments w).2
  = mkWorld (w_provider w)
      (w_trace w ++ [EvCall h op (query_params_of arguments)]).
Proof.
  intros Hq Hready Hh.
  destruct w as [p tr]. simpl in *.
  destruct Hq; unfold_helpers; run; rewrite Hready, Hh; simpl;
    (destruct (call_reply env _) as [response|ex]; simpl; [|reflexivity]);
    (destruct (py_get response "status_code" VNone) as [status_code|ex];
     simpl; [|reflexivity]);
    (destruct (py_eq_int status_code 200); simpl);
    repeat match goal with
           | |- context [match ?x with _ => _ end] =>
               lazymatch x with
               | context [match _ with _ => _ end] => fail
               | _ => destruct x; simpl
               end
           end; reflexivity.
Qed.

(** X9. A query tool on an initialized provider makes exactly one call,
    the query of its resource area through the handle the provider holds.
    [limit] and [offset] are forwarded as given, whatever their value (100
    and 0 when absent); [filter] and [sort] are forwarded only when they
    are given and non-empty, and nothing else is sent. *)
Theorem query_tool_call (env : Env) (arguments : Dict) (w : World)
    helper field op key tool (h : Service) :
  query_tool helper field op key tool ->
  _initialized (w_provider w) = true ->
  field (w_provider w) = Some h ->
  exists kwargs : Dict,
    (helper env arguments w).2
    = mkWorld (w_provider w) (w_trace w ++ [EvCall h op kwargs]) /\
    kwargs !! "limit" = Some (dict_get arguments "limit" (VInt 100)) /\
    kwargs !! "offset" = Some (dict_get arguments "offset" (VInt 0)) /\
    kwargs !! "filter"
    = (if truthy (dict_get arguments "filter" VNone)
       then arguments !! "filter" else None) /\
    kwargs !! "sort"
    = (if truthy (dict_get arguments "sort" VNone)
       then arguments !! "sort" else None) /\
    (forall k, k ∉ ["limit"; "offset"; "filter"; "sort"] -> kwargs !! k = None).
Proof.
  intros Hq Hready Hh. exists (query_params_of arguments).
  split; [|apply query_params_lookup].
  now apply (query_tool_trace env arguments w helper field op key tool h).
Qed.

Lemma query_tool_call_witness :
  exists kwargs : Dict,
    (Hosts._query_devices_by_filter accepting_env
       (<["filter" := VNone]> (<["limit" := VInt 0]> ∅)) ready_world).2
    = mkWorld (w_provider ready_world)
        (w_trace ready_world
         ++ [EvCall (mkService HostsApi (VStr "token-1")
                       "https://api.crowdstrike.com")
               op_query_devices_by_filter kwargs]) /\
    kwargs !! "limit" = Some (VInt 0) /\
    kwargs !! "offset" = Some (VInt 0) /\
    kwargs !! "filter" = None /\
    kwargs !! "sort" = None /\
    (forall k, k ∉ ["limit"; "offset"; "filter"; "sort"] -> kwargs !! k = None).
Proof.
  exact (query_tool_call accepting_env
           (<["filter" := VNone]> (<["limit" := VInt 0]> ∅)) ready_world
           Hosts._query_devices_by_filter _hosts op_query_devices_by_filter
           "device_ids" "query_devices_by_filter"
           (mkService HostsApi (VStr "token-1") "https://api.crowdstrike.com")
           query_tool_devices eq_refl eq_refl).
Defined.


(** The stub of scenario A: three devices, total 3 *)
Definition scenario_A_response : Dict :=
  <["body" := VDict
      (<["meta" := VDict (<["pagination" := VDict (<["total" := VInt 3]> ∅)]> ∅)]>
         (<["resources" := VList [VStr "d1"; VStr "d2"; VStr "d3"]]> ∅))]>
    (<["status_code" := VInt 200]> ∅).

Definition scenario_A_env : Env :=
  mkEnv (fun _ => "") (fun _ => 500)
    (fun _ => Ret VNone) (fun _ => Ret VNone)
    (fun _ => Ret (VDict scenario_A_response)).







(** The two containment tools: helper, [action_name] sent to the remote
    service, [action] reported in the data, name of the tool. *)
Inductive containment_tool :
    (Env -> Dict -> M World Dict) -> string -> string -> string -> Prop :=
  | containment_contain :
      containment_tool Hosts._contain_host "contain" "contained" "contain_host"
  | containment_lift :
      containment_tool Hosts._lift_containment "lift_containment"
        "containment_lifted" "lift_containment".

(** X12. Given a non-empty [device_id] and an initialized provider, a
    containment tool makes exactly one call, [perform_action] on the hosts
    handle with its action name and the one device id; when the answer has
    status 200 or 202 the tool returns a success envelope with the device
    id, the action performed and the status "success", and no metadata. *)
Theorem containment_tool_call (env : Env) (arguments : Dict) (w : World)
    helper action_name action tool (h : Service) :
  let device_id := dict_get arguments "device_id" VNone in
  let kwargs : Dict :=
    <["ids" := VList [device_id]]> (<["action_name" := VStr action_name]> ∅) in
  let tr := (w_trace w ++ [EvCall h op_perform_action kwargs])%list in
  containment_tool helper action_name action tool ->
  truthy device_id = true ->
  _initialized (w_provider w) = true ->
  _hosts (w_provider w) = Some h ->
  (helper env arguments w).2 = mkWorld (w_provider w) tr /\
  (forall response status_code,
      call_reply env tr = Ret response ->
      py_get response "status_code" VNone = Ret status_code ->
      py_eq_int status_code 200 || py_eq_int status_code 202 = true ->
      (helper env arguments w).1
      = Ret (Responses.success_response
               (VDict (<["status" := VStr "success"]>
                         (<["action" := VStr action]>
                            (<["device_id" := device_id]> ∅))))
               None)).
Proof.
  simpl. intros Hc Htruthy Hready Hh.
  destruct w as [p tr]. simpl in *. split.
  - destruct Hc; unfold_helpers; run; rewrite Htruthy; simpl; rewrite Hready, Hh; simpl;
      (destruct (call_reply env _) as [response|ex]; simpl; [|reflexivity]);
      (destruct (py_get response "status_code" VNone) as [status_code|ex] eqn:Hs;
       simpl; [|reflexivity]);
      (destruct (py_eq_int status_code 200 || py_eq_int status_code 202);
       simpl; [reflexivity|]);
      repeat match goal with
             | |- context [match ?x with _ => _ end] =>
                 lazymatch x with
                 | context [match _ with _ => _ end] => fail
                 | _ => destruct x; simpl
                 end
             end; reflexivity.
  - intros response status_code Hreply Hstatus Hok.
    destruct Hc; unfold_helpers; run; rewrite Htruthy; simpl; rewrite Hready, Hh; simpl;
      rewrite Hreply; simpl; rewrite Hstatus; simpl; rewrite Hok; reflexivity.
Qed.

Lemma containment_tool_call_witness :
  let arguments : Dict := <["device_id" := VStr "d1"]> ∅ in
  let kwargs : Dict :=
    <["ids" := VList [VStr "d1"]]> (<["action_name" := VStr "contain"]> ∅) in
  let h := mkService HostsApi (VStr "token-1") "https://api.crowdstrike.com" in
  (Hosts._contain_host accepting_env arguments ready_world).2
  = mkWorld (w_provider ready_world) [EvCall h op_perform_action kwargs] /\
  (Hosts._contain_host accepting_env arguments ready_world).1
  = Ret (Responses.success_response
           (VDict (<["status" := VStr "success"]>
                     (<["action" := VStr "contained"]>
                        (<["device_id" := VStr "d1"]> ∅))))
           None).
Proof.
  destruct (containment_tool_call accepting_env (<["device_id" := VStr "d1"]> ∅)
              ready_world Hosts._contain_host "contain" "contained"
              "contain_host"
              (mkService HostsApi (VStr "token-1") "https://api.crowdstrike.com"))
    as [Htrace Hresult];
    [apply containment_contain|reflexivity|reflexivity|reflexivity|].
  split; [exact Htrace|].
  eapply Hresult; reflexivity.
Defined.

(** The three detail tools: helper, handle, remote operation, argument
    with the ids, key of the resources in the data, name of the tool,
    prefix of the generic error. *)
Inductive details_tool :
    (Env -> Dict -> M World Dict) -> (CrowdStrikeProvider -> option Service) ->
    Operation -> string -> string -> string -> string -> Prop :=
  | details_tool_devices :
      details_tool Hosts._get_device_details _hosts op_get_device_details
        "device_ids" "devices" "get_device_details"
        "Failed to get device details: "
  | details_tool_detections :
      details_tool Detections._get_detection_details _detects
        op_get_detect_summaries "detection_ids" "detections"
        "get_detection_details" "Failed to get detection details: "
  | details_tool_incidents :
      details_tool Incidents._get_incident_details _incidents op_get_incidents
        "incident_ids" "incidents" "get_incident_details"
        "Failed to get incident details: ".



(** X14. Ids that are non-empty but have no length (a number, [True]) are
    turned down before any call: the detail tool returns its generic error
    envelope with the message of the [TypeError], and leaves the provider
    and the trace untouched. *)
Theorem details_tool_unsized_ids (env : Env) (arguments : Dict) (w : World)
    helper field op argument key tool prefix (ex : Exn) :
  let ids := dict_get arguments argument (VList []) in
  details_tool helper field op argument key tool prefix ->
  truthy ids = true ->
  py_len ids = Raise ex ->
  helper env arguments w
  = (Ret (Responses.error_response (VStr (prefix ++ exn_str ex)) (Some tool)
            None None), w).
Proof.
  simpl. intros Hd Htruthy Hlen.
  destruct Hd; unfold_helpers; run; rewrite Htruthy; simpl;
    rewrite Hlen; reflexivity.
Qed.

Lemma details_tool_unsized_ids_witness :
  Incidents._get_incident_details accepting_env
    (<["incident_ids" := VInt 7]> ∅) ready_world
  = (Ret (Responses.error_response
            (VStr ("Failed to get incident details: "
                   ++ "object of type 'int' has no len()"))
            (Some "get_incident_details") None None), ready_world).
Proof.
  apply (details_tool_unsized_ids accepting_env
           (<["incident_ids" := VInt 7]> ∅) ready_world
           Incidents._get_incident_details _incidents op_get_incidents
           "incident_ids" "incidents" "get_incident_details"
           "Failed to get incident details: "
           (mkExn TypeError "object of type 'int' has no len()"));
    [apply details_tool_incidents|reflexivity|reflexivity].
Defined.



(** * Declared tools and their dispatch *)

(** A tool module: its dispatch function and the tools it declares *)
Inductive tool_module :
    (Env -> string -> Dict -> M World Dict) -> list Registry.Tool -> Prop :=
  | module_hosts : tool_module Hosts.execute_tool (Hosts.get_tools tt)
  | module_detections :
      tool_module Detections.execute_tool (Detections.get_tools tt)
  | module_incidents :
      tool_module Incidents.execute_tool (Incidents.get_tools tt).

Lemma eqb_neq_false (a b : string) : a ≠ b -> String.eqb a b = false.
Proof. intros Hne. now apply String.eqb_neq. Qed.

(** X16. The names a module declares are the names it serves. For a
    declared tool the dispatch function is the token refresh followed by
    the helper of that tool; for any other name it is the token refresh
    followed by the error envelope "Unknown tool: <name>", with no business
    call. *)
Theorem declared_tools_are_served (env : Env) dispatch tools
    (tool_name : string) (arguments : Dict) :
  tool_module dispatch tools ->
  (tool_name ∈ Registry.name <$> tools ->
   exists prefix body helper,
     tool_helper tool_name prefix body helper /\
     dispatch env tool_name arguments
     = (Provider.refresh_token_if_needed env ;; helper env arguments)) /\
  (tool_name ∉ Registry.name <$> tools ->
   dispatch env tool_name arguments
   = (Provider.refresh_token_if_needed env ;;
      ret (Responses.error_response (VStr ("Unknown tool: " ++ tool_name))
             (Some tool_name) None None))).
Proof.
  intros Hm. split.
  - intros Hin. destruct Hm; simpl in Hin;
      rewrite ?elem_of_cons, elem_of_nil in Hin;
      repeat (destruct Hin as [->|Hin]; [do 3 eexists; split;
                                        [constructor|reflexivity]|]);
      destruct Hin.
  - intros Hnot. destruct Hm; simpl in Hnot;
      rewrite ?not_elem_of_cons in Hnot;
      [unfold Hosts.execute_tool, Hosts.route
      |unfold Detections.execute_tool, Detections.route
      |unfold Incidents.execute_tool, Incidents.route];
      repeat match goal with
             | H : _ ≠ _ /\ _ |- _ =>
                 let Hne := fresh "Hne" in
                 destruct H as [Hne H]; rewrite (eqb_neq_false _ _ Hne)
             end; reflexivity.
Qed.

Lemma declared_tools_are_served_witness :
  tool_module Detections.execute_tool (Detections.get_tools tt) /\
  ("contain_host" ∉ Registry.name <$> Detections.get_tools tt) /\
  Detections.execute_tool accepting_env "contain_host" ∅
  = (Provider.refresh_token_if_needed accepting_env ;;
     ret (Responses.error_response (VStr ("Unknown tool: " ++ "contain_host"))
            (Some "contain_host") None None)).
Proof.
  assert ("contain_host" ∉ Registry.name <$> Detections.get_tools tt) as Hnot.
  { apply (bool_decide_unpack _). vm_compute. exact I. }
  split; [apply module_detections|]. split; [exact Hnot|].
  destruct (declared_tools_are_served accepting_env Detections.execute_tool
              (Detections.get_tools tt) "contain_host" ∅ module_detections)
    as [_ Hunknown].
  exact (Hunknown Hnot).
Defined.

(** The names listed under [required] in an input schema *)
Definition required_fields (schema : Dict) : list string :=
  match schema !! "required" with
  | Some (VList fields) =>
      omap (fun v => match v with VStr s => Some s | _ => None end) fields
  | _ => []
  end.

Lemma truthy_ids_default (arguments : Dict) (k : string) :
  truthy (dict_get arguments k (VList [])) = truthy (dict_get arguments k VNone).
Proof. unfold dict_get. now destruct (arguments !! k). Qed.

(** X17. The helpers enforce what the schemas require. When an argument
    that the input schema of a declared tool lists as required is absent or
    empty, the dispatch function is the token refresh followed by a
    validation-error envelope that names the tool and an absent or empty
    required field; no business call is made. *)
Theorem required_arguments_are_validated (env : Env) dispatch tools
    (tool : Registry.Tool) (field : string) (arguments : Dict) :
  tool_module dispatch tools ->
  tool ∈ tools ->
  field ∈ required_fields (Registry.input_schema tool) ->
  truthy (dict_get arguments field VNone) = false ->
  exists reported message : string,
    reported ∈ required_fields (Registry.input_schema tool) /\
    truthy (dict_get arguments reported VNone) = false /\
    dispatch env (Registry.name tool) arguments
    = (Provider.refresh_token_if_needed env ;;
       ret (Responses.validation_error_response reported message
              (Some (Registry.name tool)))).
Proof.
  intros Hm Htool Hfield Hfalsy.
  apply (list_elem_of_fmap_2 (fun t => (Registry.name t,
                                 required_fields (Registry.input_schema t))))
    in Htool.
  destruct Hm.
  - replace ((fun t => (Registry.name t,
                        required_fields (Registry.input_schema t)))
               <$> Hosts.get_tools tt)
      with [("query_devices_by_filter", @nil string);
            ("get_device_details", ["device_ids"]);
            ("contain_host", ["device_id"]);
            ("lift_containment", ["device_id"])] in Htool
      by (vm_compute; reflexivity).
    rewrite !elem_of_cons, elem_of_nil in Htool.
    destruct Htool as [[= Hname Hreq]|[[= Hname Hreq]|[[= Hname Hreq]
                      |[[= Hname Hreq]|[]]]]];
      rewrite Hname, Hreq in *;
      rewrite ?elem_of_cons, ?elem_of_nil in Hfield;
      repeat (destruct Hfield as [->|Hfield]); try destruct Hfield.
    + exists "device_ids", "At least one device ID is required".
      split; [apply elem_of_cons; auto|]. split; [done|].
      unfold Hosts.execute_tool, Hosts.route, Hosts._get_device_details,
        Hosts._get_device_details_try, try_except. simpl.
      rewrite truthy_ids_default, Hfalsy. reflexivity.
    + exists "device_id", "Device ID is required".
      split; [apply elem_of_cons; auto|]. split; [done|].
      unfold Hosts.execute_tool, Hosts.route, Hosts._contain_host,
        Hosts._contain_host_try, try_except. simpl.
      rewrite Hfalsy. reflexivity.
    + exists "device_id", "Device ID is required".
      split; [apply elem_of_cons; auto|]. split; [done|].
      unfold Hosts.execute_tool, Hosts.route, Hosts._lift_containment,
        Hosts._lift_containment_try, try_except. simpl.
      rewrite Hfalsy. reflexivity.
  - replace ((fun t => (Registry.name t,
                        required_fields (Registry.input_schema t)))
               <$> Detections.get_tools tt)
      with [("query_detections", @nil string);
            ("get_detection_details", ["detection_ids"]);
            ("update_detection_status", ["detection_ids"; "status"])] in Htool
      by (vm_compute; reflexivity).
    rewrite !elem_of_cons, elem_of_nil in Htool.
    destruct Htool as [[= Hname Hreq]|[[= Hname Hreq]|[[= Hname Hreq]|[]]]];
      rewrite Hname, Hreq in *;
      rewrite ?elem_of_cons, ?elem_of_nil in Hfield;
      repeat (destruct Hfield as [->|Hfield]); try destruct Hfield.
    + exists "detection_ids", "At least one detection ID is required".
      split; [apply elem_of_cons; auto|]. split; [done|].
      unfold Detections.execute_tool, Detections.route,
        Detections._get_detection_details,
        Detections._get_detection_details_try, try_except. simpl.
      rewrite truthy_ids_default, Hfalsy. reflexivity.
    + exists "detection_ids", "At least one detection ID is required".
      split; [apply elem_of_cons; auto|]. split; [done|].
      unfold Detections.execute_tool, Detections.route,
        Detections._update_detection_status,
        Detections._update_detection_status_try, try_except. simpl.
      rewrite truthy_ids_default, Hfalsy. reflexivity.
    + destruct (truthy (dict_get arguments "detection_ids" VNone)) eqn:Hids.
      * exists "status", "Status is required".
        split; [rewrite !elem_of_cons; auto|]. split; [done|].
        unfold Detections.execute_tool, Detections.route,
          Detections._update_detection_status,
          Detections._update_detection_status_try, try_except. simpl.
        rewrite truthy_ids_default, Hids, Hfalsy. reflexivity.
      * exists "detection_ids", "At least one detection ID is required".
        split; [apply elem_of_cons; auto|]. split; [done|].
        unfold Detections.execute_tool, Detections.route,
          Detections._update_detection_status,
          Detections._update_detection_status_try, try_except. simpl.
        rewrite truthy_ids_default, Hids. reflexivity.
  - replace ((fun t => (Registry.name t,
                        required_fields (Registry.input_schema t)))
               <$> Incidents.get_tools tt)
      with [("query_incidents", @nil string);
            ("get_incident_details", ["incident_ids"])] in Htool
      by (vm_compute; reflexivity).
    rewrite !elem_of_cons, elem_of_nil in Htool.
    destruct Htool as [[= Hname Hreq]|[[= Hname Hreq]|[]]];
      rewrite Hname, Hreq in *;
      rewrite ?elem_of_cons, ?elem_of_nil in Hfield;
      repeat (destruct Hfield as [->|Hfield]); try destruct Hfield.
    exists "incident_ids", "At least one incident ID is required".
    split; [apply elem_of_cons; auto|]. split; [done|].
    unfold Incidents.execute_tool, Incidents.route,
      Incidents._get_incident_details,
      Incidents._get_incident_details_try, try_except. simpl.
    rewrite truthy_ids_default, Hfalsy. reflexivity.
Qed.

Lemma required_arguments_are_validated_witness :
  exists reported message : string,
    Hosts.execute_tool accepting_env "contain_host" ∅
    = (Provider.refresh_token_if_needed accepting_env ;;
       ret (Responses.validation_error_response reported message
              (Some "contain_host"))).
Proof.
  destruct (required_arguments_are_validated accepting_env Hosts.execute_tool
              (Hosts.get_tools tt)
              (Registry.mkTool "contain_host"
                 ("⚠️ CRITICAL ACTION: Isolate a host from the network (network containment). "
                  ++ "This prevents the host from communicating on the network except with "
                  ++ "CrowdStrike cloud. Use this for incident response to prevent lateral "
                  ++ "movement. This action is logged and audited. Use lift_containment to restore.")
                 (device_id_schema "Device ID to contain (isolate)")
                 placeholder_handler)
              "device_id" ∅)
    as (reported & message & _ & _ & Hrun).
  - apply module_hosts.
  - unfold Hosts.get_tools. rewrite !elem_of_cons. auto.
  - apply (bool_decide_unpack _). vm_compute. exact I.
  - reflexivity.
  - exists reported, message. exact Hrun.
Defined.

(** * Further properties of the registry *)

(** The failure boundary of [ToolRegistry.execute_tool] around a handler *)
Definition within_boundary (tool_name : string) (m : M World Dict) : M World Dict :=
  try_except m
    (fun e =>
       ret (Responses.error_response
              (VStr ("Tool execution failed: " ++ exn_str e))
              (Some tool_name) (Some (VInt 500)) None)).

Lemma execute_tool_registered (r : Registry.ToolRegistry) (tool : Registry.Tool)
    (tool_name : string) (arguments : Dict) (w : World) :
  Registry._tools r !! tool_name = Some tool ->
  Registry.execute_tool r tool_name arguments w
  = within_boundary tool_name (Registry.handler tool tool_name arguments) w.
Proof.
  intros Hsome. unfold Registry.execute_tool, Registry.get_tool, within_boundary.
  rewrite Hsome. unfold try_except, bind, ret.
  now destruct (Registry.handler tool tool_name arguments w) as [[e|ex] w'].
Qed.

(** X18. Registering a tool under a new name succeeds; afterwards
    [get_tool] finds exactly that tool under its name, every other name
    resolves as before, and [execute_tool] on the name runs the handler of
    the tool inside the failure boundary. *)
Theorem register_tool_then_lookup (r : Registry.ToolRegistry)
    (tool : Registry.Tool) :
  Registry._tools r !! Registry.name tool = None ->
  exists r' : Registry.ToolRegistry,
    Registry.register_tool tool r = (Ret tt, r') /\
    Registry.get_tool r' (Registry.name tool) = Some tool /\
    (forall n, n ≠ Registry.name tool ->
               Registry.get_tool r' n = Registry.get_tool r n) /\
    size (Registry._tools r') = S (size (Registry._tools r)) /\
    (forall arguments w,
        Registry.execute_tool r' (Registry.name tool) arguments w
        = within_boundary (Registry.name tool)
            (Registry.handler tool (Registry.name tool) arguments) w).
Proof.
  intros Hnew.
  exists (Registry.mkRegistry (<[Registry.name tool := tool]> (Registry._tools r))).
  unfold Registry.register_tool, Registry.get_tool. rewrite Hnew. simpl.
  split; [reflexivity|]. split; [apply lookup_insert_eq|].
  split; [intros n Hn; now apply lookup_insert_ne|].
  split; [now apply map_size_insert_None|].
  intros arguments w. apply execute_tool_registered. simpl.
  apply lookup_insert_eq.
Qed.

Lemma register_tool_then_lookup_witness :
  exists r' : Registry.ToolRegistry,
    Registry.register_tool noop_tool sample_registry = (Ret tt, r') /\
    Registry.get_tool r' "noop" = Some noop_tool /\
    (forall n, n ≠ "noop" ->
               Registry.get_tool r' n = Registry.get_tool sample_registry n) /\
    size (Registry._tools r') = S (size (Registry._tools sample_registry)) /\
    (forall arguments w,
        Registry.execute_tool r' "noop" arguments w
        = within_boundary "noop" (Registry.handler noop_tool "noop" arguments) w).
Proof.
  apply (register_tool_then_lookup sample_registry noop_tool). reflexivity.
Defined.

Lemma size_inserted (execute_func : Registry.Handler)
    (l : list Registry.Tool) (m : gmap string Registry.Tool) :
  NoDup (Registry.name <$> l) ->
  (forall t, t ∈ l -> m !! Registry.name t = None) ->
  size (inserted execute_func l m) = (size m + length l)%nat.
Proof.
  revert m. induction l as [|t l IH]; intros m Hnd Hnew; simpl.
  - lia.
  - simpl in Hnd. apply NoDup_cons in Hnd as [Hnotin Hnd].
    rewrite IH; [|done|].
    + rewrite map_size_insert_None; [lia|].
      apply Hnew, elem_of_cons. auto.
    + intros t' Hin. rewrite lookup_insert_ne.
      * apply Hnew, elem_of_cons. auto.
      * intros Heq. apply Hnotin. rewrite Heq.
        now apply list_elem_of_fmap_2.
Qed.

(** X19. [register_module] on tools with distinct, new names succeeds and
    registers every one of them with its name, description and schema, its
    handler bound to the dispatch function of the module; other names
    resolve as before. Executing a tool so registered runs the dispatch
    function on the name and the arguments inside the failure boundary. *)
Theorem register_module_registers_all (r : Registry.ToolRegistry)
    (get_tools_func : unit -> list Registry.Tool)
    (execute_func : Registry.Handler) :
  NoDup (Registry.name <$> get_tools_func tt) ->
  (forall t, t ∈ get_tools_func tt ->
             Registry._tools r !! Registry.name t = None) ->
  exists r' : Registry.ToolRegistry,
    Registry.register_module get_tools_func execute_func r = (Ret tt, r') /\
    (forall t, t ∈ get_tools_func tt ->
       Registry.get_tool r' (Registry.name t)
       = Some (Registry.mkTool (Registry.name t) (Registry.description t)
                 (Registry.input_schema t)
                 (Registry.bound_handler execute_func)) /\
       forall arguments w,
         Registry.execute_tool r' (Registry.name t) arguments w
         = within_boundary (Registry.name t)
             (execute_func (Registry.name t) arguments) w) /\
    (forall n, n ∉ Registry.name <$> get_tools_func tt ->
               Registry.get_tool r' n = Registry.get_tool r n) /\
    size (Registry._tools r')
    = (size (Registry._tools r) + length (get_tools_func tt))%nat.
Proof.
  intros Hnd Hnew.
  exists (Registry.mkRegistry
            (inserted execute_func (get_tools_func tt) (Registry._tools r))).
  split; [|split; [|split]].
  - unfold Registry.register_module.
    now apply (for_each_register execute_func).
  - intros t Hin.
    assert (Registry.get_tool
              (Registry.mkRegistry
                 (inserted execute_func (get_tools_func tt) (Registry._tools r)))
              (Registry.name t)
            = Some (bound execute_func t)) as Hget.
    { unfold Registry.get_tool. simpl. now apply lookup_inserted. }
    split; [exact Hget|].
    intros arguments w.
    now rewrite (execute_tool_registered _ (bound execute_func t)).
  - intros n Hn. unfold Registry.get_tool. simpl.
    now apply lookup_inserted_fresh.
  - simpl. now apply size_inserted.
Qed.

Lemma register_module_registers_all_witness :
  exists r' : Registry.ToolRegistry,
    Registry.register_module Incidents.get_tools
      (Incidents.execute_tool accepting_env) sample_registry = (Ret tt, r') /\
    (forall t, t ∈ Incidents.get_tools tt ->
       Registry.get_tool r' (Registry.name t)
       = Some (Registry.mkTool (Registry.name t) (Registry.description t)
                 (Registry.input_schema t)
                 (Registry.bound_handler (Incidents.execute_tool accepting_env)))
       /\
       forall arguments w,
         Registry.execute_tool r' (Registry.name t) arguments w
         = within_boundary (Registry.name t)
             (Incidents.execute_tool accepting_env (Registry.name t) arguments)
             w) /\
    (forall n, n ∉ Registry.name <$> Incidents.get_tools tt ->
               Registry.get_tool r' n = Registry.get_tool sample_registry n) /\
    size (Registry._tools r')
    = (size (Registry._tools sample_registry)
       + length (Incidents.get_tools tt))%nat.
Proof.
  apply (register_module_registers_all sample_registry Incidents.get_tools
           (Incidents.execute_tool accepting_env)).
  - apply (bool_decide_unpack _). vm_compute. exact I.
  - intros t Hin. unfold Incidents.get_tools in Hin.
    rewrite !elem_of_cons, elem_of_nil in Hin.
    destruct Hin as [->|[->|[]]]; vm_compute; reflexivity.
Defined.

(** X20. The dispatch function of a module is attached by
    [register_module] only. A declared tool registered as it comes from
    [get_tools] still carries the placeholder handler, and executing it
    yields the 500 envelope of the failure boundary, with no call made. *)
Theorem placeholder_handler_fails (r : Registry.ToolRegistry) dispatch tools
    (tool : Registry.Tool) (arguments : Dict) (w : World) :
  tool_module dispatch tools ->
  tool ∈ tools ->
  Registry._tools r !! Registry.name tool = None ->
  exists (r' : Registry.ToolRegistry) (e : Dict),
    Registry.register_tool tool r = (Ret tt, r') /\
    Registry.execute_tool r' (Registry.name tool) arguments w = (Ret e, w) /\
    e !! "success" = Some (VBool false) /\
    e !! "status_code" = Some (VInt 500) /\
    e !! "tool" = Some (VStr (Registry.name tool)).
Proof.
  intros Hm Htool Hnew.
  set (r' := Registry.mkRegistry
               (<[Registry.name tool := tool]> (Registry._tools r))).
  assert (Registry.register_tool tool r = (Ret tt, r')) as Hreg
    by (unfold Registry.register_tool; now rewrite Hnew).
  assert (Registry.execute_tool r' (Registry.name tool) arguments w
          = within_boundary (Registry.name tool)
              (Registry.handler tool (Registry.name tool) arguments) w)
    as Hrun by (apply execute_tool_registered; apply lookup_insert_eq).
  assert (Registry.handler tool = placeholder_handler) as Hhandler.
  { destruct Hm;
      unfold Hosts.get_tools, Detections.get_tools, Incidents.get_tools in Htool;
      rewrite !elem_of_cons, elem_of_nil in Htool;
      repeat (destruct Htool as [->|Htool]; [reflexivity|]); destruct Htool. }
  exists r'. eexists. split; [exact Hreg|]. split.
  - rewrite Hrun, Hhandler. reflexivity.
  - now rewrite error_response_success, error_response_status_code,
      error_response_tool.
Qed.

Lemma placeholder_handler_fails_witness :
  exists (r' : Registry.ToolRegistry) (e : Dict),
    Registry.register_tool
      (Registry.mkTool "get_incident_details"
         ("Get detailed information about specific incidents. "
          ++ "Provide incident IDs from query_incidents to retrieve "
          ++ "comprehensive incident information including status, hosts involved, "
          ++ "detections, tactics, techniques, and timeline.")
         (ids_schema "incident_ids" "List of incident IDs to retrieve" 500)
         placeholder_handler)
      Registry.__init__ = (Ret tt, r') /\
    Registry.execute_tool r' "get_incident_details" ∅ ready_world
    = (Ret e, ready_world) /\
    e !! "success" = Some (VBool false) /\
    e !! "status_code" = Some (VInt 500) /\
    e !! "tool" = Some (VStr "get_incident_details").
Proof.
  apply (placeholder_handler_fails Registry.__init__ Incidents.execute_tool
           (Incidents.get_tools tt)
           (Registry.mkTool "get_incident_details"
              ("Get detailed information about specific incidents. "
               ++ "Provide incident IDs from query_incidents to retrieve "
               ++ "comprehensive incident information including status, hosts involved, "
               ++ "detections, tactics, techniques, and timeline.")
              (ids_schema "incident_ids" "List of incident IDs to retrieve" 500)
              placeholder_handler)
           ∅ ready_world).
  - apply module_incidents.
  - unfold Incidents.get_tools. rewrite !elem_of_cons. auto.
  - reflexivity.
Defined.

(** X21. The registry is the second line of defence for the token refresh.
    When a tool is registered with the dispatch function of its module and
    the refresh raises (the re-authentication failed), [execute_tool] of
    the registry does not raise: it returns the envelope with [success]
    false, [status_code] 500 and the error "Tool execution failed: "
    followed by the message of the exception. *)
Theorem registry_catches_refresh_failure (env : Env)
    (r : Registry.ToolRegistry) dispatch (tool : Registry.Tool)
    (tool_name : string) (arguments : Dict) (w w1 : World) (ex : Exn) :
  dispatch_function dispatch ->
  Registry._tools r !! tool_name = Some tool ->
  Registry.handler tool = Registry.bound_handler (dispatch env) ->
  Provider.refresh_token_if_needed env w = (Raise ex, w1) ->
  exists e : Dict,
    Registry.execute_tool r tool_name arguments w = (Ret e, w1) /\
    e !! "success" = Some (VBool false) /\
    e !! "status_code" = Some (VInt 500) /\
    e !! "error" = Some (VStr ("Tool execution failed: " ++ exn_str ex)) /\
    e !! "tool" = Some (VStr tool_name).
Proof.
  intros Hd Hsome Hhandler Hrefresh.
  destruct (dispatch_raises_with_refresh env dispatch tool_name arguments w Hd)
    as [Hraise _].
  eexists. split.
  - rewrite (execute_tool_registered r tool) by done.
    rewrite Hhandler. unfold within_boundary, try_except, Registry.bound_handler.
    rewrite (Hraise ex w1 Hrefresh). reflexivity.
  - now rewrite error_response_success, error_response_status_code,
      error_response_error, error_response_tool.
Qed.

Definition served_registry : Registry.ToolRegistry :=
  Registry.mkRegistry
    (<["contain_host" :=
         Registry.mkTool "contain_host" "Isolate a host" ∅
           (Registry.bound_handler (Hosts.execute_tool rejecting_env))]> ∅).

Lemma registry_catches_refresh_failure_witness :
  exists e : Dict,
    Registry.execute_tool served_registry "contain_host"
      (<["device_id" := VStr "d1"]> ∅) ready_world
    = (Ret e,
       mkWorld
         (set_oauth2
            (Some (mkOAuth2 "id-1234" "s3cr3t" "https://api.crowdstrike.com"))
            (cleared ready_provider))
         [ EvShutdown;
           EvRevoke (mkOAuth2 "id-1234" "s3cr3t" "https://api.crowdstrike.com");
           EvInitialize;
           EvToken (mkOAuth2 "id-1234" "s3cr3t" "https://api.crowdstrike.com") ])
    /\
    e !! "success" = Some (VBool false) /\
    e !! "status_code" = Some (VInt 500) /\
    e !! "error"
    = Some (VStr ("Tool execution failed: "
                  ++ exn_str (mkExn ConnectionError
                       "Failed to initialize provider: Authentication failed: ['access denied, invalid bearer token']")))
    /\
    e !! "tool" = Some (VStr "contain_host").
Proof.
  apply (registry_catches_refresh_failure rejecting_env served_registry
           Hosts.execute_tool
           (Registry.mkTool "contain_host" "Isolate a host" ∅
              (Registry.bound_handler (Hosts.execute_tool rejecting_env)))).
  - apply dispatch_hosts.
  - reflexivity.
  - reflexivity.
  - vm_compute. reflexivity.
Defined.

(** * The server *)

Definition declared_names : list string :=
  Registry.name <$> (Hosts.get_tools tt ++ Detections.get_tools tt
                     ++ Incidents.get_tools tt)%list.

Lemma declared_names_distinct :
  declared_names
  = [ "query_devices_by_filter"; "get_device_details"; "contain_host";
      "lift_containment"; "query_detections"; "get_detection_details";
      "update_detection_status"; "query_incidents"; "get_incident_details" ]
  /\ NoDup declared_names.
Proof.
  split; [reflexivity|]. apply (bool_decide_unpack _). vm_compute. exact I.
Qed.

(** The registry [MCPServer.initialize] builds *)
Definition server_registry (env : Env) : Registry.ToolRegistry :=
  Registry.mkRegistry
    (inserted (Incidents.execute_tool env) (Incidents.get_tools tt)
       (inserted (Detections.execute_tool env) (Detections.get_tools tt)
          (inserted (Hosts.execute_tool env) (Hosts.get_tools tt) ∅))).

Lemma register_modules (env : Env) :
  (Registry.register_module Hosts.get_tools (Hosts.execute_tool env) ;;
   Registry.register_module Detections.get_tools (Detections.execute_tool env) ;;
   Registry.register_module Incidents.get_tools (Incidents.execute_tool env))
    Registry.__init__
  = (Ret tt, server_registry env).
Proof.
  set (r1 := Registry.mkRegistry
               (inserted (Hosts.execute_tool env) (Hosts.get_tools tt) ∅)).
  set (r2 := Registry.mkRegistry
               (inserted (Detections.execute_tool env) (Detections.get_tools tt)
                  (Registry._tools r1))).
  assert (Registry.register_module Hosts.get_tools (Hosts.execute_tool env)
            Registry.__init__ = (Ret tt, r1)) as H1.
  { apply (for_each_register (Hosts.execute_tool env)).
    - apply (bool_decide_unpack _). vm_compute. exact I.
    - intros t Hin. reflexivity. }
  assert (Registry.register_module Detections.get_tools
            (Detections.execute_tool env) r1 = (Ret tt, r2)) as H2.
  { apply (for_each_register (Detections.execute_tool env)).
    - apply (bool_decide_unpack _). vm_compute. exact I.
    - intros t Hin. unfold Detections.get_tools in Hin.
      rewrite !elem_of_cons, elem_of_nil in Hin.
      destruct Hin as [->|[->|[->|[]]]]; reflexivity. }
  assert (Registry.register_module Incidents.get_tools
            (Incidents.execute_tool env) r2 = (Ret tt, server_registry env))
    as H3.
  { apply (for_each_register (Incidents.execute_tool env)).
    - apply (bool_decide_unpack _). vm_compute. exact I.
    - intros t Hin. unfold Incidents.get_tools in Hin.
      rewrite !elem_of_cons, elem_of_nil in Hin.
      destruct Hin as [->|[->|[]]]; reflexivity. }
  unfold bind. now rewrite H1, H2, H3.
Qed.

Lemma server_registry_lookup (env : Env) dispatch tools (t : Registry.Tool) :
  tool_module dispatch tools -> t ∈ tools ->
  Registry._tools (server_registry env) !! Registry.name t
  = Some (bound (dispatch env) t).
Proof.
  intros Hm Hin.
  destruct Hm;
    unfold Hosts.get_tools, Detections.get_tools, Incidents.get_tools in Hin;
    rewrite !elem_of_cons, elem_of_nil in Hin;
    repeat (destruct Hin as [->|Hin]; [reflexivity|]); destruct Hin.
Qed.

Lemma server_registry_undeclared (env : Env) (n : string) :
  n ∉ declared_names -> Registry._tools (server_registry env) !! n = None.
Proof.
  intros Hn.
  change (inserted (Incidents.execute_tool env) (Incidents.get_tools tt)
            (inserted (Detections.execute_tool env) (Detections.get_tools tt)
               (inserted (Hosts.execute_tool env) (Hosts.get_tools tt) ∅))
            !! n = None).
  unfold declared_names in Hn. rewrite !fmap_app, !not_elem_of_app in Hn.
  destruct Hn as (Hh & Hd & Hi).
  now rewrite !lookup_inserted_fresh.
Qed.

Lemma server_registry_handler (env : Env) (n : string) (tool : Registry.Tool) :
  Registry._tools (server_registry env) !! n = Some tool ->
  exists dispatch,
    dispatch_function dispatch /\
    Registry.handler tool = Registry.bound_handler (dispatch env).
Proof.
  intros Hget.
  destruct (decide (n ∈ declared_names)) as [Hin|Hnot].
  - unfold declared_names in Hin. rewrite !fmap_app, !elem_of_app in Hin.
    destruct Hin as [Hin|[Hin|Hin]];
      apply list_elem_of_fmap in Hin as (t & -> & Hin).
    + rewrite (server_registry_lookup env _ _ t module_hosts Hin) in Hget.
      injection Hget as <-. eexists. split; [apply dispatch_hosts|done].
    + rewrite (server_registry_lookup env _ _ t module_detections Hin) in Hget.
      injection Hget as <-. eexists. split; [apply dispatch_detections|done].
    + rewrite (server_registry_lookup env _ _ t module_incidents Hin) in Hget.
      injection Hget as <-. eexists. split; [apply dispatch_incidents|done].
  - rewrite server_registry_undeclared in Hget by done. discriminate.
Qed.

(** The two sample exchanges, evaluated: the accepting service initializes
    the sample provider, the rejecting one makes [initialize] raise. *)
Lemma sample_initialize_accepted :
  Provider.initialize accepting_env sample_world
  = (Ret tt,
     mkWorld
       (initialized_with (VStr "token-2") (5000 + 1800 - 300)
          (w_provider sample_world))
       [EvInitialize;
        EvToken (mkOAuth2 "id-1234" "s3cr3t" "https://api.crowdstrike.com")]).
Proof. vm_compute. reflexivity. Qed.

Lemma sample_initialize_rejected :
  Provider.initialize rejecting_env sample_world
  = (Raise (mkExn ConnectionError
              "Failed to initialize provider: Authentication failed: ['access denied, invalid bearer token']"),
     mkWorld
       (set_oauth2
          (Some (mkOAuth2 "id-1234" "s3cr3t" "https://api.crowdstrike.com"))
          (w_provider sample_world))
       [EvInitialize;
        EvToken (mkOAuth2 "id-1234" "s3cr3t" "https://api.crowdstrike.com")]).
Proof. vm_compute. reflexivity. Qed.

(** X22. When the provider initializes, [MCPServer.initialize] returns with
    a registry of exactly the nine declared tools: no registration fails
    (the names of the three modules are distinct), and every declared tool
    is bound to the dispatch function of its own module. *)
Theorem server_initialize_registers_all (env : Env) (s : Server.MCPServer)
    (w1 : World) :
  Provider.initialize env (Server.server_world s) = (Ret tt, w1) ->
  Server.initialize env s
  = (Ret tt, Server.mkServer w1 (Some (server_registry env))) /\
  size (Registry._tools (server_registry env)) = 9%nat /\
  (forall dispatch tools t,
      tool_module dispatch tools -> t ∈ tools ->
      Registry.get_tool (server_registry env) (Registry.name t)
      = Some (Registry.mkTool (Registry.name t) (Registry.description t)
                (Registry.input_schema t)
                (Registry.bound_handler (dispatch env)))) /\
  (forall n, n ∉ declared_names ->
             Registry.get_tool (server_registry env) n = None).
Proof.
  intros Hinit. split; [|split; [|split]].
  - pose proof (register_modules env) as Hreg.
    unfold Server.initialize, bind in *.
    unfold Server.on_provider at 1. rewrite Hinit.
    unfold Server.set_registry. simpl.
    unfold Server.on_registry. simpl.
    destruct (Registry.register_module Hosts.get_tools
                (Hosts.execute_tool env) Registry.__init__) as [[[]|e] r1];
      [|discriminate]. simpl.
    destruct (Registry.register_module Detections.get_tools
                (Detections.execute_tool env) r1) as [[[]|e] r2];
      [|discriminate]. simpl.
    destruct (Registry.register_module Incidents.get_tools
                (Incidents.execute_tool env) r2) as [[[]|e] r3];
      [|discriminate].
    now injection Hreg as ->.
  - reflexivity.
  - intros dispatch tools t Hm Hin. unfold Registry.get_tool.
    now rewrite (server_registry_lookup env dispatch tools).
  - intros n Hn. now apply server_registry_undeclared.
Qed.

Lemma server_initialize_registers_all_witness :
  exists w1 : World,
    Provider.initialize accepting_env sample_world = (Ret tt, w1) /\
    Server.initialize accepting_env
      (Server.__init__
         (mkSettings "id-1234" "s3cr3t" "https://api.crowdstrike.com"))
    = (Ret tt, Server.mkServer w1 (Some (server_registry accepting_env))).
Proof.
  eexists. split; [exact sample_initialize_accepted|].
  apply (server_initialize_registers_all accepting_env
           (Server.__init__
              (mkSettings "id-1234" "s3cr3t" "https://api.crowdstrike.com"))).
  exact sample_initialize_accepted.
Defined.

(** X23. When the provider fails to initialize, [MCPServer.initialize]
    raises the same exception and creates no registry; [execute_tool] of
    the server then raises [RuntimeError] without touching anything. *)
Theorem server_initialize_failure (env : Env) (s : Server.MCPServer)
    (w1 : World) (ex : Exn) (tool_name : string) (arguments : Dict) :
  Provider.initialize env (Server.server_world s) = (Raise ex, w1) ->
  let s1 := Server.mkServer w1 (Server._registry s) in
  Server.initialize env s = (Raise ex, s1) /\
  (Server._registry s = None ->
   Server.execute_tool tool_name arguments s1
   = (Raise (mkExn RuntimeError
               "Server not initialized. Call initialize() first."), s1)).
Proof.
  intros Hinit. simpl. split.
  - unfold Server.initialize, bind. unfold Server.on_provider at 1.
    now rewrite Hinit.
  - intros Hnone. unfold Server.execute_tool. simpl. now rewrite Hnone.
Qed.

Lemma server_initialize_failure_witness :
  exists (ex : Exn) (s1 : Server.MCPServer),
    Server.initialize rejecting_env
      (Server.__init__
         (mkSettings "id-1234" "s3cr3t" "https://api.crowdstrike.com"))
    = (Raise ex, s1) /\
    Server.execute_tool "contain_host" ∅ s1
    = (Raise (mkExn RuntimeError
                "Server not initialized. Call initialize() first."), s1).
Proof.
  destruct (server_initialize_failure rejecting_env
              (Server.__init__
                 (mkSettings "id-1234" "s3cr3t" "https://api.crowdstrike.com"))
              _ _ "contain_host" ∅ sample_initialize_rejected)
    as [Hinit Hexec].
  eexists _, _. split; [exact Hinit|]. apply Hexec. reflexivity.
Defined.

Lemma returns_bind_ret {S A} (m : M S A) (Q : A -> Prop) :
  returns m Q -> returns (a <- m ;; ret a) Q.
Proof.
  intros Hm s a. unfold bind, ret. specialize (Hm s).
  destruct (m s) as [[a'|e] s']; simpl in *; [|discriminate].
  intros [= <-]. now apply Hm.
Qed.

(** X24. Once the server is initialized, [execute_tool] of the server never
    raises, whatever the name and the arguments: it returns an envelope
    built by one of the response constructors. *)
Theorem server_execute_tool_total (env : Env) (w : World)
    (tool_name : string) (arguments : Dict) :
  exists e : Dict,
    (Server.execute_tool tool_name arguments
       (Server.mkServer w (Some (server_registry env)))).1 = Ret e /\
    constructed e.
Proof.
  unfold Server.execute_tool, Server.on_provider. simpl.
  assert (total (Registry.execute_tool (server_registry env) tool_name arguments)
          /\ returns (Registry.execute_tool (server_registry env) tool_name
                        arguments) constructed) as [Htotal Hret].
  { unfold Registry.execute_tool, Registry.get_tool.
    destruct (Registry._tools (server_registry env) !! tool_name)
      as [tool|] eqn:Hget.
    - split.
      + apply total_try. intros e. apply total_ret.
      + apply returns_try.
        * destruct (server_registry_handler env tool_name tool Hget)
            as (dispatch & Hd & ->).
          unfold Registry.bound_handler.
          destruct (dispatch_is_refresh_then_route env dispatch tool_name
                      arguments Hd) as (route & -> & _ & _ & Hroute).
          apply returns_bind_ret.
          apply returns_bind. intros _. exact Hroute.
        * intros e. apply returns_ret. apply constructed_error.
    - split.
      + apply total_ret.
      + apply returns_ret. apply constructed_error. }
  destruct (Htotal w) as [e He]. exists e.
  destruct (Registry.execute_tool (server_registry env) tool_name arguments w)
    as [r w1] eqn:Hrun. simpl in *. subst r.
  split; [reflexivity|]. apply (Hret w). now rewrite Hrun.
Qed.

(** * The SDK client *)

(** The nine methods of the client that call a tool *)
Inductive sdk_method : (Env -> M Sdk.CrowdStrikeClient Dict) -> Prop :=
  | sdk_query_devices_by_filter filter limit offset sort :
      sdk_method (fun env => Sdk.query_devices_by_filter env filter limit offset sort)
  | sdk_get_device_details device_ids :
      sdk_method (fun env => Sdk.get_device_details env device_ids)
  | sdk_contain_host device_id :
      sdk_method (fun env => Sdk.contain_host env device_id)
  | sdk_lift_containment device_id :
      sdk_method (fun env => Sdk.lift_containment env device_id)
  | sdk_query_detections filter limit offset sort :
      sdk_method (fun env => Sdk.query_detections env filter limit offset sort)
  | sdk_get_detection_details detection_ids :
      sdk_method (fun env => Sdk.get_detection_details env detection_ids)
  | sdk_update_detection_status detection_ids status comment :
      sdk_method (fun env =>
                    Sdk.update_detection_status env detection_ids status comment)
  | sdk_query_incidents filter limit offset sort :
      sdk_method (fun env => Sdk.query_incidents env filter limit offset sort)
  | sdk_get_incident_details incident_ids :
      sdk_method (fun env => Sdk.get_incident_details env incident_ids).

(** X25. Every tool method of a client that is not initialized raises
    [RuntimeError] at once: the client is left as it was, and neither the
    provider nor the remote service is touched. *)
Theorem sdk_requires_initialize (env : Env) method (c : Sdk.CrowdStrikeClient) :
  sdk_method method ->
  Sdk.client_initialized c = false ->
  method env c
  = (Raise (mkExn RuntimeError
              "Client not initialized. Use 'async with' or call initialize() first."),
     c).
Proof.
  intros Hm Hnot.
  destruct Hm;
    unfold Sdk.query_devices_by_filter, Sdk.get_device_details,
      Sdk.contain_host, Sdk.lift_containment, Sdk.query_detections,
      Sdk.get_detection_details, Sdk.update_detection_status,
      Sdk.query_incidents, Sdk.get_incident_details,
      Sdk._ensure_initialized, Sdk.this, bind, raise, ret;
    simpl; now rewrite Hnot.
Qed.

Lemma sdk_requires_initialize_witness :
  let c := Sdk.created
             (mkSettings "id-1234" "s3cr3t" "https://api.crowdstrike.com") in
  Sdk.contain_host accepting_env (VStr "d1") c
  = (Raise (mkExn RuntimeError
              "Client not initialized. Use 'async with' or call initialize() first."),
     c).
Proof.
  apply (sdk_requires_initialize accepting_env
           (fun env => Sdk.contain_host env (VStr "d1"))).
  - apply (sdk_contain_host (VStr "d1")).
  - reflexivity.
Defined.

(** X26. [initialize] of the client marks it initialized only when the
    provider initialized: when the provider raises, the exception leaves
    the client and the flag stays false, so the tool methods keep raising.
    On a client that is initialized, [initialize] does nothing at all: the
    provider is not even called. *)
Theorem sdk_initialize (env : Env) (c : Sdk.CrowdStrikeClient) :
  (Sdk.client_initialized c = true -> Sdk.initialize env c = (Ret tt, c)) /\
  (Sdk.client_initialized c = false ->
   forall w1,
     (Provider.initialize env (Sdk.client_world c) = (Ret tt, w1) ->
      Sdk.initialize env c = (Ret tt, Sdk.mkClient w1 true)) /\
     (forall ex,
         Provider.initialize env (Sdk.client_world c) = (Raise ex, w1) ->
         Sdk.initialize env c = (Raise ex, Sdk.mkClient w1 false))).
Proof.
  split.
  - intros Hinit. unfold Sdk.initialize, Sdk.this, bind, ret. simpl.
    now rewrite Hinit.
  - intros Hnot w1. split.
    + intros Hrun. unfold Sdk.initialize, Sdk.this, Sdk.on_provider,
        Sdk.set_client_initialized, bind. simpl.
      now rewrite Hnot, Hrun.
    + intros ex Hrun. unfold Sdk.initialize, Sdk.this, Sdk.on_provider,
        Sdk.set_client_initialized, bind. simpl.
      now rewrite Hnot, Hrun, Hnot.
Qed.

Lemma sdk_initialize_witness :
  let c := Sdk.created
             (mkSettings "id-1234" "s3cr3t" "https://api.crowdstrike.com") in
  exists (ex : Exn) (w1 : World),
    Sdk.initialize rejecting_env c = (Raise ex, Sdk.mkClient w1 false).
Proof.
  simpl.
  destruct (sdk_initialize rejecting_env
              (Sdk.created
                 (mkSettings "id-1234" "s3cr3t" "https://api.crowdstrike.com")))
    as [_ Hfresh].
  destruct (Hfresh eq_refl
              (mkWorld
                 (set_oauth2
                    (Some (mkOAuth2 "id-1234" "s3cr3t"
                             "https://api.crowdstrike.com"))
                    (w_provider sample_world))
                 [EvInitialize;
                  EvToken (mkOAuth2 "id-1234" "s3cr3t"
                             "https://api.crowdstrike.com")]))
    as [_ Hraise].
  eexists _, _. apply Hraise. exact sample_initialize_rejected.
Defined.

(** X27. [close] shuts the provider down exactly once and clears the flag
    of the client; on a client that is not initialized, and hence on a
    second [close] in a row, it does nothing and the provider is not
    called. *)
Theorem sdk_close (env : Env) (c : Sdk.CrowdStrikeClient) :
  let c1 := (Sdk.close env c).2 in
  (Sdk.close env c).1 = Ret tt /\
  Sdk.client_initialized c1 = false /\
  (Sdk.client_initialized c = false -> c1 = c) /\
  (Sdk.client_initialized c = true ->
   Sdk.client_world c1 = (Provider.shutdown env (Sdk.client_world c)).2) /\
  Sdk.close env c1 = (Ret tt, c1).
Proof.
  simpl. unfold Sdk.close, Sdk.this, Sdk.on_provider, Sdk.set_client_initialized,
    bind, ret. simpl.
  destruct (Sdk.client_initialized c) eqn:Hinit; simpl.
  - rewrite shutdown_runs. simpl. repeat split; discriminate.
  - rewrite Hinit. repeat split; discriminate.
Qed.

Lemma sdk_close_witness :
  Sdk.client_world
    (Sdk.close accepting_env (Sdk.mkClient ready_world true)).2
  = (Provider.shutdown accepting_env ready_world).2 /\
  (Sdk.close accepting_env
     (Sdk.created
        (mkSettings "id-1234" "s3cr3t" "https://api.crowdstrike.com"))).2
  = Sdk.created (mkSettings "id-1234" "s3cr3t" "https://api.crowdstrike.com").
Proof.
  split.
  - destruct (sdk_close accepting_env (Sdk.mkClient ready_world true))
      as (_ & _ & _ & Hopen & _).
    apply Hopen. reflexivity.
  - destruct (sdk_close accepting_env
                (Sdk.created
                   (mkSettings "id-1234" "s3cr3t"
                      "https://api.crowdstrike.com")))
      as (_ & _ & Hclosed & _).
    apply Hclosed. reflexivity.
Defined.

(** X28. The query methods of the client pass [None] for a filter or a sort
    that was not given, and the tool drops it: on an initialized client
    whose provider holds a live session, [query_devices_by_filter] with no
    filter and no sort sends exactly [limit] and [offset] to the remote
    service. *)
Theorem sdk_query_omits_absent_filter (env : Env) (c : Sdk.CrowdStrikeClient)
    (limit offset : Value) (h : Service) :
  let w := Sdk.client_world c in
  let kwargs : Dict := <["offset" := offset]> (<["limit" := limit]> ∅) in
  Sdk.client_initialized c = true ->
  _initialized (w_provider w) = true ->
  _hosts (w_provider w) = Some h ->
  (time_time env (w_trace w) < _token_expiry (w_provider w))%Z ->
  Sdk.client_world
    (Sdk.query_devices_by_filter env VNone limit offset VNone c).2
  = mkWorld (w_provider w)
      (w_trace w ++ [EvCall h op_query_devices_by_filter kwargs]).
Proof.
  simpl. intros Hinit Hready Hh Hfresh.
  unfold Sdk.query_devices_by_filter, Sdk._ensure_initialized, Sdk.this,
    Sdk.on_provider, bind at 1 2, ret. simpl. rewrite Hinit. simpl.
  unfold Hosts.execute_tool, bind at 1. rewrite refresh_when_fresh by done.
  change (Hosts.route env "query_devices_by_filter"
            (Sdk.query_arguments VNone limit offset VNone))
    with (Hosts._query_devices_by_filter env
            (Sdk.query_arguments VNone limit offset VNone)).
  pose proof (query_tool_trace env
                (Sdk.query_arguments VNone limit offset VNone)
                (Sdk.client_world c) Hosts._query_devices_by_filter _hosts
                op_query_devices_by_filter "device_ids"
                "query_devices_by_filter" h query_tool_devices Hready Hh)
    as Hrun.
  destruct (query_params_lookup (Sdk.query_arguments VNone limit offset VNone))
    as (Hlimit & Hoffset & Hfilter & Hsort & Hother).
  set (kwargs := query_params_of
                   (Sdk.query_arguments VNone limit offset VNone)) in *.
  clearbody kwargs.
  assert (kwargs = <["offset" := offset]> (<["limit" := limit]> ∅)) as ->.
  { apply map_eq. intros k.
    destruct (decide (k = "offset")) as [->|Hk1];
      [now rewrite Hoffset, lookup_insert_eq|].
    destruct (decide (k = "limit")) as [->|Hk2];
      [now rewrite Hlimit, lookup_insert_ne, lookup_insert_eq|].
    rewrite !lookup_insert_ne, lookup_empty by done.
    destruct (decide (k = "filter")) as [->|Hk3]; [exact Hfilter|].
    destruct (decide (k = "sort")) as [->|Hk4]; [exact Hsort|].
    apply Hother. rewrite !not_elem_of_cons. repeat split; try done.
    apply not_elem_of_nil. }
  destruct (Hosts._query_devices_by_filter env
              (Sdk.query_arguments VNone limit offset VNone)
              (Sdk.client_world c)) as [r w'] eqn:E.
  simpl in *. now subst w'.
Qed.

Lemma sdk_query_omits_absent_filter_witness :
  Sdk.client_world
    (Sdk.query_devices_by_filter scenario_A_env VNone (VInt 100) (VInt 0) VNone
       (Sdk.mkClient ready_world true)).2
  = mkWorld (w_provider ready_world)
      (w_trace ready_world
       ++ [EvCall (mkService HostsApi (VStr "token-1")
                     "https://api.crowdstrike.com")
             op_query_devices_by_filter
             (<["offset" := VInt 0]> (<["limit" := VInt 100]> ∅))]).
Proof.
  apply (sdk_query_omits_absent_filter scenario_A_env
           (Sdk.mkClient ready_world true) (VInt 100) (VInt 0)).
  - reflexivity.
  - reflexivity.
  - reflexivity.
  - simpl. lia.
Defined.

(** * The validator of the base URL *)

(** A run of slashes *)
Fixpoint slashes (n : nat) : string :=
  match n with
  | O => EmptyString
  | S n => String "/"%char (slashes n)
  end.

Fixpoint ends_with_slash (s : string) : bool :=
  match s with
  | EmptyString => false
  | String c EmptyString => Ascii.eqb c "/"%char
  | String _ rest => ends_with_slash rest
  end.

Lemma rstrip_slash_decompose (s : string) :
  exists n : nat, s = Config.rstrip_slash s ++ slashes n.
Proof.
  induction s as [|c rest [n IH]].
  - now exists 0%nat.
  - simpl. destruct (Config.rstrip_slash rest) as [|c' kept] eqn:Hkept.
    + change (EmptyString ++ slashes n) with (slashes n) in IH.
      destruct (Ascii.eqb_spec c "/"%char) as [->|Hne].
      * exists (S n). simpl. now rewrite <- IH.
      * exists n. change (String c rest = String c (EmptyString ++ slashes n)).
        now rewrite <- IH.
    + exists n. change (String c rest = String c (String c' kept ++ slashes n)).
      now rewrite <- IH.
Qed.

Lemma rstrip_slash_no_trailing_slash (s : string) :
  ends_with_slash (Config.rstrip_slash s) = false.
Proof.
  induction s as [|c rest IH]; [reflexivity|].
  simpl. destruct (Config.rstrip_slash rest) as [|c' kept] eqn:Hkept.
  - destruct (Ascii.eqb_spec c "/"%char) as [->|Hne]; [reflexivity|].
    simpl. now apply Ascii.eqb_neq.
  - exact IH.
Qed.

Lemma rstrip_slash_fixed (s : string) :
  ends_with_slash s = false -> Config.rstrip_slash s = s.
Proof.
  induction s as [|c rest IH]; [reflexivity|].
  intros Hend. simpl in *. destruct rest as [|c' rest'].
  - simpl. now rewrite Hend.
  - rewrite IH by exact Hend. reflexivity.
Qed.

(** X29. [validate_base_url] accepts exactly the values that start with
    "http://" or "https://" and raises [ValueError] on every other one. The
    value it returns is the input without its trailing slashes: the input
    is the result followed by slashes only, the result does not end with a
    slash, and stripping it again changes nothing. *)
Theorem validate_base_url_strips (v : string) :
  (Config.startswith v "http://" = false ->
   Config.startswith v "https://" = false ->
   Config.validate_base_url v
   = Raise (mkExn ValueError "Base URL must start with http:// or https://")) /\
  (Config.startswith v "http://" = true \/ Config.startswith v "https://" = true ->
   exists (r : string) (n : nat),
     Config.validate_base_url v = Ret r /\
     v = r ++ slashes n /\
     ends_with_slash r = false /\
     Config.rstrip_slash r = r).
Proof.
  unfold Config.validate_base_url. split.
  - intros -> ->. reflexivity.
  - intros Hscheme.
    destruct (rstrip_slash_decompose v) as [n Hn].
    exists (Config.rstrip_slash v), n.
    split; [now destruct Hscheme as [-> | ->]; rewrite ?andb_false_r|].
    split; [exact Hn|].
    split; [apply rstrip_slash_no_trailing_slash|].
    apply rstrip_slash_fixed, rstrip_slash_no_trailing_slash.
Qed.

Lemma validate_base_url_strips_witness :
  exists (r : string) (n : nat),
    Config.validate_base_url "https://api.crowdstrike.com//" = Ret r /\
    "https://api.crowdstrike.com//" = r ++ slashes n /\
    ends_with_slash r = false /\
    Config.rstrip_slash r = r.
Proof.
  destruct (validate_base_url_strips "https://api.crowdstrike.com//")
    as [_ Haccept].
  apply Haccept. right. reflexivity.
Defined.

(** * Optional keys of the envelopes *)



